(** * claude-agent-sdk-go: the in-process MCP server, the message parser and
    the tool-name router, embedded in Rocq.

    The development follows the Go packages of the repository, in the files
    of the source tree that hold them:
    - [types]   : content blocks, messages and their JSON codecs
                  (types/messages.go); tools, schemas and [validateInput]
                  (types/options.go);
    - [mcp]     : JSON-RPC responses (unnamed/part_005) and [SdkMCPServer]
                  (the package mcp file in concurrent_client_test.go);
    - [transport]: [splitToolName] and [RouteToolUse]
                  (internal/transport/mcp.go).

    Go maps are finite maps ([gmap string _]); a JSON document is a tree whose
    objects keep the order and the repetitions of their members, because
    encoding/json reads members one after the other. *)

From Stdlib Require Import ZArith Floats Ascii String Lia.
From stdpp Require Import gmap strings list pretty.

Open Scope string_scope.
Open Scope list_scope.
Set Warnings "-register-all".

(** ** Go values held in an [interface{}] *)

(** The dynamic types the modelled code stores in, or asserts on, an
    [interface{}]. [float] is the kernel's binary64, Go's [float64]. A nil
    slice or map inside an interface is identified with the empty one: the
    modelled code tells them apart nowhere ([len], [range], index and type
    assertions agree on both). json.Marshal alone writes a nil one as
    [null]: where a value is encoded, [VSlice] and [VMap] stand for slices
    and maps that are not nil, as the decoder and composite literals build
    them. *)
Inductive value :=
| VNil                                  (* the nil interface *)
| VBool (b : bool)                      (* bool *)
| VFloat (f : float)                    (* float64 *)
| VInt (z : Z)                          (* int *)
| VString (s : string)                  (* string *)
| VSlice (l : list value)               (* []interface{} *)
| VMap (m : gmap string value)          (* map[string]interface{} *)
| VStrings (l : list string)            (* []string *)
| VStringMap (m : gmap string string).  (* map[string]string *)

(** [m[k]] on a [map[string]interface{}]: the nil interface when absent. *)
Definition index (m : gmap string value) (k : string) : value :=
  default VNil (m !! k).

(** Type assertions [v.(T)] in their comma-ok form. *)
Definition as_string (v : value) : option string :=
  match v with VString s => Some s | _ => None end.
Definition as_float64 (v : value) : option float :=
  match v with VFloat f => Some f | _ => None end.
Definition as_bool (v : value) : option bool :=
  match v with VBool b => Some b | _ => None end.
Definition as_slice (v : value) : option (list value) :=
  match v with VSlice l => Some l | _ => None end.
Definition as_map (v : value) : option (gmap string value) :=
  match v with VMap m => Some m | _ => None end.
Definition as_strings (v : value) : option (list string) :=
  match v with VStrings l => Some l | _ => None end.
Definition as_string_map (v : value) : option (gmap string string) :=
  match v with VStringMap m => Some m | _ => None end.

(** What [%T] prints for a value. *)
Definition type_name (v : value) : string :=
  match v with
  | VNil => "<nil>"
  | VBool _ => "bool"
  | VFloat _ => "float64"
  | VInt _ => "int"
  | VString _ => "string"
  | VSlice _ => "[]interface {}"
  | VMap _ => "map[string]interface {}"
  | VStrings _ => "[]string"
  | VStringMap _ => "map[string]string"
  end.

(** [a == b] on two interfaces: equal dynamic types and equal values; the
    comparison panics at run time when both hold the same uncomparable type
    (a slice or a map). [None] is that panic. *)
Definition iface_eq (a b : value) : option bool :=
  match a, b with
  | VNil, VNil => Some true
  | VBool x, VBool y => Some (Bool.eqb x y)
  | VFloat x, VFloat y => Some (PrimFloat.eqb x y)
  | VInt x, VInt y => Some (x =? y)%Z
  | VString x, VString y => Some (String.eqb x y)
  | VSlice _, VSlice _ => None
  | VMap _, VMap _ => None
  | VStrings _, VStrings _ => None
  | VStringMap _, VStringMap _ => None
  | _, _ => Some false
  end.

(** [f == float64(int64(f))]: [f] is finite, integral and in the range of
    [int64]. (For the values the conversion does not define, amd64 yields
    the minimum [int64] and the test fails.) *)
Definition int64_min : Z := - 2 ^ 63.
Definition int64_max : Z := 2 ^ 63 - 1.

Definition float_to_int64 (f : float) : option Z :=
  match Prim2SF f with
  | S754_zero _ => Some 0%Z
  | S754_finite s m e =>
      let mag :=
        if (0 <=? e)%Z then Some (Z.pos m * 2 ^ e)%Z
        else if (Z.pos m mod 2 ^ (- e) =? 0)%Z then Some (Z.pos m / 2 ^ (- e))%Z
        else None in
      match mag with
      | Some a =>
          let z := if s then (- a)%Z else a in
          if ((int64_min <=? z) && (z <=? int64_max))%Z then Some z else None
      | None => None
      end
  | _ => None
  end.

Definition is_int64_float (f : float) : bool :=
  match float_to_int64 f with Some _ => true | None => false end.

(** The [float64] nearest to an integer (what strconv.ParseFloat gives for
    an integer literal). *)
Definition float_of_Z (z : Z) : float :=
  SF2Prim (binary_normalize prec emax z 0 false).

(** ** Results of Go calls *)

(** A call returns, or panics. *)
Inductive outcome (A : Type) :=
| Returned (a : A)
| Panicked.
Arguments Returned {A} a.
Arguments Panicked {A}.

(** ** JSON documents *)

(** A number literal: [NInt z] is a literal in integer syntax; [NFloat f] is
    any other literal, given by the [float64] strconv.ParseFloat reads from
    it, and also the literal json.Marshal writes for the [float64] [f]. The
    literal [-0] is left out: Go reads it as 0 into an [int] and as the
    negative zero into a [float64], where [NInt 0] is read as the positive
    zero. *)
Inductive number :=
| NInt (z : Z)
| NFloat (f : float).

(** A document as encoding/json scans it ([json.RawMessage] is a document
    that was not decoded yet). String literals are unquoted, which leaves
    well-formed UTF-8 (see [scanned] below); the members of an object are in
    the order of the text, repetitions included. *)
Inductive json :=
| JNull
| JBool (b : bool)
| JNumber (n : number)
| JString (s : string)
| JArray (l : list json)
| JObject (members : list (string * json)).

(** [json.Unmarshal(data, &x)] for [x interface{}]: numbers become
    [float64] (a literal outside its range is an error), arrays
    [[]interface{}], objects [map[string]interface{}] where a repeated
    member overwrites the earlier one. [None] is the decoder's error. *)
Definition unmarshal_number (n : number) : option float :=
  let f := match n with NInt z => float_of_Z z | NFloat f => f end in
  if is_finite f then Some f else None.

Fixpoint unmarshal_any (j : json) : option value :=
  match j with
  | JNull => Some VNil
  | JBool b => Some (VBool b)
  | JNumber n => VFloat <$> unmarshal_number n
  | JString s => Some (VString s)
  | JArray l =>
      VSlice <$> foldr (fun x acc =>
                          match unmarshal_any x, acc with
                          | Some v, Some vs => Some (v :: vs)
                          | _, _ => None
                          end) (Some []) l
  | JObject members =>
      VMap <$> foldl (fun acc kv =>
                        match acc, unmarshal_any kv.2 with
                        | Some m, Some v => Some (<[kv.1 := v]> m)
                        | _, _ => None
                        end) (Some empty) members
  end.

(** The string literal json.Marshal writes, unquoted again: the encoder
    walks the string rune by rune (utf8.DecodeRuneInString) and writes a
    byte that starts no well-formed UTF-8 sequence as [\ufffd], the three
    bytes EF BF BD, going on at the next byte. [utf8_first] is the table of
    the first byte: the length of the sequence and the range of its second
    byte; the bytes after the second are in 80..BF. *)
Definition utf8_first (n : N) : option (nat * N * N) :=
  (if n <? 128 then Some (1%nat, 0, 0)
   else if (194 <=? n) && (n <=? 223) then Some (2%nat, 128, 191)
   else if n =? 224 then Some (3%nat, 160, 191)
   else if (225 <=? n) && (n <=? 236) then Some (3%nat, 128, 191)
   else if n =? 237 then Some (3%nat, 128, 159)
   else if (238 <=? n) && (n <=? 239) then Some (3%nat, 128, 191)
   else if n =? 240 then Some (4%nat, 144, 191)
   else if (241 <=? n) && (n <=? 243) then Some (4%nat, 128, 191)
   else if n =? 244 then Some (4%nat, 128, 143)
   else None)%N.

Definition in_range (lo hi : N) (c : ascii) : bool :=
  let n := N_of_ascii c in ((lo <=? n) && (n <=? hi))%N.

Definition replacement (rest : string) : string :=
  String (ascii_of_N 239) (String (ascii_of_N 191) (String (ascii_of_N 189) rest)).

Fixpoint coerce_utf8 (s : string) : string :=
  match s with
  | "" => ""
  | String c0 rest =>
      let invalid := replacement (coerce_utf8 rest) in
      match utf8_first (N_of_ascii c0) with
      | Some (1%nat, _, _) => String c0 (coerce_utf8 rest)
      | Some (2%nat, lo, hi) =>
          match rest with
          | String c1 rest1 =>
              if in_range lo hi c1
              then String c0 (String c1 (coerce_utf8 rest1))
              else invalid
          | _ => invalid
          end
      | Some (3%nat, lo, hi) =>
          match rest with
          | String c1 (String c2 rest2) =>
              if in_range lo hi c1 && in_range 128 191 c2
              then String c0 (String c1 (String c2 (coerce_utf8 rest2)))
              else invalid
          | _ => invalid
          end
      | Some (_, lo, hi) =>
          match rest with
          | String c1 (String c2 (String c3 rest3)) =>
              if in_range lo hi c1 && in_range 128 191 c2 && in_range 128 191 c3
              then String c0 (String c1 (String c2 (String c3 (coerce_utf8 rest3))))
              else invalid
          | _ => invalid
          end
      | None => invalid
      end
  end.

Definition marshal_string (s : string) : json := JString (coerce_utf8 s).

(** [json.Marshal(v)] as a document; [None] is the encoder's
    UnsupportedValueError (a NaN or an infinity). Two things are left to the
    text: the encoder prints an integral [float64] below 1e21 in integer
    syntax, which only a reader decoding that member into an integer field
    could notice, and it writes the keys of a map sorted, where this model
    lists them in the order of [map_fold]; every reader below puts them in a
    map again. *)
Fixpoint marshal_value (v : value) : option json :=
  match v with
  | VNil => Some JNull
  | VBool b => Some (JBool b)
  | VFloat f => if is_finite f then Some (JNumber (NFloat f)) else None
  | VInt z => Some (JNumber (NInt z))
  | VString s => Some (marshal_string s)
  | VSlice l =>
      JArray <$> foldr (fun x acc =>
                          match marshal_value x, acc with
                          | Some j, Some js => Some (j :: js)
                          | _, _ => None
                          end) (Some []) l
  | VMap m =>
      JObject <$> map_fold (fun k x acc =>
                              match marshal_value x, acc with
                              | Some j, Some js => Some ((coerce_utf8 k, j) :: js)
                              | _, _ => None
                              end) (Some []) m
  | VStrings l => Some (JArray (marshal_string <$> l))
  | VStringMap m =>
      Some (JObject ((fun kv => (coerce_utf8 kv.1, marshal_string kv.2))
                       <$> map_to_list m))
  end.

Definition marshal_map (m : gmap string value) : option json :=
  marshal_value (VMap m).

(** *** Decoding into struct fields *)

(** encoding/json matches a member to the field whose name is equal to the
    key, or else equal to it under [foldName]: ASCII letters in upper case
    and every other rune replaced by the least rune of its case orbit. Two
    runes beyond ASCII fold to an ASCII letter, U+017F (bytes C5 BF) to [S]
    and U+212A (bytes E2 84 AA) to [K]; any other keeps a byte above 127 and
    so equals no field name. The field names of each struct below stay
    distinct under folding, so that the two steps amount to comparing the
    folded names. *)
Definition is_lower (c : ascii) : bool :=
  let n := N_of_ascii c in ((97 <=? n) && (n <=? 122))%N.

Fixpoint foldName (s : string) : string :=
  match s with
  | "" => ""
  | String c rest =>
      let n := N_of_ascii c in
      if is_lower c then String (ascii_of_N (n - 32)) (foldName rest)
      else
        match rest with
        | String c1 rest1 =>
            if ((n =? 197) && (N_of_ascii c1 =? 191))%N
            then String "S"%char (foldName rest1)
            else
              match rest1 with
              | String c2 rest2 =>
                  if ((n =? 226) && (N_of_ascii c1 =? 132)
                      && (N_of_ascii c2 =? 170))%N
                  then String "K"%char (foldName rest2)
                  else String c (foldName rest)
              | "" => String c (foldName rest)
              end
        | "" => String c (foldName rest)
        end
  end.

Definition field_match (key name : string) : bool :=
  String.eqb (foldName key) (foldName name).

(** Decoding an object into a struct: the members are taken in order, each
    assigned to the field it matches (a later member overwrites), unmatched
    members are skipped. [null] leaves the struct as it is; any other
    document is a type error. The decoder goes on after a type error and
    reports it at the end: the callers below discard the struct then, so
    [None] stands for it. *)
Definition unmarshal_struct {S : Type}
    (assign : string -> json -> S -> option S) (data : json) (zero : S)
  : option S :=
  match data with
  | JNull => Some zero
  | JObject members =>
      foldl (fun acc kv =>
               match acc with
               | Some s => assign kv.1 kv.2 s
               | None => None
               end) (Some zero) members
  | _ => None
  end.

(** Field decoders: the new value of a field of the given Go type, from the
    member's document and the field's current value. *)
Definition dec_string (j : json) (old : string) : option string :=
  match j with JString s => Some s | JNull => Some old | _ => None end.

Definition dec_string_ptr (j : json) : option (option string) :=
  match j with JString s => Some (Some s) | JNull => Some None | _ => None end.

Definition dec_bool (j : json) (old : bool) : option bool :=
  match j with JBool b => Some b | JNull => Some old | _ => None end.

Definition dec_bool_ptr (j : json) : option (option bool) :=
  match j with JBool b => Some (Some b) | JNull => Some None | _ => None end.

Definition dec_int (j : json) (old : Z) : option Z :=
  match j with
  | JNumber (NInt z) =>
      if ((int64_min <=? z) && (z <=? int64_max))%Z then Some z else None
  | JNull => Some old
  | _ => None
  end.

Definition dec_float64_ptr (j : json) : option (option float) :=
  match j with
  | JNumber n => Some <$> unmarshal_number n
  | JNull => Some None
  | _ => None
  end.

(** [interface{}]: whatever the field held is replaced. *)
Definition dec_any (j : json) : option value := unmarshal_any j.

(** [map[string]interface{}]: [null] empties the map, an object is decoded
    into the map the field already holds. *)
Definition dec_any_map (j : json) (old : gmap string value)
  : option (gmap string value) :=
  match j with
  | JNull => Some empty
  | JObject members =>
      foldl (fun acc kv =>
               match acc, unmarshal_any kv.2 with
               | Some m, Some v => Some (<[kv.1 := v]> m)
               | _, _ => None
               end) (Some old) members
  | _ => None
  end.

(** [map[string]json.RawMessage]: as above, the members kept undecoded. *)
Definition dec_raw_map (j : json) (old : gmap string json)
  : option (gmap string json) :=
  match j with
  | JNull => Some empty
  | JObject members => Some (foldl (fun m kv => <[kv.1 := kv.2]> m) old members)
  | _ => None
  end.

(** [[]json.RawMessage]: [None] is the nil slice, which [null] gives. *)
Definition dec_raw_slice (j : json) : option (option (list json)) :=
  match j with
  | JNull => Some None
  | JArray l => Some (Some l)
  | _ => None
  end.

(** * Package types: content blocks and messages (types/messages.go) *)

Inductive result (E A : Type) :=
| Ok (a : A)
| Err (e : E).
Arguments Ok {E A} a.
Arguments Err {E A} e.

(** The errors of the message parser. [NewCLIJSONDecodeErrorWithCause] and
    [NewMessageParseErrorWithType] build the last two; the first stands for
    any error returned by encoding/json. *)
Inductive decode_error :=
| JSONError
| ErrorString (msg : string)
| CLIJSONDecodeError (msg : string) (data : json) (cause : decode_error)
| MessageParseError (msg : string) (typ : string).

(** The four content blocks. A block and a pointer to it are one here: they
    encode alike and nothing modelled asserts on the difference. *)
Record TextBlock := mkTextBlock {
  TextBlock_Type : string;
  TextBlock_Text : string }.

Record ThinkingBlock := mkThinkingBlock {
  ThinkingBlock_Type : string;
  ThinkingBlock_Thinking : string;
  ThinkingBlock_Signature : string }.

Record ToolUseBlock := mkToolUseBlock {
  ToolUseBlock_Type : string;
  ToolUseBlock_ID : string;
  ToolUseBlock_Name : string;
  ToolUseBlock_Input : gmap string value }.

Record ToolResultBlock := mkToolResultBlock {
  ToolResultBlock_Type : string;
  ToolResultBlock_ToolUseID : string;
  ToolResultBlock_Content : value;          (* interface{} *)
  ToolResultBlock_IsError : option bool }.  (* *bool *)

Inductive ContentBlock :=
| OfTextBlock (b : TextBlock)
| OfThinkingBlock (b : ThinkingBlock)
| OfToolUseBlock (b : ToolUseBlock)
| OfToolResultBlock (b : ToolResultBlock).

Definition GetType (b : ContentBlock) : string :=
  match b with
  | OfTextBlock t => TextBlock_Type t
  | OfThinkingBlock t => ThinkingBlock_Type t
  | OfToolUseBlock t => ToolUseBlock_Type t
  | OfToolResultBlock t => ToolResultBlock_Type t
  end.

(** [struct { Type string `json:"type"` }] *)
Definition typeCheck_assign (key : string) (j : json) (t : string)
  : option string :=
  if field_match key "type" then dec_string j t else Some t.

Definition TextBlock_assign (key : string) (j : json) (b : TextBlock)
  : option TextBlock :=
  if field_match key "type" then
    (fun v => mkTextBlock v (TextBlock_Text b)) <$> dec_string j (TextBlock_Type b)
  else if field_match key "text" then
    (fun v => mkTextBlock (TextBlock_Type b) v) <$> dec_string j (TextBlock_Text b)
  else Some b.

Definition ThinkingBlock_assign (key : string) (j : json) (b : ThinkingBlock)
  : option ThinkingBlock :=
  if field_match key "type" then
    (fun v => mkThinkingBlock v (ThinkingBlock_Thinking b) (ThinkingBlock_Signature b))
      <$> dec_string j (ThinkingBlock_Type b)
  else if field_match key "thinking" then
    (fun v => mkThinkingBlock (ThinkingBlock_Type b) v (ThinkingBlock_Signature b))
      <$> dec_string j (ThinkingBlock_Thinking b)
  else if field_match key "signature" then
    (fun v => mkThinkingBlock (ThinkingBlock_Type b) (ThinkingBlock_Thinking b) v)
      <$> dec_string j (ThinkingBlock_Signature b)
  else Some b.

Definition ToolUseBlock_assign (key : string) (j : json) (b : ToolUseBlock)
  : option ToolUseBlock :=
  if field_match key "type" then
    (fun v => mkToolUseBlock v (ToolUseBlock_ID b) (ToolUseBlock_Name b) (ToolUseBlock_Input b))
      <$> dec_string j (ToolUseBlock_Type b)
  else if field_match key "id" then
    (fun v => mkToolUseBlock (ToolUseBlock_Type b) v (ToolUseBlock_Name b) (ToolUseBlock_Input b))
      <$> dec_string j (ToolUseBlock_ID b)
  else if field_match key "name" then
    (fun v => mkToolUseBlock (ToolUseBlock_Type b) (ToolUseBlock_ID b) v (ToolUseBlock_Input b))
      <$> dec_string j (ToolUseBlock_Name b)
  else if field_match key "input" then
    (fun v => mkToolUseBlock (ToolUseBlock_Type b) (ToolUseBlock_ID b) (ToolUseBlock_Name b) v)
      <$> dec_any_map j (ToolUseBlock_Input b)
  else Some b.

Definition ToolResultBlock_assign (key : string) (j : json) (b : ToolResultBlock)
  : option ToolResultBlock :=
  if field_match key "type" then
    (fun v => mkToolResultBlock v (ToolResultBlock_ToolUseID b)
                (ToolResultBlock_Content b) (ToolResultBlock_IsError b))
      <$> dec_string j (ToolResultBlock_Type b)
  else if field_match key "tool_use_id" then
    (fun v => mkToolResultBlock (ToolResultBlock_Type b) v
                (ToolResultBlock_Content b) (ToolResultBlock_IsError b))
      <$> dec_string j (ToolResultBlock_ToolUseID b)
  else if field_match key "content" then
    (fun v => mkToolResultBlock (ToolResultBlock_Type b) (ToolResultBlock_ToolUseID b)
                v (ToolResultBlock_IsError b))
      <$> dec_any j
  else if field_match key "is_error" then
    (fun v => mkToolResultBlock (ToolResultBlock_Type b) (ToolResultBlock_ToolUseID b)
                (ToolResultBlock_Content b) v)
      <$> dec_bool_ptr j
  else Some b.

(** [UnmarshalContentBlock]: read the discriminant, then decode the block
    of that type; an unknown discriminant is a [MessageParseError]. *)
Definition UnmarshalContentBlock (data : json) : result decode_error ContentBlock :=
  match unmarshal_struct typeCheck_assign data "" with
  | None =>
      Err (CLIJSONDecodeError "failed to determine content block type" data JSONError)
  | Some typ =>
      if String.eqb typ "text" then
        match unmarshal_struct TextBlock_assign data (mkTextBlock "" "") with
        | None => Err (CLIJSONDecodeError "failed to unmarshal text block" data JSONError)
        | Some block => Ok (OfTextBlock block)
        end
      else if String.eqb typ "thinking" then
        match unmarshal_struct ThinkingBlock_assign data (mkThinkingBlock "" "" "") with
        | None => Err (CLIJSONDecodeError "failed to unmarshal thinking block" data JSONError)
        | Some block => Ok (OfThinkingBlock block)
        end
      else if String.eqb typ "tool_use" then
        match unmarshal_struct ToolUseBlock_assign data (mkToolUseBlock "" "" "" empty) with
        | None => Err (CLIJSONDecodeError "failed to unmarshal tool_use block" data JSONError)
        | Some block => Ok (OfToolUseBlock block)
        end
      else if String.eqb typ "tool_result" then
        match unmarshal_struct ToolResultBlock_assign data
                (mkToolResultBlock "" "" VNil None) with
        | None => Err (CLIJSONDecodeError "failed to unmarshal tool_result block" data JSONError)
        | Some block => Ok (OfToolResultBlock block)
        end
      else Err (MessageParseError "unknown content block type" typ)
  end.

(** The discriminants [UnmarshalContentBlock] knows. *)
Definition known_block_type (typ : string) : bool :=
  String.eqb typ "text" || String.eqb typ "thinking"
  || String.eqb typ "tool_use" || String.eqb typ "tool_result".

(** The loop [for i, rawBlock := range raws]: decode each block in order,
    return the first error. *)
Fixpoint unmarshal_blocks (raws : list json)
  : result decode_error (list ContentBlock) :=
  match raws with
  | [] => Ok []
  | rawBlock :: rest =>
      match UnmarshalContentBlock rawBlock with
      | Err err => Err err
      | Ok block =>
          match unmarshal_blocks rest with
          | Err err => Err err
          | Ok blocks => Ok (block :: blocks)
          end
      end
  end.

(** *** Messages *)

(** [UserMessage.Content] is an [interface{}]: a string or a slice of
    content blocks once decoded, nil in the zero struct. [ContentBlocks] is a
    slice that is not nil; a nil slice of blocks held in the interface is
    written as [null], as the nil interface [ContentNil] is, which stands for
    it too. *)
Inductive UserContent :=
| ContentNil
| ContentString (s : string)
| ContentBlocks (blocks : list ContentBlock).

Record UserMessage := mkUserMessage {
  UserMessage_Type : string;
  UserMessage_Content : UserContent;
  UserMessage_ParentToolUseID : option string;
  UserMessage_UUID : option string }.

Record AssistantMessage := mkAssistantMessage {
  AssistantMessage_Type : string;
  AssistantMessage_Content : list ContentBlock;
  AssistantMessage_Model : string;
  AssistantMessage_ParentToolUseID : option string;
  AssistantMessage_Error : option string }.   (* *AssistantMessageError *)

Record SystemMessage := mkSystemMessage {
  SystemMessage_Type : string;
  SystemMessage_Subtype : string;
  SystemMessage_Data : gmap string value;
  SystemMessage_Response : gmap string value;
  SystemMessage_Request : gmap string value;
  SystemMessage_RequestID : string }.

Record ResultMessage := mkResultMessage {
  ResultMessage_Type : string;
  ResultMessage_Subtype : string;
  ResultMessage_DurationMs : Z;
  ResultMessage_DurationAPIMs : Z;
  ResultMessage_IsError : bool;
  ResultMessage_NumTurns : Z;
  ResultMessage_SessionID : string;
  ResultMessage_TotalCostUSD : option float;
  ResultMessage_Usage : gmap string value;
  ResultMessage_Result : option string;
  ResultMessage_StructuredOutput : value }.

Record StreamEvent := mkStreamEvent {
  StreamEvent_Type : string;
  StreamEvent_UUID : string;
  StreamEvent_SessionID : string;
  StreamEvent_Event : gmap string value;
  StreamEvent_ParentToolUseID : option string }.

Inductive Message :=
| OfUserMessage (m : UserMessage)
| OfAssistantMessage (m : AssistantMessage)
| OfSystemMessage (m : SystemMessage)
| OfResultMessage (m : ResultMessage)
| OfStreamEvent (m : StreamEvent).

Definition GetMessageType (m : Message) : string :=
  match m with
  | OfUserMessage u => UserMessage_Type u
  | OfAssistantMessage a => AssistantMessage_Type a
  | OfSystemMessage s => SystemMessage_Type s
  | OfResultMessage r => ResultMessage_Type r
  | OfStreamEvent e => StreamEvent_Type e
  end.

(** The auxiliary struct of [UserMessage.UnmarshalJSON]: [Content],
    [Message] and [UUID] of its own, and the embedded [*Alias], of which
    the decoder reaches [Type] and [ParentToolUseID] ([Content] and [UUID]
    of the alias are hidden by the shallower fields of the same name). *)
Record UserAux := mkUserAux {
  UserAux_Content : option json;            (* json.RawMessage, nil if absent *)
  UserAux_Message : gmap string json;       (* map[string]json.RawMessage *)
  UserAux_UUID : option string;
  UserAux_Type : string;
  UserAux_ParentToolUseID : option string }.

Definition UserAux_assign (key : string) (j : json) (a : UserAux) : option UserAux :=
  if field_match key "content" then
    Some (mkUserAux (Some j) (UserAux_Message a) (UserAux_UUID a)
            (UserAux_Type a) (UserAux_ParentToolUseID a))
  else if field_match key "message" then
    (fun v => mkUserAux (UserAux_Content a) v (UserAux_UUID a)
                (UserAux_Type a) (UserAux_ParentToolUseID a))
      <$> dec_raw_map j (UserAux_Message a)
  else if field_match key "uuid" then
    (fun v => mkUserAux (UserAux_Content a) (UserAux_Message a) v
                (UserAux_Type a) (UserAux_ParentToolUseID a))
      <$> dec_string_ptr j
  else if field_match key "type" then
    (fun v => mkUserAux (UserAux_Content a) (UserAux_Message a) (UserAux_UUID a)
                v (UserAux_ParentToolUseID a))
      <$> dec_string j (UserAux_Type a)
  else if field_match key "parent_tool_use_id" then
    (fun v => mkUserAux (UserAux_Content a) (UserAux_Message a) (UserAux_UUID a)
                (UserAux_Type a) v)
      <$> dec_string_ptr j
  else Some a.

(** [json.Unmarshal(raw, &id)] for a fresh [var id string], kept when it
    returns no error. *)
Definition nested_string (raw : json) : option string := dec_string raw "".

(** The content of a user message from the chosen raw document: a string if
    it decodes as one, else an array of content blocks. *)
Definition user_content (contentRaw : json) : result decode_error UserContent :=
  match dec_string contentRaw "" with
  | Some contentStr => Ok (ContentString contentStr)
  | None =>
      match dec_raw_slice contentRaw with
      | Some contentArr =>
          match unmarshal_blocks (default [] contentArr) with
          | Err err => Err err
          | Ok blocks => Ok (ContentBlocks blocks)
          end
      | None => Err (ErrorString "content must be string or array of content blocks")
      end
  end.

Definition zero_UserAux : UserAux := mkUserAux None empty None "" None.

(** [m.UUID] after the two assignments: the top-level one, then the nested
    one if it decodes as a string. *)
Definition UserAux_uuid (aux : UserAux) : option string :=
  match UserAux_Message aux !! "uuid" with
  | Some uuidRaw =>
      match nested_string uuidRaw with
      | Some id => Some id
      | None => UserAux_UUID aux
      end
  | None => UserAux_UUID aux
  end.

(** [m.ParentToolUseID]: the top-level one (through the alias), then the
    nested one if it decodes as a string. *)
Definition UserAux_parentToolUseID (aux : UserAux) : option string :=
  match UserAux_Message aux !! "parent_tool_use_id" with
  | Some parentToolUseID =>
      match nested_string parentToolUseID with
      | Some id => Some id
      | None => UserAux_ParentToolUseID aux
      end
  | None => UserAux_ParentToolUseID aux
  end.

(** [contentRaw]: the nested message.content first, the top-level content
    otherwise; [None] is nil. *)
Definition UserAux_contentRaw (aux : UserAux) : option json :=
  match UserAux_Message aux !! "content" with
  | Some content => Some content
  | None => UserAux_Content aux
  end.

Definition UserMessage_UnmarshalJSON (data : json) : result decode_error UserMessage :=
  match unmarshal_struct UserAux_assign data zero_UserAux with
  | None => Err JSONError
  | Some aux =>
      match UserAux_contentRaw aux with
      | None => Err (ErrorString "missing content field")
      | Some contentRaw =>
          match user_content contentRaw with
          | Err err => Err err
          | Ok content =>
              Ok (mkUserMessage (UserAux_Type aux) content
                    (UserAux_parentToolUseID aux) (UserAux_uuid aux))
          end
      end
  end.

(** The auxiliary struct of [AssistantMessage.UnmarshalJSON]. *)
Record AssistantAux := mkAssistantAux {
  AssistantAux_Content : option (list json);   (* []json.RawMessage *)
  AssistantAux_Message : gmap string json;
  AssistantAux_Type : string;
  AssistantAux_Model : string;
  AssistantAux_ParentToolUseID : option string;
  AssistantAux_Error : option string }.

Definition AssistantAux_assign (key : string) (j : json) (a : AssistantAux)
  : option AssistantAux :=
  if field_match key "content" then
    (fun v => mkAssistantAux v (AssistantAux_Message a) (AssistantAux_Type a)
                (AssistantAux_Model a) (AssistantAux_ParentToolUseID a)
                (AssistantAux_Error a))
      <$> dec_raw_slice j
  else if field_match key "message" then
    (fun v => mkAssistantAux (AssistantAux_Content a) v (AssistantAux_Type a)
                (AssistantAux_Model a) (AssistantAux_ParentToolUseID a)
                (AssistantAux_Error a))
      <$> dec_raw_map j (AssistantAux_Message a)
  else if field_match key "type" then
    (fun v => mkAssistantAux (AssistantAux_Content a) (AssistantAux_Message a) v
                (AssistantAux_Model a) (AssistantAux_ParentToolUseID a)
                (AssistantAux_Error a))
      <$> dec_string j (AssistantAux_Type a)
  else if field_match key "model" then
    (fun v => mkAssistantAux (AssistantAux_Content a) (AssistantAux_Message a)
                (AssistantAux_Type a) v (AssistantAux_ParentToolUseID a)
                (AssistantAux_Error a))
      <$> dec_string j (AssistantAux_Model a)
  else if field_match key "parent_tool_use_id" then
    (fun v => mkAssistantAux (AssistantAux_Content a) (AssistantAux_Message a)
                (AssistantAux_Type a) (AssistantAux_Model a) v
                (AssistantAux_Error a))
      <$> dec_string_ptr j
  else if field_match key "error" then
    (fun v => mkAssistantAux (AssistantAux_Content a) (AssistantAux_Message a)
                (AssistantAux_Type a) (AssistantAux_Model a)
                (AssistantAux_ParentToolUseID a) v)
      <$> dec_string_ptr j
  else Some a.

Definition zero_AssistantAux : AssistantAux :=
  mkAssistantAux None empty "" "" None None.

(** [contentBlocks]: the nested message.content when it decodes as an
    array, the top-level content when that leaves it nil. *)
Definition AssistantAux_contentBlocks (aux : AssistantAux) : option (list json) :=
  let nestedBlocks :=
    match AssistantAux_Message aux !! "content" with
    | Some contentRaw =>
        match dec_raw_slice contentRaw with
        | Some nested => nested
        | None => None
        end
    | None => None
    end in
  match nestedBlocks with
  | Some nested => Some nested
  | None => AssistantAux_Content aux
  end.

(** [m.Model]: the top-level one, then the nested one if it decodes as a
    string. *)
Definition AssistantAux_model (aux : AssistantAux) : string :=
  match AssistantAux_Message aux !! "model" with
  | Some modelRaw =>
      match nested_string modelRaw with
      | Some model => model
      | None => AssistantAux_Model aux
      end
  | None => AssistantAux_Model aux
  end.

(** [m.Error]: the top-level one, then the nested one if it decodes as a
    string that is not empty. *)
Definition AssistantAux_error (aux : AssistantAux) : option string :=
  match AssistantAux_Message aux !! "error" with
  | Some errRaw =>
      match nested_string errRaw with
      | Some errCode =>
          if String.eqb errCode "" then AssistantAux_Error aux else Some errCode
      | None => AssistantAux_Error aux
      end
  | None => AssistantAux_Error aux
  end.

Definition AssistantMessage_UnmarshalJSON (data : json)
  : result decode_error AssistantMessage :=
  match unmarshal_struct AssistantAux_assign data zero_AssistantAux with
  | None => Err JSONError
  | Some aux =>
      match unmarshal_blocks (default [] (AssistantAux_contentBlocks aux)) with
      | Err err => Err err
      | Ok content =>
          Ok (mkAssistantMessage (AssistantAux_Type aux) content
                (AssistantAux_model aux) (AssistantAux_ParentToolUseID aux)
                (AssistantAux_error aux))
      end
  end.

Definition SystemMessage_assign (key : string) (j : json) (m : SystemMessage)
  : option SystemMessage :=
  if field_match key "type" then
    (fun v => mkSystemMessage v (SystemMessage_Subtype m) (SystemMessage_Data m)
                (SystemMessage_Response m) (SystemMessage_Request m)
                (SystemMessage_RequestID m))
      <$> dec_string j (SystemMessage_Type m)
  else if field_match key "subtype" then
    (fun v => mkSystemMessage (SystemMessage_Type m) v (SystemMessage_Data m)
                (SystemMessage_Response m) (SystemMessage_Request m)
                (SystemMessage_RequestID m))
      <$> dec_string j (SystemMessage_Subtype m)
  else if field_match key "data" then
    (fun v => mkSystemMessage (SystemMessage_Type m) (SystemMessage_Subtype m) v
                (SystemMessage_Response m) (SystemMessage_Request m)
                (SystemMessage_RequestID m))
      <$> dec_any_map j (SystemMessage_Data m)
  else if field_match key "response" then
    (fun v => mkSystemMessage (SystemMessage_Type m) (SystemMessage_Subtype m)
                (SystemMessage_Data m) v (SystemMessage_Request m)
                (SystemMessage_RequestID m))
      <$> dec_any_map j (SystemMessage_Response m)
  else if field_match key "request" then
    (fun v => mkSystemMessage (SystemMessage_Type m) (SystemMessage_Subtype m)
                (SystemMessage_Data m) (SystemMessage_Response m) v
                (SystemMessage_RequestID m))
      <$> dec_any_map j (SystemMessage_Request m)
  else if field_match key "request_id" then
    (fun v => mkSystemMessage (SystemMessage_Type m) (SystemMessage_Subtype m)
                (SystemMessage_Data m) (SystemMessage_Response m)
                (SystemMessage_Request m) v)
      <$> dec_string j (SystemMessage_RequestID m)
  else Some m.

Definition ResultMessage_assign (key : string) (j : json) (m : ResultMessage)
  : option ResultMessage :=
  let '(mkResultMessage typ subtype durationMs durationAPIMs isError numTurns
          sessionID totalCostUSD usage res structuredOutput) := m in
  if field_match key "type" then
    (fun v => mkResultMessage v subtype durationMs durationAPIMs isError numTurns
                sessionID totalCostUSD usage res structuredOutput)
      <$> dec_string j typ
  else if field_match key "subtype" then
    (fun v => mkResultMessage typ v durationMs durationAPIMs isError numTurns
                sessionID totalCostUSD usage res structuredOutput)
      <$> dec_string j subtype
  else if field_match key "duration_ms" then
    (fun v => mkResultMessage typ subtype v durationAPIMs isError numTurns
                sessionID totalCostUSD usage res structuredOutput)
      <$> dec_int j durationMs
  else if field_match key "duration_api_ms" then
    (fun v => mkResultMessage typ subtype durationMs v isError numTurns
                sessionID totalCostUSD usage res structuredOutput)
      <$> dec_int j durationAPIMs
  else if field_match key "is_error" then
    (fun v => mkResultMessage typ subtype durationMs durationAPIMs v numTurns
                sessionID totalCostUSD usage res structuredOutput)
      <$> dec_bool j isError
  else if field_match key "num_turns" then
    (fun v => mkResultMessage typ subtype durationMs durationAPIMs isError v
                sessionID totalCostUSD usage res structuredOutput)
      <$> dec_int j numTurns
  else if field_match key "session_id" then
    (fun v => mkResultMessage typ subtype durationMs durationAPIMs isError numTurns
                v totalCostUSD usage res structuredOutput)
      <$> dec_string j sessionID
  else if field_match key "total_cost_usd" then
    (fun v => mkResultMessage typ subtype durationMs durationAPIMs isError numTurns
                sessionID v usage res structuredOutput)
      <$> dec_float64_ptr j
  else if field_match key "usage" then
    (fun v => mkResultMessage typ subtype durationMs durationAPIMs isError numTurns
                sessionID totalCostUSD v res structuredOutput)
      <$> dec_any_map j usage
  else if field_match key "result" then
    (fun v => mkResultMessage typ subtype durationMs durationAPIMs isError numTurns
                sessionID totalCostUSD usage v structuredOutput)
      <$> dec_string_ptr j
  else if field_match key "structured_output" then
    (fun v => mkResultMessage typ subtype durationMs durationAPIMs isError numTurns
                sessionID totalCostUSD usage res v)
      <$> dec_any j
  else Some m.

Definition StreamEvent_assign (key : string) (j : json) (m : StreamEvent)
  : option StreamEvent :=
  if field_match key "type" then
    (fun v => mkStreamEvent v (StreamEvent_UUID m) (StreamEvent_SessionID m)
                (StreamEvent_Event m) (StreamEvent_ParentToolUseID m))
      <$> dec_string j (StreamEvent_Type m)
  else if field_match key "uuid" then
    (fun v => mkStreamEvent (StreamEvent_Type m) v (StreamEvent_SessionID m)
                (StreamEvent_Event m) (StreamEvent_ParentToolUseID m))
      <$> dec_string j (StreamEvent_UUID m)
  else if field_match key "session_id" then
    (fun v => mkStreamEvent (StreamEvent_Type m) (StreamEvent_UUID m) v
                (StreamEvent_Event m) (StreamEvent_ParentToolUseID m))
      <$> dec_string j (StreamEvent_SessionID m)
  else if field_match key "event" then
    (fun v => mkStreamEvent (StreamEvent_Type m) (StreamEvent_UUID m)
                (StreamEvent_SessionID m) v (StreamEvent_ParentToolUseID m))
      <$> dec_any_map j (StreamEvent_Event m)
  else if field_match key "parent_tool_use_id" then
    (fun v => mkStreamEvent (StreamEvent_Type m) (StreamEvent_UUID m)
                (StreamEvent_SessionID m) (StreamEvent_Event m) v)
      <$> dec_string_ptr j
  else Some m.

Definition zero_SystemMessage : SystemMessage :=
  mkSystemMessage "" "" empty empty empty "".
Definition zero_ResultMessage : ResultMessage :=
  mkResultMessage "" "" 0 0 false 0 "" None empty None VNil.
Definition zero_StreamEvent : StreamEvent :=
  mkStreamEvent "" "" "" empty None.

(** [UnmarshalMessage]: read the discriminant, decode the message of that
    type. [system], [control_request] and [control_response] are all decoded
    as a [SystemMessage]; its [subtype] is not inspected. *)
Definition UnmarshalMessage (data : json) : result decode_error Message :=
  match unmarshal_struct typeCheck_assign data "" with
  | None => Err (CLIJSONDecodeError "failed to determine message type" data JSONError)
  | Some typ =>
      if String.eqb typ "user" then
        match UserMessage_UnmarshalJSON data with
        | Err err => Err (CLIJSONDecodeError "failed to unmarshal user message" data err)
        | Ok msg => Ok (OfUserMessage msg)
        end
      else if String.eqb typ "assistant" then
        match AssistantMessage_UnmarshalJSON data with
        | Err err => Err (CLIJSONDecodeError "failed to unmarshal assistant message" data err)
        | Ok msg => Ok (OfAssistantMessage msg)
        end
      else if String.eqb typ "system" || String.eqb typ "control_request"
              || String.eqb typ "control_response" then
        match unmarshal_struct SystemMessage_assign data zero_SystemMessage with
        | None => Err (CLIJSONDecodeError "failed to unmarshal system message" data JSONError)
        | Some msg => Ok (OfSystemMessage msg)
        end
      else if String.eqb typ "result" then
        match unmarshal_struct ResultMessage_assign data zero_ResultMessage with
        | None => Err (CLIJSONDecodeError "failed to unmarshal result message" data JSONError)
        | Some msg => Ok (OfResultMessage msg)
        end
      else if String.eqb typ "stream_event" then
        match unmarshal_struct StreamEvent_assign data zero_StreamEvent with
        | None => Err (CLIJSONDecodeError "failed to unmarshal stream event" data JSONError)
        | Some msg => Ok (OfStreamEvent msg)
        end
      else Err (MessageParseError "unknown message type" typ)
  end.

(** *** Encoding (json.Marshal of the structs above) *)

(** Members of an object, as the struct tags ask for them. A field tagged
    [omitempty] is left out when it is the empty string, false, a nil
    pointer, a nil interface or a map of length zero. *)
Definition member_string_omitempty (k s : string) : list (string * json) :=
  if String.eqb s "" then [] else [(k, marshal_string s)].

Definition member_string_ptr_omitempty (k : string) (p : option string)
  : list (string * json) :=
  match p with Some s => [(k, marshal_string s)] | None => [] end.

Definition member_bool_ptr_omitempty (k : string) (p : option bool)
  : list (string * json) :=
  match p with Some b => [(k, JBool b)] | None => [] end.

Definition member_map (k : string) (m : gmap string value)
  : option (list (string * json)) :=
  (fun j => [(k, j)]) <$> marshal_map m.

Definition member_map_omitempty (k : string) (m : gmap string value)
  : option (list (string * json)) :=
  if Nat.eqb (size m) 0 then Some [] else member_map k m.

Definition member_any_omitempty (k : string) (v : value)
  : option (list (string * json)) :=
  match v with
  | VNil => Some []
  | _ => (fun j => [(k, j)]) <$> marshal_value v
  end.

Definition member_float_ptr_omitempty (k : string) (p : option float)
  : option (list (string * json)) :=
  match p with
  | None => Some []
  | Some f => (fun j => [(k, j)]) <$> marshal_value (VFloat f)
  end.

Definition marshal_ContentBlock (b : ContentBlock) : option json :=
  match b with
  | OfTextBlock t =>
      Some (JObject [("type", marshal_string (TextBlock_Type t));
                     ("text", marshal_string (TextBlock_Text t))])
  | OfThinkingBlock t =>
      Some (JObject [("type", marshal_string (ThinkingBlock_Type t));
                     ("thinking", marshal_string (ThinkingBlock_Thinking t));
                     ("signature", marshal_string (ThinkingBlock_Signature t))])
  | OfToolUseBlock t =>
      input ← member_map "input" (ToolUseBlock_Input t);
      Some (JObject ([("type", marshal_string (ToolUseBlock_Type t));
                      ("id", marshal_string (ToolUseBlock_ID t));
                      ("name", marshal_string (ToolUseBlock_Name t))] ++ input))
  | OfToolResultBlock t =>
      content ← member_any_omitempty "content" (ToolResultBlock_Content t);
      Some (JObject ([("type", marshal_string (ToolResultBlock_Type t));
                      ("tool_use_id", marshal_string (ToolResultBlock_ToolUseID t))]
                     ++ content
                     ++ member_bool_ptr_omitempty "is_error" (ToolResultBlock_IsError t)))
  end.

(** A slice of blocks that is not nil. A nil [AssistantMessage.Content] is
    written as [null], which the decoders read as the empty list, as they
    do [[]]. *)
Definition marshal_blocks (blocks : list ContentBlock) : option json :=
  JArray <$> mapM marshal_ContentBlock blocks.

Definition marshal_UserMessage (m : UserMessage) : option json :=
  content ← match UserMessage_Content m with
            | ContentNil => Some JNull
            | ContentString s => Some (marshal_string s)
            | ContentBlocks blocks => marshal_blocks blocks
            end;
  Some (JObject ([("type", marshal_string (UserMessage_Type m)); ("content", content)]
                 ++ member_string_ptr_omitempty "parent_tool_use_id"
                      (UserMessage_ParentToolUseID m)
                 ++ member_string_ptr_omitempty "uuid" (UserMessage_UUID m))).

(** [AssistantMessage.MarshalJSON]: the struct under its alias type, that
    is, its fields under their tags. *)
Definition AssistantMessage_MarshalJSON (m : AssistantMessage) : option json :=
  content ← marshal_blocks (AssistantMessage_Content m);
  Some (JObject ([("type", marshal_string (AssistantMessage_Type m));
                  ("content", content);
                  ("model", marshal_string (AssistantMessage_Model m))]
                 ++ member_string_ptr_omitempty "parent_tool_use_id"
                      (AssistantMessage_ParentToolUseID m)
                 ++ member_string_ptr_omitempty "error" (AssistantMessage_Error m))).

Definition marshal_SystemMessage (m : SystemMessage) : option json :=
  data ← member_map_omitempty "data" (SystemMessage_Data m);
  response ← member_map_omitempty "response" (SystemMessage_Response m);
  request ← member_map_omitempty "request" (SystemMessage_Request m);
  Some (JObject ([("type", marshal_string (SystemMessage_Type m))]
                 ++ member_string_omitempty "subtype" (SystemMessage_Subtype m)
                 ++ data ++ response ++ request
                 ++ member_string_omitempty "request_id" (SystemMessage_RequestID m))).

Definition marshal_ResultMessage (m : ResultMessage) : option json :=
  cost ← member_float_ptr_omitempty "total_cost_usd" (ResultMessage_TotalCostUSD m);
  usage ← member_map_omitempty "usage" (ResultMessage_Usage m);
  output ← member_any_omitempty "structured_output" (ResultMessage_StructuredOutput m);
  Some (JObject ([("type", marshal_string (ResultMessage_Type m));
                  ("subtype", marshal_string (ResultMessage_Subtype m));
                  ("duration_ms", JNumber (NInt (ResultMessage_DurationMs m)));
                  ("duration_api_ms", JNumber (NInt (ResultMessage_DurationAPIMs m)));
                  ("is_error", JBool (ResultMessage_IsError m));
                  ("num_turns", JNumber (NInt (ResultMessage_NumTurns m)));
                  ("session_id", marshal_string (ResultMessage_SessionID m))]
                 ++ cost ++ usage
                 ++ member_string_ptr_omitempty "result" (ResultMessage_Result m)
                 ++ output)).

Definition marshal_StreamEvent (m : StreamEvent) : option json :=
  event ← member_map "event" (StreamEvent_Event m);
  Some (JObject ([("type", marshal_string (StreamEvent_Type m));
                  ("uuid", marshal_string (StreamEvent_UUID m));
                  ("session_id", marshal_string (StreamEvent_SessionID m))]
                 ++ event
                 ++ member_string_ptr_omitempty "parent_tool_use_id"
                      (StreamEvent_ParentToolUseID m))).

(** [json.Marshal(msg)] for a [Message]. *)
Definition marshal_Message (msg : Message) : option json :=
  match msg with
  | OfUserMessage m => marshal_UserMessage m
  | OfAssistantMessage m => AssistantMessage_MarshalJSON m
  | OfSystemMessage m => marshal_SystemMessage m
  | OfResultMessage m => marshal_ResultMessage m
  | OfStreamEvent m => marshal_StreamEvent m
  end.

(** * Package types: tools (types/options.go) *)

(** [ToolResult]. [Content] is [None] for the nil slice, which
    [NewMcpToolResult()] without blocks returns and which encodes as
    [null]. *)
Record ToolResult := mkToolResult {
  ToolResult_Content : option (list ContentBlock);
  ToolResult_IsError : bool }.    (* `json:"isError,omitempty"` *)

Definition NewMcpToolResult (content : list ContentBlock) : ToolResult :=
  mkToolResult (match content with [] => None | _ => Some content end) false.

Definition NewErrorMcpToolResult (message : string) : ToolResult :=
  mkToolResult (Some [OfTextBlock (mkTextBlock "text" message)]) true.

(** [json.Marshal] of a [*ToolResult]; a nil pointer encodes as [null]. *)
Definition marshal_ToolResult (r : option ToolResult) : option json :=
  match r with
  | None => Some JNull
  | Some r =>
      content ← match ToolResult_Content r with
                | None => Some JNull
                | Some blocks => marshal_blocks blocks
                end;
      Some (JObject ([("content", content)]
                     ++ (if ToolResult_IsError r then [("isError", JBool true)] else [])))
  end.

(** The errors built by [Execute] and [validateInput], by the [fmt.Errorf]
    call that builds them;
    [errorString] is an error of the caller's own code (a handler, a custom
    validator), given by its text. *)
Inductive error :=
| errorString (text : string)
| invalidSchemaType (schemaType : string)
    (* "invalid schema type: %v" *)
| missingRequiredField (field : string)
    (* "missing required field: %s" *)
| invalidSchemaProperties
    (* "invalid schema properties" *)
| unknownField (key : string)
    (* "unknown field: %s" *)
| fieldTypeMismatch (key want : string) (got : value)
    (* "field %s must be <want>, got %T" *)
| nestedValidationFailed (key : string) (err : error)
    (* "nested validation failed for %s: %w" *)
| fieldNotInEnum (key : string) (enum : list value) (got : value)
    (* "field %s must be one of %s, got %v" *)
| inputValidationFailed (err : error)
    (* "input validation failed: %w" *)
| customValidationFailed (err : error).
    (* "custom validation failed: %w" *)

(** The enum loop: [value == e] for each [e] until one is equal. *)
Fixpoint enum_contains (val : value) (enum : list value) : outcome bool :=
  match enum with
  | [] => Returned false
  | e :: rest =>
      match iface_eq val e with
      | None => Panicked
      | Some true => Returned true
      | Some false => enum_contains val rest
      end
  end.

(** The body of the loop [for key, value := range input] of
    [validateInput]; [validate] is [validateInput] itself, for the nested
    object. [Returned None] is a pass through the body that does not
    return: the loop goes on. *)
Definition validate_property
    (validate : gmap string value -> value -> outcome (option error))
    (properties : gmap string value) (key : string) (val : value)
  : outcome (option error) :=
  match properties !! key with
  | None => Returned (Some (unknownField key))
  | Some propSchema =>
      match as_map propSchema with
      | None => Returned None
      | Some prop =>
          match as_string (index prop "type") with
          | None => Returned None
          | Some propType =>
              let typeValidation : outcome (option error) :=
                if String.eqb propType "string" then
                  match as_string val with
                  | Some _ => Returned None
                  | None => Returned (Some (fieldTypeMismatch key "string" val))
                  end
                else if String.eqb propType "number" then
                  match as_float64 val with
                  | Some _ => Returned None
                  | None => Returned (Some (fieldTypeMismatch key "number" val))
                  end
                else if String.eqb propType "integer" then
                  match as_float64 val with
                  | Some f =>
                      if is_int64_float f then Returned None
                      else Returned (Some (fieldTypeMismatch key "integer" val))
                  | None => Returned (Some (fieldTypeMismatch key "integer" val))
                  end
                else if String.eqb propType "boolean" then
                  match as_bool val with
                  | Some _ => Returned None
                  | None => Returned (Some (fieldTypeMismatch key "boolean" val))
                  end
                else if String.eqb propType "array" then
                  match as_slice val with
                  | Some _ => Returned None
                  | None => Returned (Some (fieldTypeMismatch key "array" val))
                  end
                else if String.eqb propType "object" then
                  match val with
                  | VMap _ =>
                      match as_map (index prop "properties") with
                      | Some nestedProps =>
                          let nestedSchema : gmap string value :=
                            <["properties" := VMap nestedProps]>
                              (<["type" := VString "object"]> empty) in
                          let nestedSchema :=
                            match as_strings (index prop "required") with
                            | Some required =>
                                <["required" := VStrings required]> nestedSchema
                            | None => nestedSchema
                            end in
                          match validate nestedSchema val with
                          | Returned (Some err) =>
                              Returned (Some (nestedValidationFailed key err))
                          | Returned None => Returned None
                          | Panicked => Panicked
                          end
                      | None => Returned None
                      end
                  | _ => Returned (Some (fieldTypeMismatch key "object" val))
                  end
                else Returned None in
              match typeValidation with
              | Returned None =>
                  match as_slice (index prop "enum") with
                  | Some enum =>
                      match enum_contains val enum with
                      | Returned true => Returned None
                      | Returned false => Returned (Some (fieldNotInEnum key enum val))
                      | Panicked => Panicked
                      end
                  | None => Returned None
                  end
              | other => other
              end
          end
      end
  end.

(** [validateInput], by recursion on the input taken as a value (the nested
    call is on a member of the input). The loop over the input visits the
    entries in the order of [map_fold]; Go leaves the order open: when
    several entries do not pass, which of them ends the loop, with its
    error or with the panic of its enum comparison, depends on the order.
    What is stated below of input that is not accepted is stated of every
    such end. *)
Fixpoint validateValue (schema : gmap string value) (input : value) {struct input}
  : outcome (option error) :=
  match input with
  | VMap input =>
      (* schemaType, ok := schema["type"].(string): "" when not ok *)
      let schemaType := default "" (as_string (index schema "type")) in
      if negb (String.eqb schemaType "object") then
        Returned (Some (invalidSchemaType schemaType))
      else
        let missing :=
          match as_strings (index schema "required") with
          | Some required =>
              find (fun field => bool_decide (input !! field = None)) required
          | None => None
          end in
        match missing with
        | Some field => Returned (Some (missingRequiredField field))
        | None =>
            match as_map (index schema "properties") with
            | None => Returned (Some invalidSchemaProperties)
            | Some properties =>
                map_fold (fun key val acc =>
                            match acc with
                            | Returned None =>
                                validate_property validateValue properties key val
                            | other => other
                            end) (Returned None) input
            end
        end
  | _ => Returned None
  end.

Definition validateInput (schema input : gmap string value) : outcome (option error) :=
  validateValue schema (VMap input).

(** A tool handler ([ToolFunc]) and a custom validator, as functions of the
    input; the context is not modelled. Both are code of the caller's and
    may panic. *)
Definition ToolFunc : Type :=
  gmap string value -> outcome (option ToolResult * option error).

Definition Validator : Type :=
  gmap string value -> outcome (option error).

(** The calls [Execute] makes into the caller's code, in order. *)
Inductive call :=
| ValidatorCall (input : gmap string value)
| HandlerCall (input : gmap string value).

(** [tool], the implementation of [McpTool]. *)
Record tool := mkTool {
  tool_name : string;
  tool_description : string;
  tool_inputSchema : gmap string value;
  tool_handler : ToolFunc;
  tool_validator : option Validator }.

Definition Name (t : tool) : string := tool_name t.
Definition Description (t : tool) : string := tool_description t.
Definition InputSchema (t : tool) : gmap string value := tool_inputSchema t.

(** [tool.Execute]: validate against the schema, run the custom validator
    if there is one, then the handler. The first component lists the calls
    made into the caller's code. *)
Definition Execute (t : tool) (input : gmap string value)
  : list call * outcome (option ToolResult * option error) :=
  match validateInput (tool_inputSchema t) input with
  | Panicked => ([], Panicked)
  | Returned (Some err) => ([], Returned (None, Some (inputValidationFailed err)))
  | Returned None =>
      match tool_validator t with
      | Some validator =>
          match validator input with
          | Panicked => ([ValidatorCall input], Panicked)
          | Returned (Some err) =>
              ([ValidatorCall input],
               Returned (None, Some (customValidationFailed err)))
          | Returned None =>
              ([ValidatorCall input; HandlerCall input], tool_handler t input)
          end
      | None => ([HandlerCall input], tool_handler t input)
      end
  end.

(** *** The tool builder *)

(** [ToolParam]; [Properties] is [None] for the nil map. *)
Inductive ToolParam :=
| mkToolParam (name type description : string) (required : bool)
    (enum : list value) (default : value)
    (properties : option (gmap string ToolParam)).

Definition ToolParam_Name (p : ToolParam) : string :=
  let 'mkToolParam name _ _ _ _ _ _ := p in name.
Definition ToolParam_Type (p : ToolParam) : string :=
  let 'mkToolParam _ type _ _ _ _ _ := p in type.
Definition ToolParam_Description (p : ToolParam) : string :=
  let 'mkToolParam _ _ description _ _ _ _ := p in description.
Definition ToolParam_Required (p : ToolParam) : bool :=
  let 'mkToolParam _ _ _ required _ _ _ := p in required.
Definition ToolParam_Enum (p : ToolParam) : list value :=
  let 'mkToolParam _ _ _ _ enum _ _ := p in enum.
Definition ToolParam_Default (p : ToolParam) : value :=
  let 'mkToolParam _ _ _ _ _ default _ := p in default.
Definition ToolParam_Properties (p : ToolParam) : option (gmap string ToolParam) :=
  let 'mkToolParam _ _ _ _ _ _ properties := p in properties.

Record ToolBuilder := mkToolBuilder {
  ToolBuilder_name : string;
  ToolBuilder_description : string;
  ToolBuilder_params : list ToolParam;
  ToolBuilder_required : list string;
  ToolBuilder_handler : option ToolFunc;
  ToolBuilder_validator : option Validator;
  ToolBuilder_enums : gmap string (list value) }.

Definition NewTool (name : string) : ToolBuilder :=
  mkToolBuilder name "" [] [] None None empty.

Definition WithDescription (desc : string) (b : ToolBuilder) : ToolBuilder :=
  mkToolBuilder (ToolBuilder_name b) desc (ToolBuilder_params b)
    (ToolBuilder_required b) (ToolBuilder_handler b) (ToolBuilder_validator b)
    (ToolBuilder_enums b).

(** [addParam]: append the parameter, and its name to [required] if asked. *)
Definition addParam (param : ToolParam) (required : bool) (b : ToolBuilder)
  : ToolBuilder :=
  mkToolBuilder (ToolBuilder_name b) (ToolBuilder_description b)
    (ToolBuilder_params b ++ [param])
    (if required then ToolBuilder_required b ++ [ToolParam_Name param]
     else ToolBuilder_required b)
    (ToolBuilder_handler b) (ToolBuilder_validator b) (ToolBuilder_enums b).

Definition StringParam (name desc : string) (required : bool) : ToolBuilder -> ToolBuilder :=
  addParam (mkToolParam name "string" desc required [] VNil None) required.
Definition NumberParam (name desc : string) (required : bool) : ToolBuilder -> ToolBuilder :=
  addParam (mkToolParam name "number" desc required [] VNil None) required.
Definition IntParam (name desc : string) (required : bool) : ToolBuilder -> ToolBuilder :=
  addParam (mkToolParam name "integer" desc required [] VNil None) required.
Definition BoolParam (name desc : string) (required : bool) : ToolBuilder -> ToolBuilder :=
  addParam (mkToolParam name "boolean" desc required [] VNil None) required.
Definition ArrayParam (name desc : string) (required : bool) (itemType : string)
  : ToolBuilder -> ToolBuilder :=
  addParam (mkToolParam name "array" desc required []
              (VStringMap {[ "itemsType" := itemType ]}) None) required.
Definition ObjectParam (name desc : string) (required : bool)
    (properties : option (gmap string ToolParam)) : ToolBuilder -> ToolBuilder :=
  addParam (mkToolParam name "object" desc required [] VNil properties) required.

Definition Handler (fn : ToolFunc) (b : ToolBuilder) : ToolBuilder :=
  mkToolBuilder (ToolBuilder_name b) (ToolBuilder_description b)
    (ToolBuilder_params b) (ToolBuilder_required b) (Some fn)
    (ToolBuilder_validator b) (ToolBuilder_enums b).

Definition WithValidation (fn : Validator) (b : ToolBuilder) : ToolBuilder :=
  mkToolBuilder (ToolBuilder_name b) (ToolBuilder_description b)
    (ToolBuilder_params b) (ToolBuilder_required b) (ToolBuilder_handler b)
    (Some fn) (ToolBuilder_enums b).

(** The schema of one parameter, as the loop of [buildJSONSchema] builds
    it. *)
Definition param_schema (param : ToolParam) : gmap string value :=
  let prop : gmap string value :=
    <["description" := VString (ToolParam_Description param)]>
      (<["type" := VString (ToolParam_Type param)]> empty) in
  let prop :=
    match ToolParam_Enum param with
    | [] => prop
    | enum => <["enum" := VSlice enum]> prop
    end in
  let prop :=
    match ToolParam_Default param with
    | VNil => prop
    | default => <["default" := default]> prop
    end in
  let prop :=
    if String.eqb (ToolParam_Type param) "array" then
      match as_string_map (ToolParam_Default param) with
      | Some itemType =>
          <["items" := VStringMap {[ "type" := default "" (itemType !! "itemsType") ]}]> prop
      | None => prop
      end
    else prop in
  if String.eqb (ToolParam_Type param) "object" then
    match ToolParam_Properties param with
    | Some properties =>
        let objProps : gmap string value :=
          (fun v => VMap (<["description" := VString (ToolParam_Description v)]>
                            (<["type" := VString (ToolParam_Type v)]> empty)))
            <$> properties in
        let prop := <["properties" := VMap objProps]> prop in
        let nestedRequired :=
          map_fold (fun _ p acc =>
                      if ToolParam_Required p then acc ++ [ToolParam_Name p] else acc)
            [] properties in
        match nestedRequired with
        | [] => prop
        | _ => <["required" := VStrings nestedRequired]> prop
        end
    | None => prop
    end
  else prop.

(** [buildJSONSchema]: [required] is the builder's [[]string]. *)
Definition buildJSONSchema (b : ToolBuilder) : gmap string value :=
  let properties :=
    foldl (fun properties param =>
             <[ToolParam_Name param := VMap (param_schema param)]> properties)
      empty (ToolBuilder_params b) in
  <["required" := VStrings (ToolBuilder_required b)]>
    (<["properties" := VMap properties]>
       (<["type" := VString "object"]> empty)).

Definition Build (b : ToolBuilder) : result error tool :=
  if String.eqb (ToolBuilder_name b) "" then Err (errorString "tool name is required")
  else if String.eqb (ToolBuilder_description b) "" then
    Err (errorString "tool description is required")
  else
    match ToolBuilder_handler b with
    | None => Err (errorString "tool handler is required")
    | Some handler =>
        Ok (mkTool (ToolBuilder_name b) (ToolBuilder_description b)
              (buildJSONSchema b) handler (ToolBuilder_validator b))
    end.

(** * Package mcp: JSON-RPC (unnamed/part_005) and the in-process server
    (concurrent_client_test.go) *)

Definition ErrorCodeParseError : Z := -32700.
Definition ErrorCodeInvalidRequest : Z := -32600.
Definition ErrorCodeMethodNotFound : Z := -32601.
Definition ErrorCodeInvalidParams : Z := -32602.
Definition ErrorCodeInternalError : Z := -32603.

(** What the [interface{}] of a response result holds: a value as above, or
    the [*ToolResult] of a tool ([None] is the nil pointer, which is not
    the nil interface). *)
Inductive rvalue :=
| RValue (v : value)
| RToolResult (p : option ToolResult).

Definition is_nil (r : rvalue) : bool :=
  match r with RValue VNil => true | _ => false end.

Definition marshal_rvalue (r : rvalue) : option json :=
  match r with
  | RValue v => marshal_value v
  | RToolResult p => marshal_ToolResult p
  end.

Record Error := mkError {
  Error_Code : Z;
  Error_Message : string;
  Error_Data : value }.

Record Response := mkResponse {
  Response_JsonRpc : string;
  Response_ID : value;
  Response_Result : rvalue;
  Response_Error : option Error }.

Definition NewSuccessResponse (id : value) (result : rvalue) : Response :=
  mkResponse "2.0" id result None.

(** [data] is the variadic tail; its first element, if any, is kept. *)
Definition NewErrorResponse (id : value) (code : Z) (message : string)
    (data : list value) : Response :=
  mkResponse "2.0" id (RValue VNil)
    (Some (mkError code message (match data with d :: _ => d | [] => VNil end))).

(** [responseToMap]. A result is encoded and decoded again, so that it is
    made of maps and slices; if either step fails the result is stored as it
    is. *)
Definition responseToMap (resp : Response) : gmap string rvalue :=
  let result : gmap string rvalue :=
    <["id" := RValue (Response_ID resp)]>
      (<["jsonrpc" := RValue (VString (Response_JsonRpc resp))]> empty) in
  match Response_Error resp with
  | Some e =>
      let errMap : gmap string value :=
        <["message" := VString (Error_Message e)]>
          (<["code" := VInt (Error_Code e)]> empty) in
      let errMap :=
        match Error_Data e with
        | VNil => errMap
        | data => <["data" := data]> errMap
        end in
      <["error" := RValue (VMap errMap)]> result
  | None =>
      if is_nil (Response_Result resp) then result
      else
        match marshal_rvalue (Response_Result resp) with
        | None => <["result" := Response_Result resp]> result
        | Some data =>
            match unmarshal_any data with
            | None => <["result" := Response_Result resp]> result
            | Some unmarshaledResult =>
                <["result" := RValue unmarshaledResult]> result
            end
        end
  end.

Record SdkMCPServer := mkSdkMCPServer {
  SdkMCPServer_name : string;
  SdkMCPServer_version : string;
  SdkMCPServer_tools : list tool;
  SdkMCPServer_toolsMap : gmap string tool }.

Definition NewSdkMCPServer (name version : string) (tools : list tool) : SdkMCPServer :=
  mkSdkMCPServer name version tools
    (foldl (fun m t => <[Name t := t]> m) empty tools).

Definition Tools (s : SdkMCPServer) : list tool := SdkMCPServer_tools s.

Definition AddTool (t : tool) (s : SdkMCPServer) : result error SdkMCPServer :=
  match SdkMCPServer_toolsMap s !! Name t with
  | Some _ => Err (errorString ("tool already exists: " +:+ Name t))
  | None =>
      Ok (mkSdkMCPServer (SdkMCPServer_name s) (SdkMCPServer_version s)
            (SdkMCPServer_tools s ++ [t])
            (<[Name t := t]> (SdkMCPServer_toolsMap s)))
  end.

(** The loop of [RemoveTool]: drop the first tool of that name. *)
Fixpoint remove_first (name : string) (tools : list tool) : list tool :=
  match tools with
  | [] => []
  | t :: rest => if String.eqb (Name t) name then rest else t :: remove_first name rest
  end.

Definition RemoveTool (name : string) (s : SdkMCPServer) : result error SdkMCPServer :=
  match SdkMCPServer_toolsMap s !! name with
  | None => Err (errorString ("tool not found: " +:+ name))
  | Some _ =>
      Ok (mkSdkMCPServer (SdkMCPServer_name s) (SdkMCPServer_version s)
            (remove_first name (SdkMCPServer_tools s))
            (delete name (SdkMCPServer_toolsMap s)))
  end.

Definition handleInitialize (s : SdkMCPServer) (msg : gmap string value)
  : gmap string rvalue :=
  let id := index msg "id" in
  let result : gmap string value :=
    <["serverInfo" := VMap (<["version" := VString (SdkMCPServer_version s)]>
                              (<["name" := VString (SdkMCPServer_name s)]> empty))]>
      (<["capabilities" := VMap (<["tools" := VMap (<["listChanged" := VBool false]> empty)]> empty)]>
         (<["protocolVersion" := VString "0.1.0"]> empty)) in
  responseToMap (NewSuccessResponse id (RValue (VMap result))).

(** [handleToolsList]. The list is a [[]map[string]interface{}], written
    here as a slice of maps: it is only encoded. *)
Definition handleToolsList (s : SdkMCPServer) (msg : gmap string value)
  : gmap string rvalue :=
  let id := index msg "id" in
  let toolList :=
    map (fun t : tool =>
           VMap (<["inputSchema" := VMap (InputSchema t)]>
                   (<["description" := VString (Description t)]>
                      (<["name" := VString (Name t)]> empty))))
      (Tools s) in
  let result : gmap string value := <["tools" := VSlice toolList]> empty in
  responseToMap (NewSuccessResponse id (RValue (VMap result))).

Section Formatting.

(** Two functions of Go's library give the text of an enum error:
    [fmt.Sprint(v)] (the verb [%v]) and the bytes of [json.Marshal(v)]
    read as a string (empty when it fails). They stay parameters. *)
Variable Sprint : value -> string.
Variable MarshalText : value -> string.

(** [err.Error()] *)
Fixpoint ErrorText (err : error) : string :=
  match err with
  | errorString text => text
  | invalidSchemaType schemaType => "invalid schema type: " +:+ schemaType
  | missingRequiredField field => "missing required field: " +:+ field
  | invalidSchemaProperties => "invalid schema properties"
  | unknownField key => "unknown field: " +:+ key
  | fieldTypeMismatch key want got =>
      "field " +:+ key +:+ " must be " +:+ want +:+ ", got " +:+ type_name got
  | nestedValidationFailed key err =>
      "nested validation failed for " +:+ key +:+ ": " +:+ ErrorText err
  | fieldNotInEnum key enum got =>
      "field " +:+ key +:+ " must be one of " +:+ MarshalText (VSlice enum)
      +:+ ", got " +:+ Sprint got
  | inputValidationFailed err => "input validation failed: " +:+ ErrorText err
  | customValidationFailed err => "custom validation failed: " +:+ ErrorText err
  end.

(** [handleToolsCall] *)
Definition handleToolsCall (s : SdkMCPServer) (msg : gmap string value)
  : list call * outcome (gmap string rvalue) :=
  let id := index msg "id" in
  match as_map (index msg "params") with
  | None =>
      ([], Returned (responseToMap
             (NewErrorResponse id ErrorCodeInvalidParams "missing or invalid params" [])))
  | Some params =>
      match as_string (index params "name") with
      | None =>
          ([], Returned (responseToMap
                 (NewErrorResponse id ErrorCodeInvalidParams
                    "missing or invalid tool name" [])))
      | Some name =>
          match SdkMCPServer_toolsMap s !! name with
          | None =>
              ([], Returned (responseToMap
                     (NewErrorResponse id ErrorCodeMethodNotFound
                        ("tool not found: " +:+ name) [])))
          | Some tool =>
              match as_map (index params "arguments") with
              | None =>
                  ([], Returned (responseToMap
                         (NewErrorResponse id ErrorCodeInvalidParams
                            "missing or invalid arguments" [])))
              | Some input =>
                  (* Execute the tool *)
                  match Execute tool input with
                  | (calls, Panicked) => (calls, Panicked)
                  | (calls, Returned (_, Some err)) =>
                      (calls, Returned (responseToMap
                                (NewErrorResponse id ErrorCodeInternalError
                                   ("tool execution failed: " +:+ ErrorText err) [])))
                  | (calls, Returned (result, None)) =>
                      (calls, Returned (responseToMap
                                (NewSuccessResponse id (RToolResult result))))
                  end
              end
          end
      end
  end.

(** [HandleMessage]: the response map and the Go error it returns. *)
Definition HandleMessage (s : SdkMCPServer) (msg : gmap string value)
  : list call * outcome (option (gmap string rvalue) * option error) :=
  match as_string (index msg "method") with
  | None => ([], Returned (None, Some (errorString "missing or invalid method field")))
  | Some method =>
      if String.eqb method "initialize" then
        ([], Returned (Some (handleInitialize s msg), None))
      else if String.eqb method "tools/list" then
        ([], Returned (Some (handleToolsList s msg), None))
      else if String.eqb method "tools/call" then
        match handleToolsCall s msg with
        | (calls, Returned resp) => (calls, Returned (Some resp, None))
        | (calls, Panicked) => (calls, Panicked)
        end
      else
        let id := index msg "id" in
        ([], Returned (Some (responseToMap
                               (NewErrorResponse id ErrorCodeMethodNotFound
                                  ("method not found: " +:+ method) [])),
                       None))
  end.

End Formatting.

(** * Package transport: routing of tool names (internal/transport/mcp.go) *)

(** [string(b)] for a byte [b]: the UTF-8 encoding of the code point [b],
    two bytes from 128 on. *)
Definition string_of_byte (c : ascii) : string :=
  let n := N_of_ascii c in
  if (n <? 128)%N then String c ""
  else String (ascii_of_N (192 + n / 64)) (String (ascii_of_N (128 + n mod 64)) "").

Definition is_underscore (c : ascii) : bool := Ascii.eqb c "_"%char.

(** The loop of [splitToolName] from index [i] on: [toolName] is what is
    left to read, [current] and [parts] are the loop's variables. *)
Fixpoint splitLoop (toolName current : string) (parts : list string)
  : list string * string :=
  match toolName with
  | "" => (parts, current)
  | String c rest =>
      match rest with
      | String c' rest' =>
          if is_underscore c && is_underscore c' then
            (* found a double underscore: skip the second one *)
            splitLoop rest' "" (parts ++ [current])
          else splitLoop rest (current +:+ string_of_byte c) parts
      | "" => splitLoop rest (current +:+ string_of_byte c) parts
      end
  end.

Definition splitToolName (toolName : string) : list string :=
  let '(parts, current) := splitLoop toolName "" [] in
  if String.eqb current "" then parts else parts ++ [current].

(** The part of [MCPServerTransport] that routing reads: the registered
    in-process servers ([None] is the nil placeholder). *)
Record MCPServerTransport := mkMCPServerTransport {
  sdkMCPServers : gmap string (option SdkMCPServer) }.

Definition GetSDKMCPServer (t : MCPServerTransport) (name : string)
  : option SdkMCPServer * bool :=
  match sdkMCPServers t !! name with
  | Some server => (server, true)
  | None => (None, false)
  end.

(** [RouteToolUse]: isMcp, serverName, toolName, error. *)
Definition RouteToolUse (t : MCPServerTransport) (toolName : string)
  : bool * string * string * option error :=
  match splitToolName toolName with
  | [p0; serverName; toolName'] =>
      if String.eqb p0 "mcp" then
        if snd (GetSDKMCPServer t serverName) then
          (true, serverName, toolName', None)
        else
          (* otherwise, an external MCP server *)
          (true, serverName, toolName', None)
      else (false, "", toolName, None)
  | _ => (false, "", toolName, None)
  end.

(** Names that the double-underscore scan reads back whole. A server part
    is ASCII, has no two underscores in a row and does not end in one; a
    tool part is ASCII, has no two underscores in a row and is not empty. *)
Definition is_ascii (c : ascii) : bool := (N_of_ascii c <? 128)%N.

Fixpoint single_underscores (s : string) : bool :=
  match s with
  | "" => true
  | String c rest =>
      is_ascii c
      && (if is_underscore c then
            match rest with
            | String c' _ => negb (is_underscore c')
            | "" => true
            end
          else true)
      && single_underscores rest
  end.

Fixpoint ends_in_underscore (s : string) : bool :=
  match s with
  | "" => false
  | String c "" => is_underscore c
  | String _ rest => ends_in_underscore rest
  end.

Definition server_part (s : string) : bool :=
  single_underscores s && negb (ends_in_underscore s).

Definition tool_part (s : string) : bool :=
  single_underscores s && negb (String.eqb s "").

(** A plain name: no two underscores in a row. *)
Fixpoint plain_name (s : string) : bool :=
  match s with
  | "" => true
  | String c rest =>
      match rest with
      | String c' _ => negb (is_underscore c && is_underscore c')
      | "" => true
      end
      && plain_name rest
  end.

(** * Reading [validateInput] *)

(** The loop of [validateInput] over the entries of the input, listed. *)
Definition validate_entries (properties : gmap string value)
    (entries : list (string * value)) : outcome (option error) :=
  foldr (uncurry (fun key val acc =>
                    match acc with
                    | Returned None =>
                        validate_property validateValue properties key val
                    | other => other
                    end)) (Returned None) entries.

(** The field an error of [validateInput] names. *)
Definition error_field (err : error) : option string :=
  match err with
  | missingRequiredField field => Some field
  | unknownField key => Some key
  | fieldTypeMismatch key _ _ => Some key
  | nestedValidationFailed key _ => Some key
  | fieldNotInEnum key _ _ => Some key
  | _ => None
  end.

(** The declared types, as the switch of [validateInput] tests them; a type
    it does not know accepts every value. *)
Definition has_type (propType : string) (val : value) : bool :=
  if String.eqb propType "string" then bool_decide (is_Some (as_string val))
  else if String.eqb propType "number" then bool_decide (is_Some (as_float64 val))
  else if String.eqb propType "integer" then
    match as_float64 val with Some f => is_int64_float f | None => false end
  else if String.eqb propType "boolean" then bool_decide (is_Some (as_bool val))
  else if String.eqb propType "array" then bool_decide (is_Some (as_slice val))
  else if String.eqb propType "object" then bool_decide (is_Some (as_map val))
  else true.

(** The schema [validateInput] builds for a nested object. *)
Definition nested_schema (prop nestedProps : gmap string value) : gmap string value :=
  let nestedSchema : gmap string value :=
    <["properties" := VMap nestedProps]> (<["type" := VString "object"]> empty) in
  match as_strings (index prop "required") with
  | Some required => <["required" := VStrings required]> nestedSchema
  | None => nestedSchema
  end.

(** The ways in which arguments break a schema, in the words of the
    specification: a required name is absent; a key is not declared; a
    value has not the declared type; a value is not in the declared enum; a
    nested object breaks its own schema. *)
Inductive violation (schema input : gmap string value) : Prop :=
| missing_required (required : list string) (field : string) :
    as_strings (index schema "required") = Some required ->
    field ∈ required -> input !! field = None ->
    violation schema input
| undeclared_key (properties : gmap string value) (key : string) (val : value) :
    as_map (index schema "properties") = Some properties ->
    input !! key = Some val -> properties !! key = None ->
    violation schema input
| wrong_type (properties prop : gmap string value) (key propType : string)
    (val : value) :
    as_map (index schema "properties") = Some properties ->
    input !! key = Some val -> properties !! key = Some (VMap prop) ->
    as_string (index prop "type") = Some propType ->
    has_type propType val = false ->
    violation schema input
| not_in_enum (properties prop : gmap string value) (key propType : string)
    (val : value) (enum : list value) :
    as_map (index schema "properties") = Some properties ->
    input !! key = Some val -> properties !! key = Some (VMap prop) ->
    as_string (index prop "type") = Some propType ->
    as_slice (index prop "enum") = Some enum ->
    enum_contains val enum = Returned false ->
    violation schema input
| nested_violation (properties prop nestedProps obj : gmap string value)
    (key : string) (err : error) :
    as_map (index schema "properties") = Some properties ->
    input !! key = Some (VMap obj) -> properties !! key = Some (VMap prop) ->
    as_string (index prop "type") = Some "object" ->
    as_map (index prop "properties") = Some nestedProps ->
    validateInput (nested_schema prop nestedProps) obj = Returned (Some err) ->
    violation schema input.

(** * The scenarios of the specification *)

(** Exact decimal text of a [float64] (every finite binary64 has a finite
    decimal expansion). *)
Definition decimal_text (f : float) : string :=
  match Prim2SF f with
  | S754_zero s => if s then "-0" else "0"
  | S754_infinity s => if s then "-Inf" else "+Inf"
  | S754_nan => "NaN"
  | S754_finite s m e =>
      let sign := if s then "-" else "" in
      if (0 <=? e)%Z then sign +:+ pretty.pretty (Z.pos m * 2 ^ e)%Z
      else
        let k := (- e)%Z in
        let int_part := (Z.pos m / 2 ^ k)%Z in
        let frac := ((Z.pos m mod 2 ^ k) * 5 ^ k)%Z in   (* over 10^k *)
        if (frac =? 0)%Z then sign +:+ pretty.pretty int_part
        else
          let digits := pretty.pretty frac in
          let zeros := String.concat "" (replicate (Z.to_nat k - String.length digits) "0") in
          let fix strip (n : nat) (z : Z) : Z :=
            match n with
            | O => z
            | S n' => if (z mod 10 =? 0)%Z then strip n' (z / 10)%Z else z
            end in
          sign +:+ pretty.pretty int_part +:+ "." +:+ zeros
          +:+ pretty.pretty (strip (Z.to_nat k) frac)
  end.

(** Modelled from the spec: the tool of scenario S3, [add(a:number,
    b:number)] returning the text of a+b, built with the repository's
    [ToolBuilder]. The handler asserts both arguments to be [float64], as
    the handlers of the repository do; a failed assertion panics. *)
Definition S3_add_handler : ToolFunc :=
  fun args =>
    match as_float64 (index args "a"), as_float64 (index args "b") with
    | Some a, Some b =>
        Returned (Some (NewMcpToolResult
                          [OfTextBlock (mkTextBlock "text" (decimal_text (a + b)))]),
                  None)
    | _, _ => Panicked
    end.

Definition S3_add_builder : ToolBuilder :=
  Handler S3_add_handler
    (NumberParam "b" "Second number" true
       (NumberParam "a" "First number" true
          (WithDescription "Add two numbers" (NewTool "add")))).

Definition S3_add_tool : tool :=
  match Build S3_add_builder with
  | Ok t => t
  | Err _ => mkTool "" "" empty S3_add_handler None
  end.

Definition S3_server : SdkMCPServer := NewSdkMCPServer "calc" "1.0.0" [S3_add_tool].

(** The message of S3, as the peer's JSON decodes into a map. *)
Definition S3_call (arguments : gmap string value) : gmap string value :=
  <["params" := VMap (<["arguments" := VMap arguments]>
                        (<["name" := VString "add"]> empty))]>
    (<["method" := VString "tools/call"]>
       (<["id" := VFloat 7]>
          (<["jsonrpc" := VString "2.0"]> empty))).

Definition S3_arguments : gmap string value :=
  <["b" := VFloat 3.5]> (<["a" := VFloat 2.5]> empty).

(** * Reading the responses of the server *)

(** The two members every response map has. *)
Definition response_base (id : value) : gmap string rvalue :=
  <["id" := RValue id]> (<["jsonrpc" := RValue (VString "2.0")]> empty).

(** [{jsonrpc: "2.0", id, error: {code, message}}] *)
Definition error_body (id : value) (code : Z) (message : string) : gmap string rvalue :=
  <["error" := RValue (VMap (<["message" := VString message]>
                               (<["code" := VInt code]> empty)))]>
    (response_base id).

(** [{jsonrpc: "2.0", id, result}] *)
Definition result_body (id : value) (result : rvalue) : gmap string rvalue :=
  <["result" := result]> (response_base id).

(** [msg] is a tools/call request that names the tool [t] of the server,
    with [arguments] under [params.arguments] (nil when absent). *)
Definition tools_call (s : SdkMCPServer) (msg : gmap string value) (t : tool)
    (arguments : value) : Prop :=
  as_string (index msg "method") = Some "tools/call"
  /\ exists (params : gmap string value) (name : string),
       as_map (index msg "params") = Some params
       /\ as_string (index params "name") = Some name
       /\ SdkMCPServer_toolsMap s !! name = Some t
       /\ index params "arguments" = arguments.

(** The result of a tool as the response carries it: encoded by
    json.Marshal and decoded into an [interface{}]. *)
Definition plain_ToolResult (r : option ToolResult) : option value :=
  marshal_ToolResult r ≫= unmarshal_any.

(** The result member of the response observed in scenario S3. *)
Definition S3_result : gmap string value :=
  <["content" := VSlice [VMap (<["text" := VString "6"]>
                                 (<["type" := VString "text"]> empty))]]> empty.

(** A schema as a generic JSON decoder gives it: [required] is a
    [[]interface{}]. *)
Definition decoded_schema : gmap string value :=
  <["required" := VSlice [VString "a"; VString "b"]]>
    (<["properties" := VMap (<["b" := VMap (<["type" := VString "number"]> empty)]>
                               (<["a" := VMap (<["type" := VString "number"]> empty)]>
                                  empty))]>
       (<["type" := VString "object"]> empty)).

(** A message with a method the server does not know. *)
Definition resources_list : gmap string value :=
  <["method" := VString "resources/list"]> (<["id" := VFloat 1]> empty).

(** Arguments that the enum comparison compares without a panic: nil,
    booleans, numbers and strings. *)
Definition scalar (v : value) : bool :=
  match v with
  | VNil | VBool _ | VFloat _ | VInt _ | VString _ => true
  | _ => false
  end.

(** What an error of [validateInput] is about: a defect of the schema
    itself, a required field that is absent, or a key of the input. *)
Definition names_offence (input : gmap string value) (err : error) : Prop :=
  (exists schemaType, err = invalidSchemaType schemaType)
  \/ err = invalidSchemaProperties
  \/ (exists field, err = missingRequiredField field /\ input !! field = None)
  \/ (exists key, error_field err = Some key /\ is_Some (input !! key)).

(** Blocks that hold strings only. *)
Definition text_or_thinking (b : ContentBlock) : bool :=
  match b with
  | OfTextBlock _ | OfThinkingBlock _ => true
  | _ => false
  end.

(** * Reading the parser *)

(** The same document with its [subtype] member set last. *)
Definition with_subtype (subtype : string) (members : list (string * json)) : json :=
  JObject (members ++ [("subtype", JString subtype)]).

Definition set_Subtype (subtype : string) (m : SystemMessage) : SystemMessage :=
  mkSystemMessage (SystemMessage_Type m) subtype (SystemMessage_Data m)
    (SystemMessage_Response m) (SystemMessage_Request m) (SystemMessage_RequestID m).

(** Whether a line carries a content field: a top-level member that the
    decoder assigns to [Content], or a [message] member that is an object
    with the key [content]. *)
Definition nested_content (j : json) : bool :=
  match j with
  | JObject nested => existsb (fun kv => String.eqb kv.1 "content") nested
  | _ => false
  end.

Definition has_content_field (data : json) : bool :=
  match data with
  | JObject members =>
      existsb (fun kv => field_match kv.1 "content"
                         || (field_match kv.1 "message" && nested_content kv.2))
              members
  | _ => false
  end.

(** A member that supplies no content. *)
Definition no_content (k : string) (j : json) : Prop :=
  field_match k "content" = false
  /\ (field_match k "message" = true -> nested_content j = false).

(** An assistant line whose content holds a block of an unknown type. *)
Definition video_line : json :=
  JObject [("type", JString "assistant");
           ("message", JObject [("model", JString "m");
                                ("content", JArray [JObject [("type", JString "video");
                                                            ("url", JString "u")]])])].

(** The lines of a user message in the two encodings, and in both at
    once. *)
Definition user_flat (content : json) (parent uuid : string) : json :=
  JObject [("type", JString "user"); ("content", content);
           ("parent_tool_use_id", JString parent); ("uuid", JString uuid)].

Definition user_nested (content : json) (parent uuid : string) : json :=
  JObject [("type", JString "user");
           ("message", JObject [("content", content);
                                ("parent_tool_use_id", JString parent);
                                ("uuid", JString uuid)])].

Definition user_both (content : json) (parent uuid : string)
    (nestedContent : json) (nestedParent nestedUuid : string) : json :=
  JObject [("type", JString "user"); ("content", content);
           ("parent_tool_use_id", JString parent); ("uuid", JString uuid);
           ("message", JObject [("content", nestedContent);
                                ("parent_tool_use_id", JString nestedParent);
                                ("uuid", JString nestedUuid)])].

(** The lines of an assistant message in the two encodings, and in both at
    once; [parent_tool_use_id] is at the top level in each. *)
Definition assistant_flat (content : list json) (model parent error : string) : json :=
  JObject [("type", JString "assistant"); ("content", JArray content);
           ("model", JString model); ("parent_tool_use_id", JString parent);
           ("error", JString error)].

Definition assistant_nested (content : list json) (model parent error : string) : json :=
  JObject [("type", JString "assistant"); ("parent_tool_use_id", JString parent);
           ("message", JObject [("content", JArray content);
                                ("model", JString model);
                                ("error", JString error)])].

Definition assistant_both (content : list json) (model parent error : string)
    (nestedContent : list json) (nestedModel nestedError : string) : json :=
  JObject [("type", JString "assistant"); ("content", JArray content);
           ("model", JString model); ("parent_tool_use_id", JString parent);
           ("error", JString error);
           ("message", JObject [("content", JArray nestedContent);
                                ("model", JString nestedModel);
                                ("error", JString nestedError)])].

(** What the decoder is to make of a user line [data] that supplies
    [content], [parent] and [uuid], and of an assistant line that supplies
    [content], [model], [parent] and [error]. *)
Definition user_decoded (data content : json) (parent uuid : string)
  : result decode_error Message :=
  match user_content content with
  | Ok c => Ok (OfUserMessage (mkUserMessage "user" c (Some parent) (Some uuid)))
  | Err err => Err (CLIJSONDecodeError "failed to unmarshal user message" data err)
  end.

Definition assistant_decoded (data : json) (content : list json)
    (model parent error : string) : result decode_error Message :=
  match unmarshal_blocks content with
  | Ok blocks =>
      Ok (OfAssistantMessage
            (mkAssistantMessage "assistant" blocks model (Some parent) (Some error)))
  | Err err => Err (CLIJSONDecodeError "failed to unmarshal assistant message" data err)
  end.

(** An assistant line with one parent_tool_use_id at the top level and
    another in the nested message. *)
Definition two_parents_line : json :=
  JObject [("type", JString "assistant");
           ("parent_tool_use_id", JString "flat");
           ("message", JObject [("content", JArray []);
                                ("model", JString "m");
                                ("parent_tool_use_id", JString "nested")])].

(** A tool_result block whose content is the document [content]. *)
Definition tool_result_block (id : string) (content : json) : json :=
  JObject [("type", JString "tool_result"); ("tool_use_id", JString id);
           ("content", content)].

(** An assistant line with a tool_result block whose content holds a block
    of an unknown type. *)
Definition nested_video_line : json :=
  JObject [("type", JString "assistant");
           ("message",
            JObject [("model", JString "m");
                     ("content",
                      JArray [tool_result_block "t1"
                                (JArray [JObject [("type", JString "video");
                                                  ("url", JString "u")]])])])].

(** A system line with a subtype and nothing else. *)
Definition system_line (subtype : string) : json :=
  with_subtype subtype [("type", JString "system")].

(** ** Well-formed values: what the round trip is stated for *)

(** Well-formed UTF-8: the encoder writes the string as it is. *)
Definition utf8 (s : string) : Prop := coerce_utf8 s = s.

(** A document as the scanner leaves it: its string literals and keys are
    well-formed UTF-8. *)
Fixpoint scanned (j : json) : Prop :=
  match j with
  | JString s => utf8 s
  | JArray l => foldr (fun x acc => scanned x /\ acc) True l
  | JObject members =>
      foldr (fun kv acc => utf8 kv.1 /\ scanned kv.2 /\ acc) True members
  | _ => True
  end.

(** The values the decoder builds for an [interface{}]: nil, booleans,
    finite [float64]s, strings, and slices and maps of these. A Go integer,
    a [[]string] or a [map[string]string] in an [interface{}] encodes well
    but decodes as a [float64], a [[]interface{}] or a
    [map[string]interface{}]. *)
Fixpoint generic (v : value) : Prop :=
  match v with
  | VNil | VBool _ => True
  | VFloat f => is_finite f = true
  | VString s => utf8 s
  | VSlice l => foldr (fun x acc => generic x /\ acc) True l
  | VMap m => map_fold (fun k x acc => (utf8 k /\ generic x) /\ acc) True m
  | VInt _ | VStrings _ | VStringMap _ => False
  end.

Definition generic_map (m : gmap string value) : Prop :=
  map_Forall (fun k x => utf8 k /\ generic x) m.

(** A measure for induction on values. *)
Fixpoint value_size (v : value) : nat :=
  match v with
  | VSlice l => S (foldr (fun x acc => value_size x + acc) 0 l)
  | VMap m => S (map_fold (fun _ x acc => value_size x + acc) 0 m)
  | _ => 1
  end.

Definition utf8_ptr (p : option string) : Prop :=
  match p with Some s => utf8 s | None => True end.

Definition finite_ptr (p : option float) : Prop :=
  match p with Some f => is_finite f = true | None => True end.

(** A Go [int] on a 64-bit platform. *)
Definition int64 (z : Z) : Prop :=
  ((int64_min <=? z) && (z <=? int64_max))%Z = true.

(** A content block that carries the discriminant of its type, and whose
    strings and values are as above. *)
Definition wf_ContentBlock (b : ContentBlock) : Prop :=
  match b with
  | OfTextBlock t => TextBlock_Type t = "text" /\ utf8 (TextBlock_Text t)
  | OfThinkingBlock t =>
      ThinkingBlock_Type t = "thinking"
      /\ utf8 (ThinkingBlock_Thinking t) /\ utf8 (ThinkingBlock_Signature t)
  | OfToolUseBlock t =>
      ToolUseBlock_Type t = "tool_use"
      /\ utf8 (ToolUseBlock_ID t) /\ utf8 (ToolUseBlock_Name t)
      /\ generic_map (ToolUseBlock_Input t)
  | OfToolResultBlock t =>
      ToolResultBlock_Type t = "tool_result"
      /\ utf8 (ToolResultBlock_ToolUseID t) /\ generic (ToolResultBlock_Content t)
  end.

(** A message that carries a discriminant of its type; the content of a
    user message is a string or a list of blocks. *)
Definition wf_Message (msg : Message) : Prop :=
  match msg with
  | OfUserMessage m =>
      UserMessage_Type m = "user"
      /\ match UserMessage_Content m with
         | ContentNil => False
         | ContentString s => utf8 s
         | ContentBlocks blocks => Forall wf_ContentBlock blocks
         end
      /\ utf8_ptr (UserMessage_ParentToolUseID m)
      /\ utf8_ptr (UserMessage_UUID m)
  | OfAssistantMessage m =>
      AssistantMessage_Type m = "assistant"
      /\ Forall wf_ContentBlock (AssistantMessage_Content m)
      /\ utf8 (AssistantMessage_Model m)
      /\ utf8_ptr (AssistantMessage_ParentToolUseID m)
      /\ utf8_ptr (AssistantMessage_Error m)
  | OfSystemMessage m =>
      (SystemMessage_Type m = "system" \/ SystemMessage_Type m = "control_request"
       \/ SystemMessage_Type m = "control_response")
      /\ utf8 (SystemMessage_Subtype m)
      /\ generic_map (SystemMessage_Data m)
      /\ generic_map (SystemMessage_Response m)
      /\ generic_map (SystemMessage_Request m)
      /\ utf8 (SystemMessage_RequestID m)
  | OfResultMessage m =>
      ResultMessage_Type m = "result"
      /\ utf8 (ResultMessage_Subtype m)
      /\ int64 (ResultMessage_DurationMs m)
      /\ int64 (ResultMessage_DurationAPIMs m)
      /\ int64 (ResultMessage_NumTurns m)
      /\ utf8 (ResultMessage_SessionID m)
      /\ finite_ptr (ResultMessage_TotalCostUSD m)
      /\ generic_map (ResultMessage_Usage m)
      /\ utf8_ptr (ResultMessage_Result m)
      /\ generic (ResultMessage_StructuredOutput m)
  | OfStreamEvent m =>
      StreamEvent_Type m = "stream_event"
      /\ utf8 (StreamEvent_UUID m) /\ utf8 (StreamEvent_SessionID m)
      /\ generic_map (StreamEvent_Event m)
      /\ utf8_ptr (StreamEvent_ParentToolUseID m)
  end.

(** Raw documents kept in the auxiliary structs. *)
Definition scanned_ptr (p : option json) : Prop :=
  match p with Some j => scanned j | None => True end.

Definition scanned_slice (p : option (list json)) : Prop :=
  match p with Some l => Forall scanned l | None => True end.

Definition scanned_map (m : gmap string json) : Prop :=
  map_Forall (fun _ j => scanned j) m.

(** The flat form: an object with no [message] member. *)
Definition flat (l : json) : Prop :=
  match l with
  | JObject members => Forall (fun kv => kv.1 <> "message") members
  | _ => False
  end.

(** An assistant line in the nested form with a parent_tool_use_id, and
    what the decoder makes of it. *)
Definition nested_parent_line : json :=
  JObject [("type", JString "assistant");
           ("message", JObject [("content", JArray []);
                                ("model", JString "m");
                                ("parent_tool_use_id", JString "p")])].

Definition nested_parent_message : Message :=
  OfAssistantMessage (mkAssistantMessage "assistant" [] "m" None None).

(** A message in each form, for the round trip. *)
Definition hello_message : Message :=
  OfAssistantMessage
    (mkAssistantMessage "assistant" [OfTextBlock (mkTextBlock "text" "hello")]
       "m" (Some "p") None).

Definition hello_line : json :=
  JObject [("type", JString "assistant");
           ("parent_tool_use_id", JString "p");
           ("message", JObject [("content", JArray [JObject [("type", JString "text");
                                                            ("text", JString "hello")]]);
                                ("model", JString "m")])].

(** * More of package types: the rest of the tool builder, the decorator
    style tools, the calculator toolkit and the tool manager
    (types/options.go) *)

(** ** [ToolBuilder]: [EnumParam] and [DefaultParam] *)

(** [EnumParam]: a string parameter with its allowed values; the enum is
    recorded in [enums] first. *)
Definition EnumParam (name desc : string) (required : bool) (enum : list value)
    (b : ToolBuilder) : ToolBuilder :=
  addParam (mkToolParam name "string" desc required enum VNil None) required
    (mkToolBuilder (ToolBuilder_name b) (ToolBuilder_description b)
       (ToolBuilder_params b) (ToolBuilder_required b) (ToolBuilder_handler b)
       (ToolBuilder_validator b) (<[name := enum]> (ToolBuilder_enums b))).

(** The loop of [DefaultParam]: the first parameter of that name gets the
    default, then [break]. *)
Fixpoint set_default (name : string) (defaultValue : value)
    (params : list ToolParam) : list ToolParam :=
  match params with
  | [] => []
  | param :: rest =>
      if String.eqb (ToolParam_Name param) name then
        mkToolParam (ToolParam_Name param) (ToolParam_Type param)
          (ToolParam_Description param) (ToolParam_Required param)
          (ToolParam_Enum param) defaultValue (ToolParam_Properties param)
        :: rest
      else param :: set_default name defaultValue rest
  end.

Definition DefaultParam (name : string) (defaultValue : value) (b : ToolBuilder)
  : ToolBuilder :=
  mkToolBuilder (ToolBuilder_name b) (ToolBuilder_description b)
    (set_default name defaultValue (ToolBuilder_params b))
    (ToolBuilder_required b) (ToolBuilder_handler b) (ToolBuilder_validator b)
    (ToolBuilder_enums b).

(** The calls of a builder chain, [ObjectArrayParam] apart (its default
    holds a [map[string]ToolParam], which is no [value]). *)
Inductive builder_call :=
| CallDescription (desc : string)
| CallStringParam (name desc : string) (required : bool)
| CallNumberParam (name desc : string) (required : bool)
| CallIntParam (name desc : string) (required : bool)
| CallBoolParam (name desc : string) (required : bool)
| CallArrayParam (name desc : string) (required : bool) (itemType : string)
| CallEnumParam (name desc : string) (required : bool) (enum : list value)
| CallObjectParam (name desc : string) (required : bool)
    (properties : option (gmap string ToolParam))
| CallDefaultParam (name : string) (defaultValue : value)
| CallHandler (fn : ToolFunc)
| CallWithValidation (fn : Validator).

Definition call_builder (b : ToolBuilder) (c : builder_call) : ToolBuilder :=
  match c with
  | CallDescription desc => WithDescription desc b
  | CallStringParam name desc required => StringParam name desc required b
  | CallNumberParam name desc required => NumberParam name desc required b
  | CallIntParam name desc required => IntParam name desc required b
  | CallBoolParam name desc required => BoolParam name desc required b
  | CallArrayParam name desc required itemType =>
      ArrayParam name desc required itemType b
  | CallEnumParam name desc required enum => EnumParam name desc required enum b
  | CallObjectParam name desc required properties =>
      ObjectParam name desc required properties b
  | CallDefaultParam name defaultValue => DefaultParam name defaultValue b
  | CallHandler fn => Handler fn b
  | CallWithValidation fn => WithValidation fn b
  end.

(** The chain [b.c1(...).c2(...)...]. *)
Definition chain (b : ToolBuilder) (calls : list builder_call) : ToolBuilder :=
  foldl call_builder b calls.

(** ** [SimpleTool], [ToolDecorator] and [QuickTool] *)

(** [SimpleParam]; [Items] is [None] for the nil pointer, [Properties] is
    empty for the nil map ([len] is what the code asks of it). *)
Inductive SimpleParam :=
| mkSimpleParam (type description : string) (required : bool)
    (enum : list value) (default : value) (items : option SimpleParam)
    (properties : gmap string SimpleParam).

Definition SimpleParam_Type (p : SimpleParam) : string :=
  let 'mkSimpleParam type _ _ _ _ _ _ := p in type.
Definition SimpleParam_Description (p : SimpleParam) : string :=
  let 'mkSimpleParam _ description _ _ _ _ _ := p in description.
Definition SimpleParam_Required (p : SimpleParam) : bool :=
  let 'mkSimpleParam _ _ required _ _ _ _ := p in required.
Definition SimpleParam_Enum (p : SimpleParam) : list value :=
  let 'mkSimpleParam _ _ _ enum _ _ _ := p in enum.
Definition SimpleParam_Default (p : SimpleParam) : value :=
  let 'mkSimpleParam _ _ _ _ default _ _ := p in default.
Definition SimpleParam_Items (p : SimpleParam) : option SimpleParam :=
  let 'mkSimpleParam _ _ _ _ _ items _ := p in items.
Definition SimpleParam_Properties (p : SimpleParam) : gmap string SimpleParam :=
  let 'mkSimpleParam _ _ _ _ _ _ properties := p in properties.

(** The names a loop [for name, param := range params] appends when
    [param.Required]; Go leaves the order of the loop open, here it is that
    of [map_fold]. *)
Definition required_names (params : gmap string SimpleParam) : list string :=
  map_fold (fun name param acc =>
              if SimpleParam_Required param then acc ++ [name] else acc)
    [] params.

(** [buildParamSchema] *)
Fixpoint buildParamSchema (param : SimpleParam) : gmap string value :=
  match param with
  | mkSimpleParam type description _ enum default items properties =>
      let prop : gmap string value :=
        <["description" := VString description]>
          (<["type" := VString type]> empty) in
      let prop :=
        match enum with
        | [] => prop
        | _ => <["enum" := VSlice enum]> prop
        end in
      let prop :=
        match default with
        | VNil => prop
        | _ => <["default" := default]> prop
        end in
      let prop :=
        if String.eqb type "array" then
          match items with
          | Some item => <["items" := VMap (buildParamSchema item)]> prop
          | None => prop
          end
        else prop in
      if String.eqb type "object" && negb (Nat.eqb (size properties) 0) then
        let objProps : gmap string value :=
          map_fold (fun propName propParam objProps =>
                      <[propName := VMap (buildParamSchema propParam)]> objProps)
            empty properties in
        let objRequired := required_names properties in
        let prop := <["properties" := VMap objProps]> prop in
        match objRequired with
        | [] => prop
        | _ => <["required" := VStrings objRequired]> prop
        end
      else prop
  end.

Record SimpleTool := mkSimpleTool {
  SimpleTool_Name : string;
  SimpleTool_Description : string;
  SimpleTool_Parameters : gmap string SimpleParam;
  SimpleTool_Handler : option ToolFunc }.

(** [SimpleTool.Build]: the schema has a [required] entry only when some
    parameter is required; the tool has no custom validator. *)
Definition SimpleTool_Build (s : SimpleTool) : result error tool :=
  if String.eqb (SimpleTool_Name s) "" then Err (errorString "tool name is required")
  else if String.eqb (SimpleTool_Description s) "" then
    Err (errorString "tool description is required")
  else
    match SimpleTool_Handler s with
    | None => Err (errorString "tool handler is required")
    | Some handler =>
        let properties : gmap string value :=
          map_fold (fun name param properties =>
                      <[name := VMap (buildParamSchema param)]> properties)
            empty (SimpleTool_Parameters s) in
        let required := required_names (SimpleTool_Parameters s) in
        let schema : gmap string value :=
          <["properties" := VMap properties]>
            (<["type" := VString "object"]> empty) in
        let schema :=
          match required with
          | [] => schema
          | _ => <["required" := VStrings required]> schema
          end in
        Ok (mkTool (SimpleTool_Name s) (SimpleTool_Description s) schema handler None)
    end.

Record ToolDecorator := mkToolDecorator {
  ToolDecorator_name : string;
  ToolDecorator_description : string;
  ToolDecorator_params : gmap string SimpleParam;
  ToolDecorator_handler : option ToolFunc }.

Definition Tool (name description : string) : ToolDecorator :=
  mkToolDecorator name description empty None.

Definition set_param (name : string) (param : SimpleParam) (d : ToolDecorator)
  : ToolDecorator :=
  mkToolDecorator (ToolDecorator_name d) (ToolDecorator_description d)
    (<[name := param]> (ToolDecorator_params d)) (ToolDecorator_handler d).

Definition ToolDecorator_Param (name paramType description : string)
    (required : bool) : ToolDecorator -> ToolDecorator :=
  set_param name (mkSimpleParam paramType description required [] VNil None empty).

Definition ToolDecorator_EnumParam (name description : string) (required : bool)
    (enum : list value) : ToolDecorator -> ToolDecorator :=
  set_param name (mkSimpleParam "string" description required enum VNil None empty).

Definition ToolDecorator_ArrayParam (name description : string) (required : bool)
    (itemType : string) : ToolDecorator -> ToolDecorator :=
  set_param name
    (mkSimpleParam "array" description required [] VNil
       (Some (mkSimpleParam itemType "" false [] VNil None empty)) empty).

Definition ToolDecorator_ObjectParam (name description : string) (required : bool)
    (properties : gmap string SimpleParam) : ToolDecorator -> ToolDecorator :=
  set_param name (mkSimpleParam "object" description required [] VNil None properties).

(** [Handle]: set the handler and build. The handler is a function that is
    not nil when it is [Some]. *)
Definition ToolDecorator_Handle (handler : option ToolFunc) (d : ToolDecorator)
  : result error tool :=
  SimpleTool_Build
    (mkSimpleTool (ToolDecorator_name d) (ToolDecorator_description d)
       (ToolDecorator_params d) handler).

(** [QuickTool]: every parameter is required; its description is
    [fmt.Sprintf("%s parameter", paramName)]. *)
Definition QuickTool (name description : string) (params : gmap string string)
    (handler : option ToolFunc) : result error tool :=
  let simpleParams : gmap string SimpleParam :=
    map_fold (fun paramName paramType simpleParams =>
                <[paramName := mkSimpleParam paramType (paramName +:+ " parameter")
                                 true [] VNil None empty]> simpleParams)
      empty params in
  SimpleTool_Build (mkSimpleTool name description simpleParams handler).

(** [MustHandle] and [MustQuickTool] panic where the others return an
    error. *)
Definition ToolDecorator_MustHandle (handler : option ToolFunc) (d : ToolDecorator)
  : outcome tool :=
  match ToolDecorator_Handle handler d with
  | Ok t => Returned t
  | Err _ => Panicked
  end.

Definition MustQuickTool (name description : string) (params : gmap string string)
    (handler : option ToolFunc) : outcome tool :=
  match QuickTool name description params handler with
  | Ok t => Returned t
  | Err _ => Panicked
  end.

(** Arguments that a tool of [QuickTool] accepts: the keys are those of
    [params], each value of the type declared for its key. *)
Definition quick_input (params : gmap string string) (input : gmap string value)
  : Prop :=
  forall name : string,
    match params !! name, input !! name with
    | Some paramType, Some val => has_type paramType val = true
    | None, None => True
    | _, _ => False
    end.

(** ** The calculator toolkit *)

Section Calculator.

(** Two functions of the language and its library stay parameters: the
    text [fmt.Sprintf("%.2f", x)] and the conversion [int(x)] of a
    [float64]. *)
Variable Sprintf_2f : float -> string.
Variable int_of_float64 : float -> Z.

(** [fmt.Sprintf("%.2f op %.2f = %.2f", a, b, result)] *)
Definition calculation_text (op : string) (a b result : float) : string :=
  Sprintf_2f a +:+ " " +:+ op +:+ " " +:+ Sprintf_2f b +:+ " = " +:+ Sprintf_2f result.

(** The handlers assert [args[name].(float64)] in the single-value form,
    which panics on any other value. *)
Definition binary_handler (x y : string)
    (body : float -> float -> option ToolResult * option error) : ToolFunc :=
  fun args =>
    match as_float64 (index args x) with
    | None => Panicked
    | Some a =>
        match as_float64 (index args y) with
        | None => Panicked
        | Some b => Returned (body a b)
        end
    end.

Definition text_result (text : string) : ToolResult :=
  NewMcpToolResult [OfTextBlock (mkTextBlock "text" text)].

Definition add_handler : ToolFunc :=
  binary_handler "a" "b"
    (fun a b =>
       let result := (a + b)%float in
       (Some (text_result (calculation_text "+" a b result)), None)).

Definition subtract_handler : ToolFunc :=
  binary_handler "a" "b"
    (fun a b =>
       let result := (a - b)%float in
       (Some (text_result (calculation_text "-" a b result)), None)).

Definition multiply_handler : ToolFunc :=
  binary_handler "a" "b"
    (fun a b =>
       let result := (a * b)%float in
       (Some (text_result (calculation_text "*" a b result)), None)).

Definition divide_handler : ToolFunc :=
  binary_handler "a" "b"
    (fun a b =>
       if PrimFloat.eqb b 0 then
         (Some (NewErrorMcpToolResult "Division by zero is not allowed"), None)
       else
         let result := (a / b)%float in
         (Some (text_result (calculation_text "/" a b result)), None)).

(** The loop [for i := 0; i < n; i++ { result = step result }] *)
Definition loop (n : Z) (step : float -> float) (result : float) : float :=
  Nat.iter (Z.to_nat n) step result.

Definition power_handler : ToolFunc :=
  binary_handler "base" "exponent"
    (fun base exponent =>
       let result :=
         if PrimFloat.leb 0 exponent then
           loop (int_of_float64 exponent) (fun result => (result * base)%float) 1%float
         else
           loop (int_of_float64 (- exponent)%float)
             (fun result => (result / base)%float) 1%float in
       (Some (text_result (calculation_text "^" base exponent result)), None)).

Definition calculator_tool (name description x xdesc y ydesc : string)
    (handler : ToolFunc) : result error tool :=
  Build (Handler handler
           (NumberParam y ydesc true
              (NumberParam x xdesc true
                 (WithDescription description (NewTool name))))).

(** [NewCalculatorToolkit]: the five tools in order, or the first error of
    a [Build]. *)
Definition NewCalculatorToolkit : result error (list tool) :=
  match calculator_tool "add" "Add two numbers" "a" "First number"
          "b" "Second number" add_handler with
  | Err err => Err err
  | Ok addTool =>
  match calculator_tool "subtract" "Subtract second number from first"
          "a" "First number" "b" "Second number" subtract_handler with
  | Err err => Err err
  | Ok subTool =>
  match calculator_tool "multiply" "Multiply two numbers" "a" "First number"
          "b" "Second number" multiply_handler with
  | Err err => Err err
  | Ok mulTool =>
  match calculator_tool "divide" "Divide first number by second" "a" "Dividend"
          "b" "Divisor" divide_handler with
  | Err err => Err err
  | Ok divTool =>
  match calculator_tool "power" "Raise a number to a power" "base" "Base number"
          "exponent" "Exponent" power_handler with
  | Err err => Err err
  | Ok powTool => Ok [addTool; subTool; mulTool; divTool; powTool]
  end end end end end.

End Calculator.

(** ** [ToolManager] *)

Record ToolManager := mkToolManager {
  ToolManager_tools : gmap string tool }.

Definition NewToolManager : ToolManager := mkToolManager empty.

Definition ToolManager_Register (t : tool) (m : ToolManager)
  : result error ToolManager :=
  match ToolManager_tools m !! Name t with
  | Some _ => Err (errorString ("tool already registered: " +:+ Name t))
  | None => Ok (mkToolManager (<[Name t := t]> (ToolManager_tools m)))
  end.

(** [MustRegister] panics with the error of [Register]. *)
Definition ToolManager_MustRegister (t : tool) (m : ToolManager)
  : outcome ToolManager :=
  match ToolManager_Register t m with
  | Ok m' => Returned m'
  | Err _ => Panicked
  end.

Definition ToolManager_Get (m : ToolManager) (name : string) : option tool * bool :=
  match ToolManager_tools m !! name with
  | Some t => (Some t, true)
  | None => (None, false)
  end.

(** [List] and [Names] range over the map, in an order Go leaves open:
    here that of [map_to_list]. *)
Definition ToolManager_List (m : ToolManager) : list tool :=
  (map_to_list (ToolManager_tools m)).*2.

Definition ToolManager_Names (m : ToolManager) : list string :=
  (map_to_list (ToolManager_tools m)).*1.

Definition ToolManager_Count (m : ToolManager) : nat := size (ToolManager_tools m).

Definition ToolManager_Clear (m : ToolManager) : ToolManager := mkToolManager empty.

Definition ToolManager_Unregister (name : string) (m : ToolManager)
  : result error ToolManager :=
  match ToolManager_tools m !! name with
  | None => Err (errorString ("tool not found: " +:+ name))
  | Some _ => Ok (mkToolManager (delete name (ToolManager_tools m)))
  end.

(** [types.ToolServerConfig]; [Instance] holds the tools. *)
Record ToolServerConfig := mkToolServerConfig {
  ToolServerConfig_Type : string;
  ToolServerConfig_Name : string;
  ToolServerConfig_Version : string;
  ToolServerConfig_Instance : list tool }.

Definition CreateToolServer (name version : string) (tools : list tool)
  : ToolServerConfig :=
  mkToolServerConfig "sdk" name version tools.

Definition ToolManager_CreateServer (m : ToolManager) (name version : string)
  : ToolServerConfig :=
  CreateToolServer name version (ToolManager_List m).

(** The calls that change a manager; a call that returns an error leaves
    it as it was. *)
Inductive manager_call :=
| CallRegister (t : tool)
| CallUnregister (name : string)
| CallClear.

Definition call_manager (m : ToolManager) (c : manager_call) : ToolManager :=
  match c with
  | CallRegister t =>
      match ToolManager_Register t m with Ok m' => m' | Err _ => m end
  | CallUnregister name =>
      match ToolManager_Unregister name m with Ok m' => m' | Err _ => m end
  | CallClear => ToolManager_Clear m
  end.

(** ** Reading [Execute] *)

(** [Execute] did not accept the input: it made no call into the caller's
    code and returned the validation error, or validation panicked. *)
Definition rejected (t : tool) (input : gmap string value) : Prop :=
  Execute t input = ([], Panicked)
  \/ exists err : error,
       Execute t input = ([], Returned (None, Some (inputValidationFailed err))).

(** Every enum of the builder is on a string parameter, as [EnumParam]
    makes them. *)
Definition enums_on_strings (b : ToolBuilder) : Prop :=
  Forall (fun p => ToolParam_Enum p = [] \/ ToolParam_Type p = "string")
    (ToolBuilder_params b).

(** The properties of the schema of a builder: the loop of
    [buildJSONSchema]. *)
Definition builder_properties (params : list ToolParam) : gmap string value :=
  foldl (fun properties param =>
           <[ToolParam_Name param := VMap (param_schema param)]> properties)
    empty params.

(** The property the schema of the builder has under [name]. *)
Definition builder_property (b : ToolBuilder) (name : string)
  : option (gmap string value) :=
  as_map (index (buildJSONSchema b) "properties") ≫= fun properties =>
  properties !! name ≫= as_map.

(** A tools/call request as the peer's JSON decodes into a map. *)
Definition tools_call_message (id : value) (name : string)
    (arguments : gmap string value) : gmap string value :=
  <["params" := VMap (<["arguments" := VMap arguments]>
                        (<["name" := VString name]> empty))]>
    (<["method" := VString "tools/call"]>
       (<["id" := id]> (<["jsonrpc" := VString "2.0"]> empty))).

(** The arguments of a calculator tool. *)
Definition two_numbers (x y : string) (a b : float) : gmap string value :=
  <[y := VFloat b]> (<[x := VFloat a]> empty).

(** The error result of a tool as a response carries it. *)
Definition error_result (message : string) : gmap string value :=
  <["isError" := VBool true]>
    (<["content" := VSlice [VMap (<["text" := VString message]>
                                    (<["type" := VString "text"]> empty))]]> empty).

(** * More of package mcp: the JSON-RPC messages (unnamed/part_005) *)

Record Request := mkRequest {
  Request_JsonRpc : string;                 (* `json:"jsonrpc"` *)
  Request_ID : value;                       (* `json:"id,omitempty"` *)
  Request_Method : string;                  (* `json:"method"` *)
  Request_Params : gmap string value }.     (* `json:"params,omitempty"` *)

Definition NewRequestWithID (id : value) (method : string)
    (params : gmap string value) : Request :=
  mkRequest "2.0" id method params.

Definition NewParseError (id : value) (message : string) : Response :=
  NewErrorResponse id ErrorCodeParseError message [].

Definition NewInvalidRequest (id : value) (message : string) : Response :=
  NewErrorResponse id ErrorCodeInvalidRequest message [].

Definition NewMethodNotFound (id : value) (method : string) : Response :=
  NewErrorResponse id ErrorCodeMethodNotFound ("Method not found: " +:+ method) [].

Definition NewInvalidParams (id : value) (message : string) : Response :=
  NewErrorResponse id ErrorCodeInvalidParams message [].

(** [NewInternalError] passes its variadic [data] on as one argument, the
    slice itself ([data], not [data...]). Called with no data the slice is
    nil, which json.Marshal writes as [null]; [VSlice []] is the empty
    slice, written as [[]]: what is proved of the encoding below is about
    calls with data. *)
Definition NewInternalError (id : value) (message : string) (data : list value)
  : Response :=
  NewErrorResponse id ErrorCodeInternalError message [VSlice data].

Definition IsNotification (r : Request) : bool :=
  match Request_ID r with VNil => true | _ => false end.

Definition HasError (r : Response) : bool :=
  match Response_Error r with Some _ => true | None => false end.

Definition GetError (r : Response) : option Error := Response_Error r.

(** The errors of the four codec functions, each wrapping the error of
    encoding/json: "marshal request: %w", "marshal response: %w",
    "unmarshal request: %w", "unmarshal response: %w". *)
Inductive rpc_error :=
| marshalRequestError
| marshalResponseError
| unmarshalRequestError
| unmarshalResponseError.

(** [json.Marshal] of a [Request], of an [Error] and of a [Response]. *)
Definition marshal_Request (r : Request) : option json :=
  id ← member_any_omitempty "id" (Request_ID r);
  params ← member_map_omitempty "params" (Request_Params r);
  Some (JObject ([("jsonrpc", marshal_string (Request_JsonRpc r))] ++ id
                 ++ [("method", marshal_string (Request_Method r))] ++ params)).

Definition marshal_Error (e : Error) : option json :=
  data ← member_any_omitempty "data" (Error_Data e);
  Some (JObject ([("code", JNumber (NInt (Error_Code e)));
                  ("message", marshal_string (Error_Message e))] ++ data)).

Definition marshal_Response (r : Response) : option json :=
  id ← member_any_omitempty "id" (Response_ID r);
  result ← (if is_nil (Response_Result r) then Some []
            else (fun j => [("result", j)]) <$> marshal_rvalue (Response_Result r));
  error ← match Response_Error r with
          | None => Some []
          | Some e => (fun j => [("error", j)]) <$> marshal_Error e
          end;
  Some (JObject ([("jsonrpc", marshal_string (Response_JsonRpc r))]
                 ++ id ++ result ++ error)).

Definition Request_Marshal (r : Request) : result rpc_error json :=
  match marshal_Request r with
  | Some data => Ok data
  | None => Err marshalRequestError
  end.

Definition Response_Marshal (r : Response) : result rpc_error json :=
  match marshal_Response r with
  | Some data => Ok data
  | None => Err marshalResponseError
  end.

(** Decoding into the three structs. *)
Definition Request_assign (key : string) (j : json) (r : Request) : option Request :=
  if field_match key "jsonrpc" then
    (fun v => mkRequest v (Request_ID r) (Request_Method r) (Request_Params r))
      <$> dec_string j (Request_JsonRpc r)
  else if field_match key "id" then
    (fun v => mkRequest (Request_JsonRpc r) v (Request_Method r) (Request_Params r))
      <$> dec_any j
  else if field_match key "method" then
    (fun v => mkRequest (Request_JsonRpc r) (Request_ID r) v (Request_Params r))
      <$> dec_string j (Request_Method r)
  else if field_match key "params" then
    (fun v => mkRequest (Request_JsonRpc r) (Request_ID r) (Request_Method r) v)
      <$> dec_any_map j (Request_Params r)
  else Some r.

Definition Error_assign (key : string) (j : json) (e : Error) : option Error :=
  if field_match key "code" then
    (fun v => mkError v (Error_Message e) (Error_Data e)) <$> dec_int j (Error_Code e)
  else if field_match key "message" then
    (fun v => mkError (Error_Code e) v (Error_Data e))
      <$> dec_string j (Error_Message e)
  else if field_match key "data" then
    (fun v => mkError (Error_Code e) (Error_Message e) v) <$> dec_any j
  else Some e.

Definition zero_Error : Error := mkError 0 "" VNil.

(** [*Error]: [null] makes the pointer nil; an object is decoded into the
    struct the pointer holds, a new one when it is nil. *)
Definition dec_Error_ptr (j : json) (old : option Error) : option (option Error) :=
  match j with
  | JNull => Some None
  | JObject _ => Some <$> unmarshal_struct Error_assign j (default zero_Error old)
  | _ => None
  end.

Definition Response_assign (key : string) (j : json) (r : Response) : option Response :=
  if field_match key "jsonrpc" then
    (fun v => mkResponse v (Response_ID r) (Response_Result r) (Response_Error r))
      <$> dec_string j (Response_JsonRpc r)
  else if field_match key "id" then
    (fun v => mkResponse (Response_JsonRpc r) v (Response_Result r) (Response_Error r))
      <$> dec_any j
  else if field_match key "result" then
    (fun v => mkResponse (Response_JsonRpc r) (Response_ID r) (RValue v)
                (Response_Error r))
      <$> dec_any j
  else if field_match key "error" then
    (fun v => mkResponse (Response_JsonRpc r) (Response_ID r) (Response_Result r) v)
      <$> dec_Error_ptr j (Response_Error r)
  else Some r.

Definition zero_Request : Request := mkRequest "" VNil "" empty.
Definition zero_Response : Response := mkResponse "" VNil (RValue VNil) None.

Definition UnmarshalRequest (data : json) : result rpc_error Request :=
  match unmarshal_struct Request_assign data zero_Request with
  | Some req => Ok req
  | None => Err unmarshalRequestError
  end.

Definition UnmarshalResponse (data : json) : result rpc_error Response :=
  match unmarshal_struct Response_assign data zero_Response with
  | Some resp => Ok resp
  | None => Err unmarshalResponseError
  end.

(** [IncrementingIDGenerator]: the counter is an [int64], whose increment
    wraps around. [Generate] returns the new id and the generator after
    the call. *)
Definition wrap_int64 (z : Z) : Z := ((z - int64_min) mod 2 ^ 64 + int64_min)%Z.

Record IncrementingIDGenerator := mkIncrementingIDGenerator {
  IncrementingIDGenerator_id : Z }.

Definition NewIncrementingIDGenerator : IncrementingIDGenerator :=
  mkIncrementingIDGenerator 0.

Definition IncrementingIDGenerator_Generate (g : IncrementingIDGenerator)
  : Z * IncrementingIDGenerator :=
  let id := wrap_int64 (IncrementingIDGenerator_id g + 1) in
  (id, mkIncrementingIDGenerator id).

(** The ids of [n] calls of [Generate] in a row. *)
Fixpoint generate (n : nat) (g : IncrementingIDGenerator) : list Z :=
  match n with
  | O => []
  | S n' =>
      let '(id, g') := IncrementingIDGenerator_Generate g in
      id :: generate n' g'
  end.

(** Requests and responses that the codec gives back as they are: strings
    in UTF-8, an error code that is a Go [int], and for the [interface{}]
    fields the values a decoder builds (an id that is a string or a
    [float64], not a Go integer). *)
Definition wf_Request (r : Request) : Prop :=
  utf8 (Request_JsonRpc r) /\ generic (Request_ID r)
  /\ utf8 (Request_Method r) /\ generic_map (Request_Params r).

Definition wf_Error (e : Error) : Prop :=
  int64 (Error_Code e) /\ utf8 (Error_Message e) /\ generic (Error_Data e).

Definition wf_Response (r : Response) : Prop :=
  utf8 (Response_JsonRpc r) /\ generic (Response_ID r)
  /\ (exists v : value, Response_Result r = RValue v /\ generic v)
  /\ match Response_Error r with
     | Some e => wf_Error e
     | None => True
     end.

(** * More of the in-process server (concurrent_client_test.go) *)

(** The list of tools and the index by name agree: the names of the list
    are distinct, and the index maps a name to the tool of that name in
    the list. *)
Definition agree (tools : list tool) (toolsMap : gmap string tool) : Prop :=
  NoDup (Name <$> tools)
  /\ forall (name : string) (t : tool),
       toolsMap !! name = Some t <-> t ∈ tools /\ Name t = name.

Definition consistent (s : SdkMCPServer) : Prop :=
  agree (SdkMCPServer_tools s) (SdkMCPServer_toolsMap s).

(** The calls that change a server; a call that returns an error leaves it
    as it was. *)
Inductive server_call :=
| CallAddTool (t : tool)
| CallRemoveTool (name : string).

Definition call_server (s : SdkMCPServer) (c : server_call) : SdkMCPServer :=
  match c with
  | CallAddTool t => match AddTool t s with Ok s' => s' | Err _ => s end
  | CallRemoveTool name => match RemoveTool name s with Ok s' => s' | Err _ => s end
  end.

(** [mcp.ToolServerConfig] and [CreateSdkMCPServer]; [Instance] holds the
    server. *)
Record SdkServerConfig := mkSdkServerConfig {
  SdkServerConfig_Type : string;
  SdkServerConfig_Name : string;
  SdkServerConfig_Version : string;
  SdkServerConfig_Instance : SdkMCPServer }.

Definition CreateSdkMCPServer (name version : string) (tools : list tool)
  : SdkServerConfig :=
  mkSdkServerConfig "sdk" name version (NewSdkMCPServer name version tools).

(** * More of package transport (internal/transport/mcp.go) *)

Definition RegisterSDKMCPServer (name : string) (server : SdkMCPServer)
    (t : MCPServerTransport) : MCPServerTransport :=
  mkMCPServerTransport (<[name := Some server]> (sdkMCPServers t)).

(** * Reading the parser: the kinds of content of a user line *)

(** What a user line whose content is the document [content] decodes to:
    [null] reads as the empty string, a string as itself, an array as its
    blocks; a boolean, a number or an object is an error. *)
Definition content_of (content : json) : result decode_error UserContent :=
  match content with
  | JNull => Ok (ContentString "")
  | JString s => Ok (ContentString s)
  | JArray raws =>
      match unmarshal_blocks raws with
      | Ok blocks => Ok (ContentBlocks blocks)
      | Err err => Err err
      end
  | JBool _ | JNumber _ | JObject _ =>
      Err (ErrorString "content must be string or array of content blocks")
  end.

(** * Reading the router *)

Definition starts_with_underscore (s : string) : bool :=
  match s with
  | String c _ => is_underscore c
  | "" => false
  end.

(** The bytes of a name as the loop of [splitToolName] appends them to the
    current part: [string(b)] for each byte [b]. *)
Fixpoint appended (s : string) : string :=
  match s with
  | "" => ""
  | String c rest => string_of_byte c +:+ appended rest
  end.

Fixpoint ascii_only (s : string) : bool :=
  match s with
  | "" => true
  | String c rest => is_ascii c && ascii_only rest
  end.

(** * Routing *)

Lemma append_cons (c : ascii) (s t : string) : String c s +:+ t = String c (s +:+ t).
Proof. reflexivity. Qed.

Lemma append_empty_l (s : string) : "" +:+ s = s.
Proof. reflexivity. Qed.

Lemma append_empty_r (s : string) : s +:+ "" = s.
Proof. induction s as [|c s IH]; [reflexivity | by rewrite append_cons, IH]. Qed.

Lemma append_assoc' (a b c : string) : (a +:+ b) +:+ c = a +:+ (b +:+ c).
Proof. induction a as [|x a IH]; [reflexivity | by rewrite !append_cons, IH]. Qed.

Lemma string_of_byte_ascii (c : ascii) :
  is_ascii c = true -> string_of_byte c = String c "".
Proof. unfold is_ascii, string_of_byte. intros ->. reflexivity. Qed.

Lemma splitLoop_step (c c' : ascii) (rest current : string) (parts : list string) :
  is_ascii c = true -> is_underscore c && is_underscore c' = false ->
  splitLoop (String c (String c' rest)) current parts
  = splitLoop (String c' rest) (current +:+ String c "") parts.
Proof.
  intros Hc Hu. cbn [splitLoop]. rewrite Hu. by rewrite string_of_byte_ascii.
Qed.

Lemma single_underscores_cons (c c' : ascii) (s : string) :
  single_underscores (String c (String c' s)) = true ->
  is_ascii c = true /\ is_underscore c && is_underscore c' = false
  /\ single_underscores (String c' s) = true.
Proof.
  cbn [single_underscores]. intros H.
  apply andb_prop in H as [H Hrest]. apply andb_prop in H as [Hc Hus].
  split; [done|]. split; [|done].
  destruct (is_underscore c); [|done]. by apply negb_true_iff in Hus.
Qed.

(** Reading a tool part to the end of the name leaves it in [current]. *)
Lemma splitLoop_tool_part (s current : string) (parts : list string) :
  single_underscores s = true ->
  splitLoop s current parts = (parts, current +:+ s).
Proof.
  revert current. induction s as [|c s IH]; intros current Hs.
  - by rewrite append_empty_r.
  - destruct s as [|c' s'].
    + cbn [single_underscores] in Hs. apply andb_prop in Hs as [Hs _].
      apply andb_prop in Hs as [Hc _]. cbn [splitLoop].
      by rewrite string_of_byte_ascii.
    + apply single_underscores_cons in Hs as (Hc & Hu & Hrest).
      rewrite splitLoop_step by done. rewrite IH by done.
      by rewrite append_assoc'.
Qed.

(** Reading a server part up to the double underscore after it closes the
    part. *)
Lemma splitLoop_server_part (s rest current : string) (parts : list string) :
  single_underscores s = true -> ends_in_underscore s = false ->
  splitLoop (s +:+ String "_" (String "_" rest)) current parts
  = splitLoop rest "" (parts ++ [current +:+ s]).
Proof.
  revert current. induction s as [|c s IH]; intros current Hs He.
  - by rewrite append_empty_r.
  - destruct s as [|c' s'].
    + cbn [single_underscores] in Hs. apply andb_prop in Hs as [Hs _].
      apply andb_prop in Hs as [Hc _]. cbn [ends_in_underscore] in He.
      rewrite append_cons, append_empty_l.
      rewrite splitLoop_step; [|done|by rewrite He].
      cbn [splitLoop]. reflexivity.
    + apply single_underscores_cons in Hs as (Hc & Hu & Hrest).
      rewrite !append_cons. rewrite splitLoop_step by done.
      rewrite <- append_cons. rewrite IH; [|done|by destruct s'].
      by rewrite append_assoc'.
Qed.

Lemma splitToolName_mcp (server tool : string) :
  server_part server = true -> tool_part tool = true ->
  splitToolName ("mcp__" +:+ server +:+ "__" +:+ tool) = ["mcp"; server; tool].
Proof.
  unfold server_part, tool_part. intros Hs Ht.
  apply andb_prop in Hs as [Hs1 Hs2]. apply negb_true_iff in Hs2.
  apply andb_prop in Ht as [Ht1 Ht2]. apply negb_true_iff in Ht2.
  unfold splitToolName.
  change ("mcp__" +:+ server +:+ "__" +:+ tool)
    with (String "m" (String "c" (String "p" (String "_" (String "_"
           (server +:+ String "_" (String "_" tool))))))).
  rewrite !splitLoop_step by done.
  cbn [splitLoop]. change (is_underscore "_" && is_underscore "_") with true.
  cbn iota.
  rewrite splitLoop_server_part by done.
  rewrite splitLoop_tool_part by done.
  change ("" +:+ tool) with tool. rewrite Ht2. reflexivity.
Qed.

(** A plain name is read to its end without a split. *)
Lemma splitLoop_plain (name current : string) (parts : list string) :
  plain_name name = true -> fst (splitLoop name current parts) = parts.
Proof.
  revert current. induction name as [|c rest IH]; intros current; [done|].
  cbn [plain_name]. intros [Hc Hrest]%andb_prop. cbn [splitLoop].
  destruct rest as [|c' rest']; [done|].
  apply negb_true_iff in Hc. rewrite Hc. by apply IH.
Qed.

Lemma RouteToolUse_plain (t : MCPServerTransport) (name : string) :
  plain_name name = true -> RouteToolUse t name = (false, "", name, None).
Proof.
  intros Hname. unfold RouteToolUse, splitToolName.
  pose proof (splitLoop_plain name "" [] Hname) as Hparts.
  destruct (splitLoop name "" []) as [parts current]. cbn [fst] in Hparts.
  subst parts. by destruct (String.eqb current "").
Qed.




(** * [validateInput] *)

Lemma validateInput_eq (schema input : gmap string value) :
  validateInput schema input =
  let schemaType := default "" (as_string (index schema "type")) in
  if negb (String.eqb schemaType "object") then
    Returned (Some (invalidSchemaType schemaType))
  else
    match
      match as_strings (index schema "required") with
      | Some required => find (fun field => bool_decide (input !! field = None)) required
      | None => None
      end
    with
    | Some field => Returned (Some (missingRequiredField field))
    | None =>
        match as_map (index schema "properties") with
        | None => Returned (Some invalidSchemaProperties)
        | Some properties => validate_entries properties (map_to_list input)
        end
    end.
Proof.
  unfold validateInput, validate_entries. cbn [validateValue].
  cbv zeta. destruct (negb (default "" (as_string (index schema "type")) =? "object"));
    [done|].
  assert (Hfold : forall properties : gmap string value,
    map_fold (fun key val acc =>
                match acc with
                | Returned None => validate_property validateValue properties key val
                | other => other
                end) (Returned None) input
    = foldr (uncurry (fun key val acc =>
                match acc with
                | Returned None => validate_property validateValue properties key val
                | other => other
                end)) (Returned None) (map_to_list input)).
  { intros properties. apply map_fold_foldr. }
  destruct (as_strings (index schema "required")) as [required|].
  - destruct (find _ required); [done|].
    destruct (as_map (index schema "properties")); [apply Hfold | done].
  - destruct (as_map (index schema "properties")); [apply Hfold | done].
Qed.

Lemma validate_entries_cons properties key val entries :
  validate_entries properties ((key, val) :: entries) =
  match validate_entries properties entries with
  | Returned None => validate_property validateValue properties key val
  | Returned (Some err) => Returned (Some err)
  | Panicked => Panicked
  end.
Proof.
  unfold validate_entries. cbn [foldr uncurry fst snd].
  by destruct (foldr _ _ entries) as [[err|]|].
Qed.

Lemma validate_entries_pass properties entries :
  validate_entries properties entries = Returned None <->
  Forall (fun kv => validate_property validateValue properties kv.1 kv.2
                    = Returned None) entries.
Proof.
  induction entries as [|[key val] entries IH].
  - split; [constructor | reflexivity].
  - rewrite validate_entries_cons, Forall_cons. cbn [fst snd].
    destruct (validate_entries properties entries) as [[e|]|].
    + split; [done|]. intros [_ H]. by apply IH in H.
    + split; [intros H; split; [done | by apply IH] | by intros [H _]].
    + split; [done|]. intros [_ H]. by apply IH in H.
Qed.

Lemma validate_entries_error properties entries err :
  validate_entries properties entries = Returned (Some err) ->
  exists key val, (key, val) ∈ entries
    /\ validate_property validateValue properties key val = Returned (Some err).
Proof.
  induction entries as [|[key val] entries IH]; [done|].
  rewrite validate_entries_cons.
  destruct (validate_entries properties entries) as [[e|]|] eqn:Hrest.
  - intros [= ->]. destruct (IH eq_refl) as (k & v & Hin & Hkv).
    exists k, v. split; [by right | done].
  - intros H. exists key, val. split; [by left | done].
  - done.
Qed.

Lemma validate_property_undeclared validate properties key val :
  properties !! key = None ->
  validate_property validate properties key val = Returned (Some (unknownField key)).
Proof. unfold validate_property. by intros ->. Qed.

Ltac case_eqb :=
  match goal with
  | |- context [String.eqb ?a ?b] =>
      destruct (String.eqb_spec a b); [subst|]
  | H : context [String.eqb ?a ?b] |- _ =>
      destruct (String.eqb_spec a b); [subst|]
  end.

Lemma validate_property_wrong_type validate properties prop key propType val :
  properties !! key = Some (VMap prop) ->
  as_string (index prop "type") = Some propType ->
  has_type propType val = false ->
  validate_property validate properties key val
  = Returned (Some (fieldTypeMismatch key propType val)).
Proof.
  unfold validate_property, has_type. intros H1 H2. rewrite H1. cbn [as_map].
  rewrite H2.
  repeat (case_eqb; [cbn; destruct val; cbn; try done;
                     try (by intros ->); try (by destruct (is_int64_float _)) |]).
  done.
Qed.

Lemma validate_property_error_field validate properties key val err :
  validate_property validate properties key val = Returned (Some err) ->
  error_field err = Some key.
Proof.
  unfold validate_property.
  destruct (properties !! key) as [propSchema|]; [|by intros [= <-]].
  destruct (as_map propSchema) as [prop|]; [|done].
  destruct (as_string (index prop "type")) as [propType|]; [|done].
  match goal with
  | |- match ?tv with _ => _ end = _ -> _ =>
      assert (Htv : forall e, tv = Returned (Some e) -> error_field e = Some key)
  end.
  { intros e.
    repeat (case_eqb; [destruct val; cbn; try (by intros [= <-]); try done|]);
      try done.
    - destruct (is_int64_float f); [done | by intros [= <-]].
    - destruct (as_map (index prop "properties")); [|done].
      destruct (validate _ _) as [[e'|]|]; [by intros [= <-] | done | done]. }
  match goal with
  | |- match ?tv with _ => _ end = _ -> _ => destruct tv as [[e|]|] eqn:Heq
  end.
  - intros [= <-]. by apply Htv.
  - destruct (as_slice (index prop "enum")) as [enum|]; [|done].
    destruct (enum_contains val enum) as [[|]|]; [done | by intros [= <-] | done].
  - done.
Qed.

Lemma validate_property_not_in_enum validate properties prop key propType val enum :
  properties !! key = Some (VMap prop) ->
  as_string (index prop "type") = Some propType ->
  as_slice (index prop "enum") = Some enum ->
  enum_contains val enum = Returned false ->
  validate_property validate properties key val <> Returned None.
Proof.
  unfold validate_property. intros H1 H2 H3 H4. rewrite H1. cbn [as_map].
  rewrite H2, H3, H4.
  match goal with
  | |- match ?tv with _ => _ end <> _ => by destruct tv as [[e|]|]
  end.
Qed.

Lemma validate_property_nested properties prop nestedProps obj key err :
  properties !! key = Some (VMap prop) ->
  as_string (index prop "type") = Some "object" ->
  as_map (index prop "properties") = Some nestedProps ->
  validateInput (nested_schema prop nestedProps) obj = Returned (Some err) ->
  validate_property validateValue properties key (VMap obj)
  = Returned (Some (nestedValidationFailed key err)).
Proof.
  unfold validate_property, validateInput, nested_schema.
  intros H1 H2 H3 H4. rewrite H1. cbn [as_map]. rewrite H2. cbn [String.eqb Ascii.eqb Bool.eqb].
  rewrite H3.
  destruct (as_strings (index prop "required")) as [required|]; by rewrite H4.
Qed.

Lemma find_missing (input : gmap string value) (required : list string) (field : string) :
  field ∈ required -> input !! field = None ->
  exists f, find (fun field => bool_decide (input !! field = None)) required = Some f.
Proof.
  intros Hin Hnone.
  destruct (find _ required) as [f|] eqn:Hfind; [by exists f|].
  apply list_elem_of_In in Hin.
  pose proof (find_none _ _ Hfind _ Hin) as Hf. cbn in Hf.
  by rewrite bool_decide_eq_false in Hf.
Qed.

(** Arguments that break the schema are never accepted. *)
Lemma validateInput_violation (schema input : gmap string value) :
  violation schema input -> validateInput schema input <> Returned None.
Proof.
  intros Hv. rewrite validateInput_eq. cbv zeta.
  destruct (negb _); [done|].
  assert (Hentry : forall properties key val,
             as_map (index schema "properties") = Some properties ->
             input !! key = Some val ->
             validate_property validateValue properties key val <> Returned None ->
             match
               match as_strings (index schema "required") with
               | Some required =>
                   find (fun field => bool_decide (input !! field = None)) required
               | None => None
               end
             with
             | Some field => Returned (Some (missingRequiredField field))
             | None =>
                 match as_map (index schema "properties") with
                 | None => Returned (Some invalidSchemaProperties)
                 | Some properties => validate_entries properties (map_to_list input)
                 end
             end <> Returned None).
  { intros properties key val Hp Hk Hbad.
    destruct (match as_strings (index schema "required") with
              | Some required => find _ required | None => None end); [done|].
    rewrite Hp. intros Hok. apply validate_entries_pass in Hok.
    rewrite Forall_forall in Hok.
    apply Hbad, (Hok (key, val)). by apply elem_of_map_to_list. }
  destruct Hv as [required field Hr Hin Hnone
                 | properties key val Hp Hk Hnone
                 | properties prop key propType val Hp Hk Hprop Ht Hwrong
                 | properties prop key propType val enum Hp Hk Hprop Ht He Hc
                 | properties prop nestedProps obj key err Hp Hk Hprop Ht Hn Herr].
  - rewrite Hr. destruct (find_missing input required field Hin Hnone) as [f ->].
    done.
  - apply (Hentry properties key val Hp Hk).
    by rewrite validate_property_undeclared.
  - apply (Hentry properties key val Hp Hk).
    by rewrite (validate_property_wrong_type _ _ prop key propType).
  - apply (Hentry properties key val Hp Hk).
    by apply (validate_property_not_in_enum _ _ prop key propType val enum).
  - apply (Hentry properties key (VMap obj) Hp Hk).
    by rewrite (validate_property_nested _ prop nestedProps obj key err).
Qed.

(** An error of [validateInput] is about the schema itself, or names a
    required field that is absent, or names a key of the input. *)
Lemma validateInput_error_field (schema input : gmap string value) (err : error) :
  validateInput schema input = Returned (Some err) ->
  (exists schemaType, err = invalidSchemaType schemaType)
  \/ err = invalidSchemaProperties
  \/ (exists field, err = missingRequiredField field /\ input !! field = None)
  \/ (exists key, error_field err = Some key /\ is_Some (input !! key)).
Proof.
  rewrite validateInput_eq. cbv zeta.
  destruct (negb _); [intros [= <-]; left; eauto|].
  destruct (match as_strings (index schema "required") with
            | Some required => find _ required | None => None end)
    as [field|] eqn:Hfind.
  - intros [= <-]. right; right; left. exists field. split; [done|].
    destruct (as_strings (index schema "required")) as [required|]; [|done].
    apply find_some in Hfind as [_ Hf]. by apply bool_decide_eq_true in Hf.
  - destruct (as_map (index schema "properties")) as [properties|];
      [|intros [= <-]; right; by left].
    intros Herr. apply validate_entries_error in Herr as (key & val & Hin & Hkv).
    right; right; right. exists key. split.
    + by apply (validate_property_error_field _ _ _ _ _ Hkv).
    + exists val. by apply elem_of_map_to_list.
Qed.

(** * The server *)

Lemma responseToMap_error (id : value) (code : Z) (message : string) :
  responseToMap (NewErrorResponse id code message []) = error_body id code message.
Proof. reflexivity. Qed.

Lemma responseToMap_tool_result (id : value) (result : option ToolResult) :
  responseToMap (NewSuccessResponse id (RToolResult result)) =
  match plain_ToolResult result with
  | Some v => result_body id (RValue v)
  | None => result_body id (RToolResult result)
  end.
Proof.
  unfold responseToMap, plain_ToolResult. cbn.
  destruct (marshal_ToolResult result) as [data|]; [|done]. cbn.
  by destruct (unmarshal_any data).
Qed.

Lemma Execute_invalid (t : tool) (input : gmap string value) (err : error) :
  validateInput (InputSchema t) input = Returned (Some err) ->
  Execute t input = ([], Returned (None, Some (inputValidationFailed err))).
Proof. unfold Execute, InputSchema. by intros ->. Qed.

(** [Execute] calls into the tool's code only with validated input. *)
Lemma Execute_calls (t : tool) (input : gmap string value) (c : call) :
  c ∈ fst (Execute t input) ->
  validateInput (InputSchema t) input = Returned None.
Proof.
  unfold Execute, InputSchema.
  destruct (validateInput _ input) as [[err|]|]; cbn; [|done|];
    intros H; by apply elem_of_nil in H.
Qed.

Section Server.

Variable Sprint : value -> string.
Variable MarshalText : value -> string.

Lemma HandleMessage_tools_call (s : SdkMCPServer) (msg : gmap string value)
    (t : tool) (arguments : value) :
  tools_call s msg t arguments ->
  HandleMessage Sprint MarshalText s msg =
  match as_map arguments with
  | None =>
      ([], Returned (Some (error_body (index msg "id") ErrorCodeInvalidParams
                             "missing or invalid arguments"), None))
  | Some input =>
      match Execute t input with
      | (calls, Panicked) => (calls, Panicked)
      | (calls, Returned (_, Some err)) =>
          (calls, Returned (Some (error_body (index msg "id") ErrorCodeInternalError
                                    ("tool execution failed: "
                                     +:+ ErrorText Sprint MarshalText err)), None))
      | (calls, Returned (result, None)) =>
          (calls, Returned (Some (responseToMap
                                    (NewSuccessResponse (index msg "id")
                                       (RToolResult result))), None))
      end
  end.
Proof.
  intros (Hmethod & params & name & Hparams & Hname & Htool & <-).
  unfold HandleMessage. rewrite Hmethod.
  change ("tools/call" =? "initialize") with false.
  change ("tools/call" =? "tools/list") with false.
  change ("tools/call" =? "tools/call") with true. cbv iota.
  unfold handleToolsCall. rewrite Hparams, Hname, Htool.
  destruct (as_map (index params "arguments")) as [input|]; [|done].
  destruct (Execute t input) as [calls [[result [err|]]|]]; done.
Qed.

Lemma enum_contains_scalar (val : value) (enum : list value) :
  scalar val = true -> enum_contains val enum <> Panicked.
Proof.
  intros Hval. induction enum as [|e enum IH]; [done|]. cbn [enum_contains].
  destruct (iface_eq val e) as [[|]|] eqn:Heq; [done | exact IH |].
  by destruct val, e.
Qed.

Lemma validate_property_scalar (properties : gmap string value) (key : string)
    (val : value) :
  scalar val = true ->
  validate_property validateValue properties key val <> Panicked.
Proof.
  intros Hval. unfold validate_property.
  destruct (properties !! key) as [propSchema|]; [|done].
  destruct (as_map propSchema) as [prop|]; [|done].
  destruct (as_string (index prop "type")) as [propType|]; [|done].
  assert (Henum : match as_slice (index prop "enum") with
                  | Some enum =>
                      match enum_contains val enum with
                      | Returned true => Returned None
                      | Returned false => Returned (Some (fieldNotInEnum key enum val))
                      | Panicked => Panicked
                      end
                  | None => Returned None
                  end <> Panicked).
  { destruct (as_slice (index prop "enum")) as [enum|]; [|done].
    pose proof (enum_contains_scalar val enum Hval).
    by destruct (enum_contains val enum) as [[|]|]. }
  repeat (case_eqb; [destruct val; try done; cbn [as_float64];
                     try (destruct (is_int64_float _)); done|]).
  done.
Qed.

(** Scalar arguments are validated without a panic. *)
Lemma validateInput_scalar (schema input : gmap string value) :
  (forall key val, input !! key = Some val -> scalar val = true) ->
  validateInput schema input <> Panicked.
Proof.
  intros Hscalar. rewrite validateInput_eq. cbv zeta.
  destruct (negb _); [done|].
  destruct (match as_strings (index schema "required") with
            | Some required => find _ required | None => None end); [done|].
  destruct (as_map (index schema "properties")) as [properties|]; [|done].
  assert (Hentries : Forall (fun kv => scalar kv.2 = true) (map_to_list input)).
  { apply Forall_forall. intros [key val] Hin. apply (Hscalar key).
    by apply elem_of_map_to_list. }
  induction Hentries as [|[key val] entries Hval _ IH]; [done|].
  rewrite validate_entries_cons.
  destruct (validate_entries properties entries) as [[err|]|]; [done| |done].
  by apply validate_property_scalar.
Qed.

(** C1 (as amended). For every tools/call request that names a tool of the
    server: arguments that are not an object are answered with -32602.
    Otherwise the tool's code (custom validator, handler) is called only
    after [validateInput] accepted the arguments; arguments that break the
    schema (a required name absent, an undeclared key, a wrong type, a
    value out of the enum, a nested object breaking its own schema) are
    not accepted; and when the arguments are not accepted no call is made
    and the outcome is either the JSON-RPC error -32603 with the message
    "tool execution failed: input validation failed: ..." of an error that
    is about the schema itself or names the absent required field or the
    offending key, or the panic of an enum comparison. There is no panic
    when every argument is a scalar (nil, a boolean, a number, a string),
    and a required field that is absent is answered with the error
    "missing required field: ..." for the first such field. *)
Theorem tools_call_validation (s : SdkMCPServer) (msg : gmap string value)
    (t : tool) (arguments : value) :
  tools_call s msg t arguments ->
  (as_map arguments = None ->
   HandleMessage Sprint MarshalText s msg
   = ([], Returned (Some (error_body (index msg "id") ErrorCodeInvalidParams
                            "missing or invalid arguments"), None)))
  /\ (forall input : gmap string value,
        arguments = VMap input ->
        let failed (err : error) : Prop :=
          HandleMessage Sprint MarshalText s msg
          = ([], Returned
                   (Some (error_body (index msg "id") ErrorCodeInternalError
                            ("tool execution failed: "
                             +:+ ("input validation failed: "
                                  +:+ ErrorText Sprint MarshalText err))),
                    None)) in
        (forall c : call,
            c ∈ fst (HandleMessage Sprint MarshalText s msg) ->
            validateInput (InputSchema t) input = Returned None)
        /\ (violation (InputSchema t) input ->
            validateInput (InputSchema t) input <> Returned None)
        /\ (validateInput (InputSchema t) input <> Returned None ->
            HandleMessage Sprint MarshalText s msg = ([], Panicked)
            \/ exists err : error, failed err /\ names_offence input err)
        /\ (violation (InputSchema t) input ->
            HandleMessage Sprint MarshalText s msg = ([], Panicked)
            \/ exists err : error, failed err /\ names_offence input err)
        /\ ((forall key val, input !! key = Some val -> scalar val = true) ->
            validateInput (InputSchema t) input <> Returned None ->
            exists err : error, failed err /\ names_offence input err)
        /\ (forall (required : list string) (field : string),
              as_string (index (InputSchema t) "type") = Some "object" ->
              as_strings (index (InputSchema t) "required") = Some required ->
              field ∈ required -> input !! field = None ->
              exists missing : string,
                missing ∈ required /\ input !! missing = None
                /\ failed (missingRequiredField missing))).
Proof.
  intros Hcall. pose proof (HandleMessage_tools_call s msg t arguments Hcall) as Heq.
  split.
  - intros Hnone. by rewrite Heq, Hnone.
  - intros input -> failed. cbn [as_map] in Heq.
    assert (Hfailed : forall err,
               validateInput (InputSchema t) input = Returned (Some err) ->
               failed err).
    { intros err Herr. unfold failed.
      by rewrite Heq, (Execute_invalid t input err Herr). }
    assert (Hrejected :
              validateInput (InputSchema t) input <> Returned None ->
              HandleMessage Sprint MarshalText s msg = ([], Panicked)
              \/ exists err : error, failed err /\ names_offence input err).
    { intros Hbad.
      destruct (validateInput (InputSchema t) input) as [[err|]|] eqn:Hv.
      - right. exists err. split; [by apply Hfailed|].
        exact (validateInput_error_field _ _ _ Hv).
      - done.
      - left. rewrite Heq. unfold Execute, InputSchema in *. by rewrite Hv. }
    split; [|split; [|split; [|split; [|split]]]].
    + intros c. rewrite Heq.
      pose proof (Execute_calls t input c) as Hc.
      destruct (Execute t input) as [calls [[result [err|]]|]]; exact Hc.
    + apply validateInput_violation.
    + exact Hrejected.
    + intros Hviolation. by apply Hrejected, validateInput_violation.
    + intros Hscalar Hbad.
      destruct (Hrejected Hbad) as [Hpanic|Herr]; [|done].
      pose proof (validateInput_scalar (InputSchema t) input Hscalar) as Hreturns.
      destruct (validateInput (InputSchema t) input) as [[err|]|] eqn:Hv;
        [|done|done].
      exists err. split; [by apply Hfailed|].
      exact (validateInput_error_field _ _ _ Hv).
    + intros required field Htype Hrequired Hin Hnone.
      destruct (find_missing input required field Hin Hnone) as [missing Hfind].
      exists missing. pose proof Hfind as Hmissing.
      apply find_some in Hmissing as [Hmem Habsent].
      split; [by apply list_elem_of_In|].
      split; [by apply bool_decide_eq_true in Habsent|].
      apply Hfailed. rewrite validateInput_eq. cbv zeta.
      rewrite Htype, Hrequired. cbn [default from_option id].
      rewrite (eq_refl : ("object" =? "object") = true). cbn [negb].
      by rewrite Hfind.
Qed.

(** C9. [HandleMessage] returns a Go error exactly when the message has no
    string [method]; with a string method every failure (unknown method,
    missing or invalid params, tool name or arguments, unknown tool, an
    error returned by the tool) is a JSON-RPC error in the response map,
    and whatever it returns then is a response map with a nil error. *)
Theorem HandleMessage_go_error (s : SdkMCPServer) (msg : gmap string value) :
  ((exists calls resp err,
       HandleMessage Sprint MarshalText s msg = (calls, Returned (resp, Some err)))
   <-> as_string (index msg "method") = None)
  /\ (forall method : string,
        as_string (index msg "method") = Some method ->
        let id := index msg "id" in
        (forall calls resp err,
            HandleMessage Sprint MarshalText s msg = (calls, Returned (resp, err)) ->
            err = None /\ is_Some resp)
        /\ (method <> "initialize" -> method <> "tools/list" ->
            method <> "tools/call" ->
            HandleMessage Sprint MarshalText s msg
            = ([], Returned (Some (error_body id ErrorCodeMethodNotFound
                                     ("method not found: " +:+ method)), None)))
        /\ (method = "tools/call" ->
            (as_map (index msg "params") = None ->
             HandleMessage Sprint MarshalText s msg
             = ([], Returned (Some (error_body id ErrorCodeInvalidParams
                                      "missing or invalid params"), None)))
            /\ (forall params : gmap string value,
                  as_map (index msg "params") = Some params ->
                  (as_string (index params "name") = None ->
                   HandleMessage Sprint MarshalText s msg
                   = ([], Returned (Some (error_body id ErrorCodeInvalidParams
                                            "missing or invalid tool name"), None)))
                  /\ (forall name : string,
                        as_string (index params "name") = Some name ->
                        (SdkMCPServer_toolsMap s !! name = None ->
                         HandleMessage Sprint MarshalText s msg
                         = ([], Returned
                                  (Some (error_body id ErrorCodeMethodNotFound
                                           ("tool not found: " +:+ name)), None)))
                        /\ (forall t : tool,
                              SdkMCPServer_toolsMap s !! name = Some t ->
                              (as_map (index params "arguments") = None ->
                               HandleMessage Sprint MarshalText s msg
                               = ([], Returned
                                        (Some (error_body id ErrorCodeInvalidParams
                                                 "missing or invalid arguments"),
                                         None)))
                              /\ (forall input calls result err,
                                    as_map (index params "arguments") = Some input ->
                                    Execute t input
                                    = (calls, Returned (result, Some err)) ->
                                    HandleMessage Sprint MarshalText s msg
                                    = (calls,
                                       Returned
                                         (Some (error_body id ErrorCodeInternalError
                                                  ("tool execution failed: "
                                                   +:+ ErrorText Sprint MarshalText err)),
                                          None)))))))).
Proof.
  split.
  - unfold HandleMessage. split.
    + intros (calls & resp & err & H).
      destruct (as_string (index msg "method")) as [method|]; [exfalso|done].
      repeat (case_eqb; [done|]); case_eqb; [|done].
      by destruct (handleToolsCall _ _ s msg) as [c [r|]].
    + intros ->. eauto.
  - intros method Hmethod id. split; [|split].
    + unfold HandleMessage. rewrite Hmethod. intros calls resp err.
      repeat (case_eqb; [intros [= <- <- <-]; eauto|]).
      case_eqb; [|intros [= <- <- <-]; eauto].
      destruct (handleToolsCall _ _ s msg) as [c [r|]]; [|done].
      intros [= <- <- <-]; eauto.
    + intros H1 H2 H3. unfold HandleMessage. rewrite Hmethod.
      repeat (case_eqb; [done|]). reflexivity.
    + intros ->. unfold HandleMessage. rewrite Hmethod.
      change ("tools/call" =? "initialize") with false.
      change ("tools/call" =? "tools/list") with false.
      change ("tools/call" =? "tools/call") with true. cbv iota.
      unfold handleToolsCall. fold id. split.
      * by intros ->.
      * intros params ->. split; [by intros ->|].
        intros name ->. split; [by intros ->|].
        intros t ->. split; [by intros ->|].
        intros input calls result err -> ->. reflexivity.
Qed.

End Server.

Lemma validateInput_without_required (schema input : gmap string value) :
  as_strings (index schema "required") = None ->
  validateInput schema input = validateInput (delete "required" schema) input.
Proof.
  intros Hreq. rewrite !validateInput_eq. unfold index in *.
  rewrite lookup_delete_eq. cbn [default as_strings].
  rewrite !lookup_delete_ne by done. by rewrite Hreq.
Qed.

(** C8. The required-field check of [validateInput] applies when
    [schema["required"]] is a [[]string]: then an absent required name is
    an error. When it holds anything else (a [[]interface{}] as a generic
    JSON decoder gives, or nothing), validation is as if the schema had no
    [required] entry, and an input whose every key passes the checks of its
    property is accepted although required names are absent. *)
Theorem required_only_as_strings (schema input : gmap string value) :
  (forall (required : list string) (field : string),
      as_strings (index schema "required") = Some required ->
      as_string (index schema "type") = Some "object" ->
      field ∈ required -> input !! field = None ->
      exists missing : string,
        validateInput schema input = Returned (Some (missingRequiredField missing))
        /\ missing ∈ required /\ input !! missing = None)
  /\ (as_strings (index schema "required") = None ->
      validateInput schema input = validateInput (delete "required" schema) input
      /\ forall properties : gmap string value,
          as_string (index schema "type") = Some "object" ->
          as_map (index schema "properties") = Some properties ->
          (forall key val,
              input !! key = Some val ->
              validate_property validateValue properties key val = Returned None) ->
          validateInput schema input = Returned None).
Proof.
  split.
  - intros required field Hreq Htype Hin Hnone.
    rewrite validateInput_eq. cbv zeta. rewrite Htype, Hreq. cbn [default negb].
    change ("object" =? "object") with true. cbn [negb].
    destruct (find_missing input required field Hin Hnone) as [f Hf].
    rewrite Hf. exists f. split; [done|].
    apply find_some in Hf as [Hf1 Hf2]. split.
    + by apply list_elem_of_In.
    + by apply bool_decide_eq_true in Hf2.
  - intros Hreq. split; [by apply validateInput_without_required|].
    intros properties Htype Hprops Hall.
    rewrite validateInput_eq. cbv zeta. rewrite Htype, Hreq, Hprops.
    change ("object" =? "object") with true. cbn [default negb].
    apply validate_entries_pass, Forall_forall. intros [key val] Hin.
    apply Hall. by apply elem_of_map_to_list.
Qed.

(** ** The shape of an encoded tool result *)

Lemma unmarshal_array (js : list json) (v : value) :
  unmarshal_any (JArray js) = Some v ->
  exists vs, v = VSlice vs /\ Forall2 (fun j x => unmarshal_any j = Some x) js vs.
Proof.
  cbn [unmarshal_any].
  set (step := fun x acc => match unmarshal_any x, acc with
                            | Some v, Some vs => Some (v :: vs)
                            | _, _ => None
                            end).
  intros H. destruct (foldr step (Some []) js) as [vs|] eqn:Hvs; [|done].
  injection H as <-. exists vs. split; [done|].
  revert vs Hvs. induction js as [|j js IH]; intros vs.
  - intros [= <-]. constructor.
  - cbn [foldr]. unfold step at 1.
    destruct (unmarshal_any j) as [x|] eqn:Hj; [|done].
    destruct (foldr step (Some []) js) as [xs|]; [|done].
    intros [= <-]. constructor; [done | by apply IH].
Qed.

Lemma marshal_ContentBlock_plain (b : ContentBlock) (j : json) (v : value) :
  marshal_ContentBlock b = Some j -> unmarshal_any j = Some v ->
  exists m,
    v = VMap m /\ m !! "type" = Some (VString (coerce_utf8 (GetType b))).
Proof.
  destruct b as [t|t|t|t]; cbn [marshal_ContentBlock GetType].
  - intros [= <-]. cbn. intros [= <-]. eexists. split; [done|]. by simplify_map_eq.
  - intros [= <-]. cbn. intros [= <-]. eexists. split; [done|]. by simplify_map_eq.
  - unfold member_map. destruct (marshal_map _) as [ji|]; [|done]. cbn.
    intros [= <-]. cbn. destruct (unmarshal_any ji) as [vi|]; [|done]. cbn.
    intros [= <-]. eexists. split; [done|]. by simplify_map_eq.
  - unfold member_any_omitempty, member_bool_ptr_omitempty.
    destruct (ToolResultBlock_Content t) eqn:Hc; cbn;
      try (destruct (is_finite _); [|done]); cbn;
      try (destruct (foldr _ _ _) as [js|]; [|done]; cbn);
      try (destruct (map_fold _ _ _) as [js|]; [|done]; cbn);
      destruct (ToolResultBlock_IsError t) as [e|]; cbn;
      intros [= <-]; cbn;
      repeat match goal with
             | |- context [unmarshal_any ?x] =>
                 destruct (unmarshal_any x); cbn; [|done]
             | |- context [unmarshal_number ?x] =>
                 destruct (unmarshal_number x); cbn; [|done]
             | |- context [foldr ?f ?a ?l] =>
                 destruct (foldr f a l); cbn; [|done]
             | |- context [foldl ?f ?a ?l] =>
                 destruct (foldl f a l); cbn; [|done]
             end;
      intros [= <-]; eexists; (split; [done|]); by simplify_map_eq.
Qed.

Lemma marshal_blocks_plain (blocks : list ContentBlock) (j : json) (v : value) :
  marshal_blocks blocks = Some j -> unmarshal_any j = Some v ->
  exists maps : list (gmap string value),
    v = VSlice (VMap <$> maps)
    /\ Forall2 (fun b m => m !! "type" = Some (VString (coerce_utf8 (GetType b))))
         blocks maps.
Proof.
  unfold marshal_blocks. destruct (mapM marshal_ContentBlock blocks) as [js|] eqn:Hjs;
    [|done].
  cbn. intros [= <-] Hv. apply mapM_Some in Hjs.
  apply unmarshal_array in Hv as (vs & -> & Hvs).
  revert vs Hvs. induction Hjs as [|b j blocks js Hb _ IH]; intros vs Hvs.
  - apply Forall2_nil_inv_l in Hvs as ->. by exists [].
  - apply Forall2_cons_inv_l in Hvs as (x & xs & Hx & Hxs & ->).
    destruct (IH xs Hxs) as (maps & [= ->] & Hmaps).
    destruct (marshal_ContentBlock_plain b j x Hb Hx) as (m & -> & Hm).
    exists (m :: maps). split; [done | by constructor].
Qed.

(** What the response carries for a tool result: a map with [content], and
    with [isError] only when the result is an error. *)
Lemma plain_ToolResult_shape (result : ToolResult) (v : value) :
  plain_ToolResult (Some result) = Some v ->
  exists content : value,
    v = VMap (if ToolResult_IsError result
              then <["isError" := VBool true]> (<["content" := content]> empty)
              else <["content" := content]> empty)
    /\ match ToolResult_Content result with
       | None => content = VNil
       | Some blocks =>
           exists maps : list (gmap string value),
             content = VSlice (VMap <$> maps)
             /\ Forall2 (fun b m => m !! "type" = Some (VString (coerce_utf8 (GetType b))))
                  blocks maps
       end.
Proof.
  unfold plain_ToolResult, marshal_ToolResult.
  destruct (ToolResult_Content result) as [blocks|].
  - destruct (marshal_blocks blocks) as [j|] eqn:Hj; [|done]. cbn.
    destruct (unmarshal_any j) as [c|] eqn:Hc;
      [|by destruct (ToolResult_IsError result)].
    destruct (marshal_blocks_plain blocks j c Hj Hc) as (maps & -> & Hmaps).
    destruct (ToolResult_IsError result); cbn;
      intros [= <-]; eexists; (split; [done|]); by exists maps.
  - cbn. destruct (ToolResult_IsError result); cbn; intros [= <-];
      by eexists.
Qed.

(** Blocks of strings are encoded, and what is written is decoded. *)
Lemma text_or_thinking_plain (blocks : list ContentBlock) :
  Forall (fun b => text_or_thinking b = true) blocks ->
  exists (js : list json) (vs : list value),
    mapM marshal_ContentBlock blocks = Some js
    /\ unmarshal_any (JArray js) = Some (VSlice vs).
Proof.
  induction 1 as [|b blocks Hb _ (js & vs & Hjs & Hvs)]; [by exists [], []|].
  assert (Hblock : exists j v, marshal_ContentBlock b = Some j
                               /\ unmarshal_any j = Some v).
  { destruct b as [t|t|t|t]; try done; by eexists _, _. }
  destruct Hblock as (j & v & Hj & Hv).
  exists (j :: js), (v :: vs). split.
  - apply mapM_Some. constructor; [done|]. by apply mapM_Some.
  - revert Hvs. cbn [unmarshal_any foldr]. rewrite Hv.
    destruct (foldr _ _ js) as [vs'|]; [|done]. by intros [= ->].
Qed.

Lemma plain_ToolResult_text (blocks : list ContentBlock) (isError : bool) :
  Forall (fun b => text_or_thinking b = true) blocks ->
  is_Some (plain_ToolResult (Some (mkToolResult (Some blocks) isError))).
Proof.
  intros (js & vs & Hjs & Hvs)%text_or_thinking_plain.
  unfold plain_ToolResult, marshal_ToolResult, marshal_blocks.
  cbn [ToolResult_Content ToolResult_IsError]. rewrite Hjs.
  cbn [fmap option_fmap option_map mbind option_bind].
  destruct isError; cbn [app unmarshal_any foldl fst snd];
    cbn [unmarshal_any] in Hvs; rewrite Hvs; done.
Qed.

Section Scenario.

Variable Sprint : value -> string.
Variable MarshalText : value -> string.

(** C4 (as amended). For every tools/call whose tool returns no error the
    response echoes the request id and carries a result. When the tool
    returned a nil result the result is nil. Otherwise it is the tool
    result encoded and decoded again: a map with [content] (the content
    blocks as maps, each with its [type]; nil when the result has no
    content) and with [isError: true] only when the tool result is an
    error; [isError] is left out when it is false. If the result cannot be
    encoded it is carried as it is, which does not happen when its blocks
    are text or thinking blocks. For the add tool of scenario S3 called
    with a=2.5, b=3.5 and id 7 the response body is
    {jsonrpc: "2.0", id: 7, result: {content: [{type: "text", text: "6"}]}}. *)
Theorem tools_call_success :
  (forall (s : SdkMCPServer) (msg : gmap string value) (t : tool)
          (input : gmap string value) (calls : list call)
          (result : option ToolResult),
      tools_call s msg t (VMap input) ->
      Execute t input = (calls, Returned (result, None)) ->
      exists carried : rvalue,
        HandleMessage Sprint MarshalText s msg
        = (calls, Returned (Some (result_body (index msg "id") carried), None))
        /\ match result with
           | None => carried = RValue VNil
           | Some r =>
               match plain_ToolResult (Some r) with
               | None => carried = RToolResult (Some r)
               | Some v =>
                   carried = RValue v
                   /\ exists content : value,
                       v = VMap (if ToolResult_IsError r
                                 then <["isError" := VBool true]>
                                        (<["content" := content]> empty)
                                 else <["content" := content]> empty)
                       /\ match ToolResult_Content r with
                          | None => content = VNil
                          | Some blocks =>
                              exists maps : list (gmap string value),
                                content = VSlice (VMap <$> maps)
                                /\ Forall2
                                     (fun b m =>
                                        m !! "type"
                                        = Some (VString (coerce_utf8 (GetType b))))
                                     blocks maps
                          end
               end
           end)
  /\ (forall (blocks : list ContentBlock) (isError : bool),
        Forall (fun b => text_or_thinking b = true) blocks ->
        is_Some (plain_ToolResult (Some (mkToolResult (Some blocks) isError))))
  /\ HandleMessage Sprint MarshalText S3_server (S3_call S3_arguments)
     = ([HandlerCall S3_arguments],
        Returned (Some (result_body (VFloat 7) (RValue (VMap S3_result))), None)).
Proof.
  split; [|split; [exact plain_ToolResult_text | reflexivity]].
  intros s msg t input calls result Hcall Hexec.
  pose proof (HandleMessage_tools_call Sprint MarshalText s msg t _ Hcall) as Heq.
  cbn [as_map] in Heq. rewrite Hexec, responseToMap_tool_result in Heq.
  destruct result as [r|].
  - destruct (plain_ToolResult (Some r)) as [v|] eqn:Hv.
    + exists (RValue v). split; [done|]. split; [done|].
      by apply plain_ToolResult_shape.
    + by exists (RToolResult (Some r)).
  - by exists (RValue VNil).
Qed.

End Scenario.

(** C4, the claim as stated fails: in scenario S3 the result of the
    response has no [isError] member. *)
Lemma tools_call_isError_absent :
  (forall Sprint MarshalText : value -> string,
      HandleMessage Sprint MarshalText S3_server (S3_call S3_arguments)
      = ([HandlerCall S3_arguments],
         Returned (Some (result_body (VFloat 7) (RValue (VMap S3_result))), None)))
  /\ S3_result !! "isError" = None
  /\ S3_result !! "content"
     = Some (VSlice [VMap (<["text" := VString "6"]>
                             (<["type" := VString "text"]> empty))]).
Proof. split; [intros; reflexivity | split; reflexivity]. Qed.

Lemma tools_call_success_witness :
  HandleMessage type_name type_name S3_server (S3_call S3_arguments)
  = ([HandlerCall S3_arguments],
     Returned (Some (result_body (VFloat 7) (RValue (VMap S3_result))), None)).
Proof.
  destruct (proj1 (tools_call_success type_name type_name)
              S3_server (S3_call S3_arguments) S3_add_tool S3_arguments
              [HandlerCall S3_arguments]
              (Some (NewMcpToolResult [OfTextBlock (mkTextBlock "text" "6")])))
    as (carried & Hresponse & Hcarried).
  - split; [reflexivity|].
    exists (<["arguments" := VMap S3_arguments]> (<["name" := VString "add"]> empty)),
      "add".
    repeat split; reflexivity.
  - reflexivity.
  - rewrite (eq_refl : plain_ToolResult
                         (Some (NewMcpToolResult
                                  [OfTextBlock (mkTextBlock "text" "6")]))
                       = Some (VMap S3_result)) in Hcarried.
    destruct Hcarried as [-> _]. exact Hresponse.
Defined.

(** C1, the claim as stated fails: a call of the S3 tool without its
    required [b] is answered with code -32603, not -32602. *)
Lemma tools_call_missing_required :
  (forall Sprint MarshalText : value -> string,
      HandleMessage Sprint MarshalText S3_server
        (S3_call (<["a" := VFloat 2.5]> empty))
      = ([], Returned
               (Some (error_body (VFloat 7) (-32603)
                        "tool execution failed: input validation failed: missing required field: b"),
                None)))
  /\ ErrorCodeInvalidParams = (-32602)%Z
  /\ (-32603)%Z <> ErrorCodeInvalidParams.
Proof. split; [intros; reflexivity | split; [reflexivity | done]]. Qed.

Lemma tools_call_validation_witness :
  exists missing : string,
    missing ∈ ["a"; "b"] /\ (<["a" := VFloat 2.5]> empty : gmap string value) !! missing = None
    /\ HandleMessage type_name type_name S3_server (S3_call (<["a" := VFloat 2.5]> empty))
       = ([], Returned
                (Some (error_body (index (S3_call (<["a" := VFloat 2.5]> empty)) "id")
                         ErrorCodeInternalError
                         ("tool execution failed: "
                          +:+ ("input validation failed: "
                               +:+ ErrorText type_name type_name
                                     (missingRequiredField missing)))),
                 None)).
Proof.
  refine (proj2 (proj2 (proj2 (proj2 (proj2
            (proj2 (tools_call_validation type_name type_name S3_server
                      (S3_call (<["a" := VFloat 2.5]> empty)) S3_add_tool
                      (VMap (<["a" := VFloat 2.5]> empty)) _)
               (<["a" := VFloat 2.5]> empty) eq_refl)))))
            ["a"; "b"] "b" eq_refl eq_refl _ eq_refl).
  - split; [reflexivity|].
    exists (<["arguments" := VMap (<["a" := VFloat 2.5]> empty)]>
              (<["name" := VString "add"]> empty)), "add".
    repeat split; reflexivity.
  - apply list_elem_of_further, list_elem_of_here.
Defined.

Lemma required_only_as_strings_witness :
  validateInput decoded_schema (<["a" := VFloat 2.5]> empty) = Returned None.
Proof.
  refine (proj2 (proj2 (required_only_as_strings decoded_schema
                          (<["a" := VFloat 2.5]> empty)) eq_refl)
            (<["b" := VMap (<["type" := VString "number"]> empty)]>
               (<["a" := VMap (<["type" := VString "number"]> empty)]> empty))
            eq_refl eq_refl _).
  intros key val [[<- <-]|[_ Hempty]]%lookup_insert_Some; [reflexivity|].
  by rewrite lookup_empty in Hempty.
Defined.

Lemma HandleMessage_go_error_witness :
  HandleMessage type_name type_name S3_server resources_list
  = ([], Returned (Some (error_body (VFloat 1) ErrorCodeMethodNotFound
                           "method not found: resources/list"), None)).
Proof.
  refine (proj1 (proj2 (proj2 (HandleMessage_go_error type_name type_name S3_server
                                 resources_list)
                          "resources/list" eq_refl)) _ _ _);
    discriminate.
Defined.

(** * The message parser *)

Lemma unmarshal_struct_snoc {S : Type} (assign : string -> json -> S -> option S)
    (members : list (string * json)) (key : string) (j : json) (zero : S) :
  unmarshal_struct assign (JObject (members ++ [(key, j)])) zero =
  match unmarshal_struct assign (JObject members) zero with
  | Some s => assign key j s
  | None => None
  end.
Proof. unfold unmarshal_struct. by rewrite foldl_app. Qed.

Lemma unmarshal_blocks_error (raws : list json) (raw : json) (e : decode_error) :
  raw ∈ raws -> UnmarshalContentBlock raw = Err e ->
  exists e', unmarshal_blocks raws = Err e'.
Proof.
  intros Hin Herr. induction raws as [|r raws IH]; [by apply elem_of_nil in Hin|].
  cbn [unmarshal_blocks]. apply elem_of_cons in Hin as [<-|Hin].
  - rewrite Herr. eauto.
  - destruct (UnmarshalContentBlock r); [|eauto].
    destruct (IH Hin) as [e' ->]. eauto.
Qed.

Lemma unmarshal_blocks_ok (raws : list json) (blocks : list ContentBlock) :
  unmarshal_blocks raws = Ok blocks <->
  Forall2 (fun raw block => UnmarshalContentBlock raw = Ok block) raws blocks.
Proof.
  revert blocks. induction raws as [|r raws IH]; intros blocks; cbn [unmarshal_blocks].
  - split; [intros [= <-]; constructor | by intros ->%Forall2_nil_inv_l].
  - split.
    + destruct (UnmarshalContentBlock r) as [b|e] eqn:Hr; [|done].
      destruct (unmarshal_blocks raws) as [bs|e] eqn:Hrs; [|done].
      intros [= <-]. constructor; [done|]. by apply (proj1 (IH bs)).
    + intros (b' & bs' & Hb & Hbs & ->)%Forall2_cons_inv_l.
      rewrite Hb. by rewrite (proj2 (IH bs') Hbs).
Qed.

Lemma UnmarshalContentBlock_unknown (data : json) (typ : string) :
  unmarshal_struct typeCheck_assign data "" = Some typ ->
  known_block_type typ = false ->
  UnmarshalContentBlock data = Err (MessageParseError "unknown content block type" typ).
Proof.
  unfold UnmarshalContentBlock, known_block_type. intros -> H.
  apply orb_false_elim in H as [H H4]. apply orb_false_elim in H as [H H3].
  apply orb_false_elim in H as [H1 H2]. by rewrite H1, H2, H3, H4.
Qed.

Lemma UnmarshalMessage_assistant (data : json) :
  unmarshal_struct typeCheck_assign data "" = Some "assistant" ->
  UnmarshalMessage data =
  match AssistantMessage_UnmarshalJSON data with
  | Err err => Err (CLIJSONDecodeError "failed to unmarshal assistant message" data err)
  | Ok msg => Ok (OfAssistantMessage msg)
  end.
Proof. unfold UnmarshalMessage. by intros ->. Qed.

Lemma UnmarshalMessage_user (data : json) :
  unmarshal_struct typeCheck_assign data "" = Some "user" ->
  UnmarshalMessage data =
  match UserMessage_UnmarshalJSON data with
  | Err err => Err (CLIJSONDecodeError "failed to unmarshal user message" data err)
  | Ok msg => Ok (OfUserMessage msg)
  end.
Proof. unfold UnmarshalMessage. by intros ->. Qed.

Lemma UnmarshalMessage_system (data : json) :
  unmarshal_struct typeCheck_assign data "" = Some "system" ->
  UnmarshalMessage data =
  match unmarshal_struct SystemMessage_assign data zero_SystemMessage with
  | None => Err (CLIJSONDecodeError "failed to unmarshal system message" data JSONError)
  | Some msg => Ok (OfSystemMessage msg)
  end.
Proof. unfold UnmarshalMessage. by intros ->. Qed.

(** ** Lines without content *)

Lemma foldl_None {A B : Type} (f : A -> B -> option A) (l : list B) :
  foldl (fun acc x => match acc with Some s => f s x | None => None end) None l = None.
Proof. by induction l. Qed.

Lemma unmarshal_struct_cons {S : Type} (assign : string -> json -> S -> option S)
    (key : string) (j : json) (members : list (string * json)) (zero : S) :
  unmarshal_struct assign (JObject ((key, j) :: members)) zero =
  match assign key j zero with
  | Some s => unmarshal_struct assign (JObject members) s
  | None => None
  end.
Proof.
  unfold unmarshal_struct. cbn [foldl fst snd].
  destruct (assign key j zero); [done|].
  exact (foldl_None (fun s kv => assign kv.1 kv.2 s) members).
Qed.

(** An invariant of the struct under every assignment of a member holds of
    the decoded struct. *)
Lemma unmarshal_struct_inv {S : Type} (assign : string -> json -> S -> option S)
    (P : S -> Prop) (Q : string -> json -> Prop)
    (members : list (string * json)) (zero aux : S) :
  (forall k j s s', Q k j -> P s -> assign k j s = Some s' -> P s') ->
  Forall (fun kv => Q kv.1 kv.2) members ->
  P zero ->
  unmarshal_struct assign (JObject members) zero = Some aux -> P aux.
Proof.
  intros Hstep Hmembers. revert zero.
  induction Hmembers as [|[k j] members Hkj _ IH]; intros zero Hzero.
  - by intros [= <-].
  - rewrite unmarshal_struct_cons.
    destruct (assign k j zero) as [s|] eqn:Hs; [|done].
    apply IH. exact (Hstep k j zero s Hkj Hzero Hs).
Qed.

Lemma foldl_insert_lookup_ne (key : string) (nested : list (string * json))
    (old : gmap string json) :
  existsb (fun kv => String.eqb kv.1 key) nested = false ->
  foldl (fun m kv => <[kv.1 := kv.2]> m) old nested !! key = old !! key.
Proof.
  revert old. induction nested as [|[k j] nested IH]; intros old; [done|].
  cbn [existsb foldl fst snd]. intros [Hk Hrest]%orb_false_iff.
  rewrite (IH _ Hrest). apply lookup_insert_ne.
  by apply String.eqb_neq in Hk.
Qed.

Lemma dec_raw_map_no_content (j : json) (old new : gmap string json) :
  nested_content j = false -> old !! "content" = None ->
  dec_raw_map j old = Some new -> new !! "content" = None.
Proof.
  intros Hj Hold. destruct j; try done; cbn [dec_raw_map]; intros [= <-].
  - apply lookup_empty.
  - by rewrite foldl_insert_lookup_ne.
Qed.

Lemma has_content_field_false (members : list (string * json)) :
  has_content_field (JObject members) = false ->
  Forall (fun kv => no_content kv.1 kv.2) members.
Proof.
  cbn [has_content_field]. induction members as [|[k j] members IH]; [constructor|].
  cbn [existsb fst snd].
  intros [[Hc Hm]%orb_false_iff Hrest]%orb_false_iff.
  constructor; [|by apply IH]. split; [done|]. cbn [fst snd].
  intros Hk. by rewrite Hk in Hm.
Qed.

Lemma UserAux_no_content (members : list (string * json)) (aux : UserAux) :
  has_content_field (JObject members) = false ->
  unmarshal_struct UserAux_assign (JObject members) zero_UserAux = Some aux ->
  UserAux_contentRaw aux = None.
Proof.
  intros Hno%has_content_field_false Haux.
  cut (UserAux_Content aux = None /\ UserAux_Message aux !! "content" = None).
  { intros [Hc Hm]. unfold UserAux_contentRaw. by rewrite Hm. }
  refine (unmarshal_struct_inv UserAux_assign
            (fun a => UserAux_Content a = None /\ UserAux_Message a !! "content" = None)
            no_content members zero_UserAux aux _ Hno _ Haux); [|done].
  intros k j s s' [Hc Hm] [Hsc Hsm]. unfold UserAux_assign. rewrite Hc.
  destruct (field_match k "message").
  { destruct (dec_raw_map j (UserAux_Message s)) as [new|] eqn:Hnew; [|done].
    intros [= <-]. split; [done|]. cbn [UserAux_Message].
    exact (dec_raw_map_no_content j _ new (Hm eq_refl) Hsm Hnew). }
  destruct (field_match k "uuid");
    [destruct (dec_string_ptr j); [|done]; by intros [= <-]|].
  destruct (field_match k "type");
    [destruct (dec_string j _); [|done]; by intros [= <-]|].
  destruct (field_match k "parent_tool_use_id");
    [destruct (dec_string_ptr j); [|done]; by intros [= <-]|].
  by intros [= <-].
Qed.

Lemma AssistantAux_no_content (members : list (string * json)) (aux : AssistantAux) :
  has_content_field (JObject members) = false ->
  unmarshal_struct AssistantAux_assign (JObject members) zero_AssistantAux = Some aux ->
  AssistantAux_contentBlocks aux = None.
Proof.
  intros Hno%has_content_field_false Haux.
  cut (AssistantAux_Content aux = None /\ AssistantAux_Message aux !! "content" = None).
  { intros [Hc Hm]. unfold AssistantAux_contentBlocks. by rewrite Hm. }
  refine (unmarshal_struct_inv AssistantAux_assign
            (fun a => AssistantAux_Content a = None
                      /\ AssistantAux_Message a !! "content" = None)
            no_content members zero_AssistantAux aux _ Hno _ Haux); [|done].
  intros k j s s' [Hc Hm] [Hsc Hsm]. unfold AssistantAux_assign. rewrite Hc.
  destruct (field_match k "message").
  { destruct (dec_raw_map j (AssistantAux_Message s)) as [new|] eqn:Hnew; [|done].
    intros [= <-]. split; [done|]. cbn [AssistantAux_Message].
    exact (dec_raw_map_no_content j _ new (Hm eq_refl) Hsm Hnew). }
  destruct (field_match k "type");
    [destruct (dec_string j _); [|done]; by intros [= <-]|].
  destruct (field_match k "model");
    [destruct (dec_string j _); [|done]; by intros [= <-]|].
  destruct (field_match k "parent_tool_use_id");
    [destruct (dec_string_ptr j); [|done]; by intros [= <-]|].
  destruct (field_match k "error");
    [destruct (dec_string_ptr j); [|done]; by intros [= <-]|].
  by intros [= <-].
Qed.

Lemma typeCheck_object (data : json) (typ : string) :
  unmarshal_struct typeCheck_assign data "" = Some typ -> typ <> "" ->
  exists members, data = JObject members.
Proof.
  destruct data; try done; [|by eauto].
  cbn [unmarshal_struct]. by intros [= <-].
Qed.

(** C10. A user line with no content field, top-level or nested, is a
    decode error: "missing content field" when its members decode at all;
    an assistant line with no content field whose members decode is an
    assistant message with the empty list of blocks. *)
Theorem message_without_content :
  (forall (data : json),
      unmarshal_struct typeCheck_assign data "" = Some "user" ->
      has_content_field data = false ->
      exists cause,
        UnmarshalMessage data
        = Err (CLIJSONDecodeError "failed to unmarshal user message" data cause))
  /\ (forall (data : json) (aux : UserAux),
         unmarshal_struct typeCheck_assign data "" = Some "user" ->
         has_content_field data = false ->
         unmarshal_struct UserAux_assign data zero_UserAux = Some aux ->
         UnmarshalMessage data
         = Err (CLIJSONDecodeError "failed to unmarshal user message" data
                  (ErrorString "missing content field")))
  /\ (forall (data : json) (aux : AssistantAux),
         unmarshal_struct typeCheck_assign data "" = Some "assistant" ->
         has_content_field data = false ->
         unmarshal_struct AssistantAux_assign data zero_AssistantAux = Some aux ->
         exists m,
           UnmarshalMessage data = Ok (OfAssistantMessage m)
           /\ AssistantMessage_Content m = []).
Proof.
  assert (Huser : forall data aux,
             unmarshal_struct typeCheck_assign data "" = Some "user" ->
             has_content_field data = false ->
             unmarshal_struct UserAux_assign data zero_UserAux = Some aux ->
             UnmarshalMessage data
             = Err (CLIJSONDecodeError "failed to unmarshal user message" data
                      (ErrorString "missing content field"))).
  { intros data aux Htyp Hno Haux.
    destruct (typeCheck_object data "user" Htyp) as [members ->]; [done|].
    rewrite (UnmarshalMessage_user _ Htyp). unfold UserMessage_UnmarshalJSON.
    rewrite Haux. by rewrite (UserAux_no_content members aux Hno Haux). }
  split; [|split; [exact Huser|]].
  - intros data Htyp Hno.
    destruct (unmarshal_struct UserAux_assign data zero_UserAux) as [aux|] eqn:Haux.
    + rewrite (Huser data aux Htyp Hno Haux). eauto.
    + rewrite (UnmarshalMessage_user _ Htyp). unfold UserMessage_UnmarshalJSON.
      rewrite Haux. eauto.
  - intros data aux Htyp Hno Haux.
    destruct (typeCheck_object data "assistant" Htyp) as [members ->]; [done|].
    rewrite (UnmarshalMessage_assistant _ Htyp).
    unfold AssistantMessage_UnmarshalJSON.
    rewrite Haux, (AssistantAux_no_content members aux Hno Haux).
    cbn [default from_option id unmarshal_blocks]. eauto.
Qed.

Lemma message_without_content_witness :
  UnmarshalMessage (JObject [("type", JString "user"); ("uuid", JString "u")])
  = Err (CLIJSONDecodeError "failed to unmarshal user message"
           (JObject [("type", JString "user"); ("uuid", JString "u")])
           (ErrorString "missing content field"))
  /\ exists m,
      UnmarshalMessage (JObject [("type", JString "assistant"); ("model", JString "m")])
      = Ok (OfAssistantMessage m)
      /\ AssistantMessage_Content m = [].
Proof.
  split.
  - eapply (proj1 (proj2 message_without_content)); reflexivity.
  - eapply (proj2 (proj2 message_without_content)); reflexivity.
Defined.

(** The content of a tool_result block is decoded as an [interface{}]. *)
Lemma tool_result_content_any (id : string) (content : json) (v : value) :
  unmarshal_any content = Some v ->
  UnmarshalContentBlock (tool_result_block id content)
  = Ok (OfToolResultBlock (mkToolResultBlock "tool_result" id v None)).
Proof.
  intros Hv. unfold UnmarshalContentBlock, tool_result_block.
  rewrite (unmarshal_struct_cons typeCheck_assign).
  rewrite (eq_refl : typeCheck_assign "type" (JString "tool_result") ""
                     = Some "tool_result").
  rewrite (unmarshal_struct_cons typeCheck_assign).
  rewrite (eq_refl : typeCheck_assign "tool_use_id" (JString id) "tool_result"
                     = Some "tool_result").
  rewrite (unmarshal_struct_cons typeCheck_assign).
  rewrite (eq_refl : typeCheck_assign "content" content "tool_result"
                     = Some "tool_result").
  rewrite (eq_refl : unmarshal_struct typeCheck_assign (JObject []) "tool_result"
                     = Some "tool_result").
  rewrite (eq_refl : ("tool_result" =? "text") = false).
  rewrite (eq_refl : ("tool_result" =? "thinking") = false).
  rewrite (eq_refl : ("tool_result" =? "tool_use") = false).
  rewrite (eq_refl : ("tool_result" =? "tool_result") = true).
  rewrite (unmarshal_struct_cons ToolResultBlock_assign).
  rewrite (eq_refl : ToolResultBlock_assign "type" (JString "tool_result")
                       (mkToolResultBlock "" "" VNil None)
                     = Some (mkToolResultBlock "tool_result" "" VNil None)).
  rewrite (unmarshal_struct_cons ToolResultBlock_assign).
  rewrite (eq_refl : ToolResultBlock_assign "tool_use_id" (JString id)
                       (mkToolResultBlock "tool_result" "" VNil None)
                     = Some (mkToolResultBlock "tool_result" id VNil None)).
  rewrite (unmarshal_struct_cons ToolResultBlock_assign).
  rewrite (eq_refl : ToolResultBlock_assign "content" content
                       (mkToolResultBlock "tool_result" id VNil None)
                     = (fun v => mkToolResultBlock "tool_result" id v None)
                         <$> dec_any content).
  unfold dec_any. rewrite Hv. reflexivity.
Qed.

(** A system line parses whatever its subtype. *)
Lemma system_line_parses (subtype : string) :
  UnmarshalMessage (system_line subtype)
  = Ok (OfSystemMessage (mkSystemMessage "system" subtype ∅ ∅ ∅ "")).
Proof. reflexivity. Qed.

(** A system line that parses with one subtype parses with another. *)
Lemma with_subtype_change (members : list (string * json)) (s1 s2 : string)
    (m : SystemMessage) :
  UnmarshalMessage (with_subtype s1 members) = Ok (OfSystemMessage m) ->
  UnmarshalMessage (with_subtype s2 members) = Ok (OfSystemMessage (set_Subtype s2 m)).
Proof.
  unfold with_subtype, UnmarshalMessage. rewrite !unmarshal_struct_snoc.
  destruct (unmarshal_struct typeCheck_assign (JObject members) "") as [typ|];
    [|done].
  rewrite (eq_refl : typeCheck_assign "subtype" (JString s1) typ = Some typ).
  rewrite (eq_refl : typeCheck_assign "subtype" (JString s2) typ = Some typ).
  set (line1 := JObject (members ++ [("subtype", JString s1)])).
  destruct (typ =? "user"); [by destruct (UserMessage_UnmarshalJSON line1)|].
  destruct (typ =? "assistant");
    [by destruct (AssistantMessage_UnmarshalJSON line1)|].
  destruct ((typ =? "system") || (typ =? "control_request")
            || (typ =? "control_response")).
  - destruct (unmarshal_struct SystemMessage_assign (JObject members) _) as [m'|];
      [|done].
    intros [= <-]. reflexivity.
  - intros H. exfalso. revert H.
    destruct (typ =? "result").
    { destruct (unmarshal_struct ResultMessage_assign (JObject members) _) as [r|];
        [|done].
      by destruct (ResultMessage_assign "subtype" (JString s1) r). }
    destruct (typ =? "stream_event"); [|done].
    destruct (unmarshal_struct StreamEvent_assign (JObject members) _) as [r|];
      [|done].
    by destruct (StreamEvent_assign "subtype" (JString s1) r).
Qed.




(** ** The flat and the nested form *)

Lemma user_content_string (s : string) : user_content (JString s) = Ok (ContentString s).
Proof. reflexivity. Qed.

Lemma user_content_array (raws : list json) :
  user_content (JArray raws) =
  match unmarshal_blocks raws with
  | Ok blocks => Ok (ContentBlocks blocks)
  | Err err => Err err
  end.
Proof. reflexivity. Qed.

Lemma UnmarshalMessage_user_aux (data : json) (aux : UserAux) :
  unmarshal_struct typeCheck_assign data "" = Some "user" ->
  unmarshal_struct UserAux_assign data zero_UserAux = Some aux ->
  UnmarshalMessage data =
  match UserAux_contentRaw aux with
  | None =>
      Err (CLIJSONDecodeError "failed to unmarshal user message" data
             (ErrorString "missing content field"))
  | Some contentRaw =>
      match user_content contentRaw with
      | Err err => Err (CLIJSONDecodeError "failed to unmarshal user message" data err)
      | Ok content =>
          Ok (OfUserMessage (mkUserMessage (UserAux_Type aux) content
                               (UserAux_parentToolUseID aux) (UserAux_uuid aux)))
      end
  end.
Proof.
  intros Htyp Haux. rewrite (UnmarshalMessage_user _ Htyp).
  unfold UserMessage_UnmarshalJSON. rewrite Haux.
  destruct (UserAux_contentRaw aux) as [raw|]; [|done].
  by destruct (user_content raw).
Qed.

Lemma UnmarshalMessage_assistant_aux (data : json) (aux : AssistantAux) :
  unmarshal_struct typeCheck_assign data "" = Some "assistant" ->
  unmarshal_struct AssistantAux_assign data zero_AssistantAux = Some aux ->
  UnmarshalMessage data =
  match unmarshal_blocks (default [] (AssistantAux_contentBlocks aux)) with
  | Err err => Err (CLIJSONDecodeError "failed to unmarshal assistant message" data err)
  | Ok content =>
      Ok (OfAssistantMessage
            (mkAssistantMessage (AssistantAux_Type aux) content
               (AssistantAux_model aux) (AssistantAux_ParentToolUseID aux)
               (AssistantAux_error aux)))
  end.
Proof.
  intros Htyp Haux. rewrite (UnmarshalMessage_assistant _ Htyp).
  unfold AssistantMessage_UnmarshalJSON. rewrite Haux.
  by destruct (unmarshal_blocks _).
Qed.

Lemma user_flat_decoded (content : json) (parent uuid : string) :
  UnmarshalMessage (user_flat content parent uuid)
  = user_decoded (user_flat content parent uuid) content parent uuid.
Proof.
  rewrite (UnmarshalMessage_user_aux _
             (mkUserAux (Some content) ∅ (Some uuid) "user" (Some parent)));
    reflexivity.
Qed.

Lemma user_nested_decoded (content : json) (parent uuid : string) :
  UnmarshalMessage (user_nested content parent uuid)
  = user_decoded (user_nested content parent uuid) content parent uuid.
Proof.
  rewrite (UnmarshalMessage_user_aux _
             (mkUserAux None
                (<["uuid" := JString uuid]>
                   (<["parent_tool_use_id" := JString parent]>
                      (<["content" := content]> ∅)))
                None "user" None));
    reflexivity.
Qed.

Lemma user_both_decoded (content : json) (parent uuid : string)
    (nestedContent : json) (nestedParent nestedUuid : string) :
  UnmarshalMessage (user_both content parent uuid nestedContent nestedParent nestedUuid)
  = user_decoded (user_both content parent uuid nestedContent nestedParent nestedUuid)
      nestedContent nestedParent nestedUuid.
Proof.
  rewrite (UnmarshalMessage_user_aux _
             (mkUserAux (Some content)
                (<["uuid" := JString nestedUuid]>
                   (<["parent_tool_use_id" := JString nestedParent]>
                      (<["content" := nestedContent]> ∅)))
                (Some uuid) "user" (Some parent)));
    reflexivity.
Qed.

Lemma assistant_flat_decoded (content : list json) (model parent error : string) :
  UnmarshalMessage (assistant_flat content model parent error)
  = assistant_decoded (assistant_flat content model parent error)
      content model parent error.
Proof.
  rewrite (UnmarshalMessage_assistant_aux _
             (mkAssistantAux (Some content) ∅ "assistant" model (Some parent)
                (Some error)));
    reflexivity.
Qed.

Lemma nested_error (aux : AssistantAux) (error : string) :
  AssistantAux_Message aux !! "error" = Some (JString error) -> error <> "" ->
  AssistantAux_error aux = Some error.
Proof.
  intros Hm Herror. unfold AssistantAux_error. rewrite Hm. cbn [nested_string dec_string].
  by destruct (String.eqb_spec error "").
Qed.

Lemma assistant_nested_decoded (content : list json) (model parent error : string) :
  error <> "" ->
  UnmarshalMessage (assistant_nested content model parent error)
  = assistant_decoded (assistant_nested content model parent error)
      content model parent error.
Proof.
  intros Herror.
  rewrite (UnmarshalMessage_assistant_aux _
             (mkAssistantAux None
                (<["error" := JString error]>
                   (<["model" := JString model]>
                      (<["content" := JArray content]> ∅)))
                "assistant" "" (Some parent) None)); [|reflexivity..].
  rewrite (nested_error _ error); [reflexivity|reflexivity|done].
Qed.

Lemma assistant_both_decoded (content : list json) (model parent error : string)
    (nestedContent : list json) (nestedModel nestedError : string) :
  nestedError <> "" ->
  UnmarshalMessage (assistant_both content model parent error
                      nestedContent nestedModel nestedError)
  = assistant_decoded (assistant_both content model parent error
                         nestedContent nestedModel nestedError)
      nestedContent nestedModel parent nestedError.
Proof.
  intros Herror.
  rewrite (UnmarshalMessage_assistant_aux _
             (mkAssistantAux (Some content)
                (<["error" := JString nestedError]>
                   (<["model" := JString nestedModel]>
                      (<["content" := JArray nestedContent]> ∅)))
                "assistant" model (Some parent) (Some error))); [|reflexivity..].
  rewrite (nested_error _ nestedError); [reflexivity|reflexivity|done].
Qed.

(** C2 (as amended). For user lines, the flat form, the nested form and
    both at once decode alike, the nested content, parent_tool_use_id and
    uuid taken when both are there. For assistant lines the same holds of
    content, model and a non-empty error, while parent_tool_use_id is read
    at the top level only. The nested content of a user line is taken
    whenever it is there, whatever its type: when it is neither a string,
    null nor an array of blocks the line is an error, although the
    top-level content is there. Every other nested member wins when it is
    there and of the type of its field (for the assistant's error, not
    empty as well; a nested null counts as the empty string), and the
    top-level member is used otherwise. The content of a user message is a
    string if it decodes as one (null as the empty string), else the list
    of its blocks in order, else an error. *)
Theorem flat_and_nested_forms :
  (forall (content : json) (parent uuid : string),
      UnmarshalMessage (user_flat content parent uuid)
      = user_decoded (user_flat content parent uuid) content parent uuid
      /\ UnmarshalMessage (user_nested content parent uuid)
         = user_decoded (user_nested content parent uuid) content parent uuid
      /\ forall (content' : json) (parent' uuid' : string),
          UnmarshalMessage (user_both content' parent' uuid' content parent uuid)
          = user_decoded (user_both content' parent' uuid' content parent uuid)
              content parent uuid)
  /\ (forall (content : list json) (model parent error : string),
         UnmarshalMessage (assistant_flat content model parent error)
         = assistant_decoded (assistant_flat content model parent error)
             content model parent error)
  /\ (forall (content : list json) (model parent error : string),
         error <> "" ->
         UnmarshalMessage (assistant_nested content model parent error)
         = assistant_decoded (assistant_nested content model parent error)
             content model parent error
         /\ forall (content' : list json) (model' error' : string),
             UnmarshalMessage (assistant_both content' model' parent error'
                                 content model error)
             = assistant_decoded (assistant_both content' model' parent error'
                                    content model error)
                 content model parent error)
  /\ (forall (data : json) (aux : UserAux) (m : UserMessage),
         unmarshal_struct UserAux_assign data zero_UserAux = Some aux ->
         UnmarshalMessage data = Ok (OfUserMessage m) ->
         (exists raw,
             user_content raw = Ok (UserMessage_Content m)
             /\ match UserAux_Message aux !! "content" with
                | Some nested => raw = nested
                | None => UserAux_Content aux = Some raw
                end)
         /\ UserMessage_ParentToolUseID m
            = match UserAux_Message aux !! "parent_tool_use_id" with
              | Some (JString nested) => Some nested
              | Some JNull => Some ""
              | _ => UserAux_ParentToolUseID aux
              end
         /\ UserMessage_UUID m
            = match UserAux_Message aux !! "uuid" with
              | Some (JString nested) => Some nested
              | Some JNull => Some ""
              | _ => UserAux_UUID aux
              end)
  /\ (forall (data : json) (aux : AssistantAux) (m : AssistantMessage),
         unmarshal_struct AssistantAux_assign data zero_AssistantAux = Some aux ->
         UnmarshalMessage data = Ok (OfAssistantMessage m) ->
         unmarshal_blocks
           match AssistantAux_Message aux !! "content" with
           | Some (JArray nested) => nested
           | _ => default [] (AssistantAux_Content aux)
           end = Ok (AssistantMessage_Content m)
         /\ AssistantMessage_Model m
            = match AssistantAux_Message aux !! "model" with
              | Some (JString nested) => nested
              | Some JNull => ""
              | _ => AssistantAux_Model aux
              end
         /\ AssistantMessage_Error m
            = match AssistantAux_Message aux !! "error" with
              | Some (JString nested) =>
                  if String.eqb nested "" then AssistantAux_Error aux else Some nested
              | _ => AssistantAux_Error aux
              end
         /\ AssistantMessage_ParentToolUseID m = AssistantAux_ParentToolUseID aux)
  /\ (forall (s : string), user_content (JString s) = Ok (ContentString s))
  /\ (forall (raws : list json) (content : UserContent),
         user_content (JArray raws) = Ok content ->
         exists blocks,
           content = ContentBlocks blocks
           /\ Forall2 (fun raw block => UnmarshalContentBlock raw = Ok block)
                raws blocks)
  /\ user_content JNull = Ok (ContentString "")
  /\ (forall content : json,
         match content with
         | JBool _ | JNumber _ | JObject _ =>
             user_content content
             = Err (ErrorString "content must be string or array of content blocks")
         | _ => True
         end)
  /\ (forall (content' : json) (parent' uuid' : string) (content : json)
             (parent uuid : string) (err : decode_error),
         user_content content = Err err ->
         UnmarshalMessage (user_both content' parent' uuid' content parent uuid)
         = Err (CLIJSONDecodeError "failed to unmarshal user message"
                  (user_both content' parent' uuid' content parent uuid) err)).
Proof.
  split.
  { intros content parent uuid.
    split; [apply user_flat_decoded|]. split; [apply user_nested_decoded|].
    intros. apply user_both_decoded. }
  split; [exact assistant_flat_decoded|].
  split.
  { intros content model parent error Herror.
    split; [by apply assistant_nested_decoded|].
    intros. by apply assistant_both_decoded. }
  split.
  { intros data aux m Haux Hm.
    assert (Htyp : unmarshal_struct typeCheck_assign data "" = Some "user").
    { revert Hm. unfold UnmarshalMessage.
      destruct (unmarshal_struct typeCheck_assign data "") as [typ|]; [|done].
      destruct (String.eqb_spec typ "user") as [->|_]; [done|].
      destruct (typ =? "assistant"); [by destruct (AssistantMessage_UnmarshalJSON _)|].
      destruct ((typ =? "system") || (typ =? "control_request")
                || (typ =? "control_response"));
        [by destruct (unmarshal_struct SystemMessage_assign _ _)|].
      destruct (typ =? "result");
        [by destruct (unmarshal_struct ResultMessage_assign _ _)|].
      destruct (typ =? "stream_event");
        [by destruct (unmarshal_struct StreamEvent_assign _ _)|done]. }
    rewrite (UnmarshalMessage_user_aux data aux Htyp Haux) in Hm.
    unfold UserAux_contentRaw, UserAux_parentToolUseID, UserAux_uuid in Hm.
    destruct (UserAux_Message aux !! "content") as [nested|] eqn:Hcontent.
    - destruct (user_content nested) as [content|] eqn:Hnested; [|done].
      injection Hm as <-. cbn.
      split; [by exists nested|].
      split.
      + destruct (UserAux_Message aux !! "parent_tool_use_id") as [[]|]; done.
      + destruct (UserAux_Message aux !! "uuid") as [[]|]; done.
    - destruct (UserAux_Content aux) as [raw|] eqn:Hraw; [|done].
      destruct (user_content raw) as [content|] eqn:Hflat; [|done].
      injection Hm as <-. cbn.
      split; [by exists raw|].
      split.
      + destruct (UserAux_Message aux !! "parent_tool_use_id") as [[]|]; done.
      + destruct (UserAux_Message aux !! "uuid") as [[]|]; done. }
  split.
  { intros data aux m Haux Hm.
    assert (Htyp : unmarshal_struct typeCheck_assign data "" = Some "assistant").
    { revert Hm. unfold UnmarshalMessage.
      destruct (unmarshal_struct typeCheck_assign data "") as [typ|]; [|done].
      destruct (typ =? "user"); [by destruct (UserMessage_UnmarshalJSON _)|].
      destruct (String.eqb_spec typ "assistant") as [->|_]; [done|].
      destruct ((typ =? "system") || (typ =? "control_request")
                || (typ =? "control_response"));
        [by destruct (unmarshal_struct SystemMessage_assign _ _)|].
      destruct (typ =? "result");
        [by destruct (unmarshal_struct ResultMessage_assign _ _)|].
      destruct (typ =? "stream_event");
        [by destruct (unmarshal_struct StreamEvent_assign _ _)|done]. }
    rewrite (UnmarshalMessage_assistant_aux data aux Htyp Haux) in Hm.
    unfold AssistantAux_contentBlocks, AssistantAux_model, AssistantAux_error in Hm.
    destruct (unmarshal_blocks _) as [blocks|] eqn:Hblocks; [|done].
    injection Hm as <-. cbn.
    split.
    - rewrite <- Hblocks. f_equal.
      destruct (AssistantAux_Message aux !! "content") as [[]|]; done.
    - split; [|split; [|done]].
      + destruct (AssistantAux_Message aux !! "model") as [[]|]; done.
      + destruct (AssistantAux_Message aux !! "error") as [[]|]; done. }
  split; [exact user_content_string|].
  split.
  { intros raws content. rewrite user_content_array.
    destruct (unmarshal_blocks raws) as [blocks|] eqn:Hblocks; [|done].
    intros [= <-]. exists blocks. split; [done|].
    by apply unmarshal_blocks_ok. }
  split; [reflexivity|].
  split; [by intros []|].
  intros content' parent' uuid' content parent uuid err Herr.
  rewrite user_both_decoded. unfold user_decoded. by rewrite Herr.
Qed.

(** C2, the claim as stated fails: the nested parent_tool_use_id of an
    assistant line does not win over the top-level one. *)
Lemma assistant_nested_parent_ignored :
  UnmarshalMessage two_parents_line
  = Ok (OfAssistantMessage
          (mkAssistantMessage "assistant" [] "m" (Some "flat") None))
  /\ Some "flat" <> Some "nested".
Proof. split; [reflexivity|discriminate]. Qed.

Lemma flat_and_nested_forms_witness :
  UnmarshalMessage (assistant_both [] "a" "p" "e" [] "b" "rate_limit")
  = Ok (OfAssistantMessage
          (mkAssistantMessage "assistant" [] "b" (Some "p") (Some "rate_limit"))).
Proof.
  refine (proj2 (proj1 (proj2 (proj2 flat_and_nested_forms))
                   [] "b" "p" "rate_limit" _) [] "a" "e").
  discriminate.
Defined.

(** * The round trip of messages *)

(** ** Induction on values and on documents *)

Lemma value_size_slice (l : list value) (x : value) :
  x ∈ l -> value_size x < value_size (VSlice l).
Proof.
  cbn [value_size]. induction l as [|y l IH]; [by intros ?%elem_of_nil|].
  cbn [foldr]. intros [->|Hx]%elem_of_cons; [lia|]. specialize (IH Hx). lia.
Qed.

Lemma value_size_map (m : gmap string value) (k : string) (x : value) :
  m !! k = Some x -> value_size x < value_size (VMap m).
Proof.
  cbn [value_size]. rewrite map_fold_foldr. intros Hx%elem_of_map_to_list.
  induction (map_to_list m) as [|[k' y] l IH]; [by apply elem_of_nil in Hx|].
  cbn [foldr uncurry]. apply elem_of_cons in Hx as [[= <- <-]|Hx]; [lia|].
  specialize (IH Hx). lia.
Qed.

Lemma value_ind' (P : value -> Prop) :
  P VNil -> (forall b, P (VBool b)) -> (forall f, P (VFloat f)) ->
  (forall z, P (VInt z)) -> (forall s, P (VString s)) ->
  (forall l, Forall P l -> P (VSlice l)) ->
  (forall m, map_Forall (fun _ => P) m -> P (VMap m)) ->
  (forall l, P (VStrings l)) -> (forall m, P (VStringMap m)) ->
  forall v, P v.
Proof.
  intros Hnil Hbool Hfloat Hint Hstring Hslice Hmap Hstrings Hstringmap v.
  remember (value_size v) as n eqn:Hn. revert v Hn.
  induction n as [n IH] using lt_wf_ind. intros v ->.
  destruct v as [|b|f|z|s|l|m|l|m]; auto.
  - apply Hslice, Forall_forall. intros x Hx.
    exact (IH _ (value_size_slice l x Hx) x eq_refl).
  - apply Hmap. intros k x Hx.
    exact (IH _ (value_size_map m k x Hx) x eq_refl).
Qed.

Lemma json_ind' (P : json -> Prop) :
  P JNull -> (forall b, P (JBool b)) -> (forall n, P (JNumber n)) ->
  (forall s, P (JString s)) ->
  (forall l, Forall P l -> P (JArray l)) ->
  (forall members, Forall (fun kv => P kv.2) members -> P (JObject members)) ->
  forall j, P j.
Proof.
  intros Hnull Hbool Hnumber Hstring Harray Hobject.
  fix IH 1.
  intros [|b|n|s|l|members];
    [exact Hnull | exact (Hbool b) | exact (Hnumber n) | exact (Hstring s) | |].
  - apply Harray.
    exact ((fix go (l : list json) : Forall P l :=
              match l with
              | [] => @List.Forall_nil json P
              | x :: l' => @List.Forall_cons json P x l' (IH x) (go l')
              end) l).
  - apply Hobject.
    exact ((fix go (l : list (string * json)) : Forall (fun kv => P kv.2) l :=
              match l with
              | [] => @List.Forall_nil (string * json) (fun kv => P kv.2)
              | kv :: l' =>
                  @List.Forall_cons (string * json) (fun kv => P kv.2) kv l'
                    (IH kv.2) (go l')
              end) members).
Qed.

Lemma scanned_array (l : list json) : scanned (JArray l) <-> Forall scanned l.
Proof.
  cbn [scanned]. induction l as [|x l IH]; cbn [foldr]; [by split; [constructor|]|].
  rewrite Forall_cons. by rewrite IH.
Qed.

Lemma scanned_object (members : list (string * json)) :
  scanned (JObject members)
  <-> Forall (fun kv => utf8 kv.1 /\ scanned kv.2) members.
Proof.
  cbn [scanned]. induction members as [|kv l IH]; cbn [foldr];
    [by split; [constructor|]|].
  rewrite Forall_cons, <- IH. tauto.
Qed.

Lemma generic_slice (l : list value) : generic (VSlice l) <-> Forall generic l.
Proof.
  cbn [generic]. induction l as [|x l IH]; cbn [foldr]; [by split; [constructor|]|].
  rewrite Forall_cons. by rewrite IH.
Qed.

Lemma generic_VMap (m : gmap string value) : generic (VMap m) <-> generic_map m.
Proof.
  cbn [generic]. unfold generic_map. rewrite map_fold_foldr, map_Forall_to_list.
  induction (map_to_list m) as [|[k x] l IH]; cbn [foldr uncurry];
    [by split; [constructor|]|].
  rewrite Forall_cons, <- IH. cbn [uncurry]. tauto.
Qed.

Lemma utf8_empty : utf8 "".
Proof. reflexivity. Qed.

Lemma marshal_string_utf8 (s : string) : utf8 s -> marshal_string s = JString s.
Proof. unfold marshal_string. by intros ->. Qed.

(** ** Values *)

Lemma foldl_insert_union {A : Type} (l : list (string * A)) (acc : gmap string A) :
  NoDup (l.*1) ->
  foldl (fun m kv => <[kv.1 := kv.2]> m) acc l = list_to_map l ∪ acc.
Proof.
  revert acc. induction l as [|[k x] l IH]; intros acc Hnodup.
  - cbn. by rewrite (left_id_L ∅ (∪)).
  - cbn [fmap list_fmap fst] in Hnodup. apply NoDup_cons in Hnodup as [Hk Hnodup].
    cbn [foldl fst snd list_to_map foldr]. rewrite (IH _ Hnodup).
    rewrite <- insert_union_l. symmetry. apply insert_union_r.
    by apply not_elem_of_list_to_map_1.
Qed.

Lemma foldl_insert_map_to_list {A : Type} (m : gmap string A) :
  foldl (fun acc kv => <[kv.1 := kv.2]> acc) ∅ (map_to_list m) = m.
Proof.
  rewrite foldl_insert_union by apply NoDup_fst_map_to_list.
  by rewrite (right_id_L ∅ (∪)), list_to_map_to_list.
Qed.

Lemma marshal_value_slice (l : list value) :
  marshal_value (VSlice l)
  = JArray <$> foldr (fun x acc =>
                        match marshal_value x, acc with
                        | Some j, Some js => Some (j :: js)
                        | _, _ => None
                        end) (Some []) l.
Proof. reflexivity. Qed.

Lemma marshal_value_map (m : gmap string value) :
  marshal_value (VMap m)
  = JObject <$> foldr (fun kx acc =>
                         match marshal_value kx.2, acc with
                         | Some j, Some js => Some ((coerce_utf8 kx.1, j) :: js)
                         | _, _ => None
                         end) (Some []) (map_to_list m).
Proof.
  cbn [marshal_value]. rewrite map_fold_foldr. f_equal.
  induction (map_to_list m) as [|[k x] l IH]; [done|].
  cbn [foldr uncurry fst snd]. by rewrite IH.
Qed.

Lemma unmarshal_any_array (js : list json) :
  unmarshal_any (JArray js)
  = VSlice <$> foldr (fun x acc =>
                        match unmarshal_any x, acc with
                        | Some v, Some vs => Some (v :: vs)
                        | _, _ => None
                        end) (Some []) js.
Proof. reflexivity. Qed.

Lemma unmarshal_any_object (members : list (string * json)) :
  unmarshal_any (JObject members) = VMap <$> dec_any_map (JObject members) ∅.
Proof. reflexivity. Qed.

(** The members written for the entries [l] of a map, read back into a
    map. *)
Lemma marshal_entries (l : list (string * value)) :
  Forall (fun kx => utf8 kx.1
                    /\ exists j, marshal_value kx.2 = Some j
                                 /\ unmarshal_any j = Some kx.2) l ->
  exists members,
    foldr (fun kx acc =>
             match marshal_value kx.2, acc with
             | Some j, Some js => Some ((coerce_utf8 kx.1, j) :: js)
             | _, _ => None
             end) (Some []) l = Some members
    /\ forall old,
        dec_any_map (JObject members) old
        = Some (foldl (fun m kx => <[kx.1 := kx.2]> m) old l).
Proof.
  induction 1 as [|[k x] l [Hk (j & Hj & Hx)] _ (members & Hmembers & IH)].
  - by exists [].
  - cbn [foldr fst snd] in *. rewrite Hmembers, Hj, Hk. eexists. split; [done|].
    intros old. specialize (IH (<[k := x]> old)).
    cbn [dec_any_map foldl fst snd] in *. by rewrite Hx.
Qed.

Lemma marshal_generic (v : value) :
  generic v -> exists j, marshal_value v = Some j /\ unmarshal_any j = Some v.
Proof.
  induction v as [|b|f|z|s|l IH|m IH|l|m] using value_ind'; try done.
  - by exists JNull.
  - by exists (JBool b).
  - cbn [generic]. intros Hf. exists (JNumber (NFloat f)).
    cbn [marshal_value unmarshal_any]. unfold unmarshal_number. by rewrite Hf.
  - cbn [generic]. intros Hs. exists (JString s). cbn [marshal_value].
    by rewrite marshal_string_utf8.
  - intros Hl%generic_slice. rewrite marshal_value_slice.
    cut (exists js,
            foldr (fun x acc =>
                     match marshal_value x, acc with
                     | Some j, Some js => Some (j :: js)
                     | _, _ => None
                     end) (Some []) l = Some js
            /\ foldr (fun x acc =>
                        match unmarshal_any x, acc with
                        | Some v, Some vs => Some (v :: vs)
                        | _, _ => None
                        end) (Some []) js = Some l).
    { intros (js & -> & Hjs). exists (JArray js). split; [done|].
      rewrite unmarshal_any_array. by rewrite Hjs. }
    induction l as [|x l IHl]; [by exists []|].
    apply Forall_cons in IH as [IHx IH]. apply Forall_cons in Hl as [Hx Hl].
    destruct (IHx Hx) as (j & Hj & Hjx).
    destruct (IHl IH Hl) as (js & Hjs & Hjsl).
    exists (j :: js). cbn [foldr]. by rewrite Hj, Hjs, Hjx, Hjsl.
  - intros Hm%generic_VMap. rewrite marshal_value_map.
    destruct (marshal_entries (map_to_list m)) as (members & -> & Hmembers).
    { apply Forall_forall. intros [k x] Hkx%elem_of_map_to_list.
      destruct (Hm k x Hkx) as [Hk Hx]. split; [done|]. exact (IH k x Hkx Hx). }
    exists (JObject members). split; [done|].
    rewrite unmarshal_any_object, Hmembers. by rewrite foldl_insert_map_to_list.
Qed.

Lemma marshal_map_generic (m : gmap string value) :
  generic_map m ->
  exists j, marshal_map m = Some j /\ dec_any_map j ∅ = Some m.
Proof.
  intros Hm. unfold marshal_map. rewrite marshal_value_map.
  destruct (marshal_entries (map_to_list m)) as (members & -> & Hmembers).
  { apply Forall_forall. intros [k x] Hkx%elem_of_map_to_list.
    destruct (Hm k x Hkx) as [Hk Hx]. split; [done|]. by apply marshal_generic. }
  exists (JObject members). split; [done|].
  by rewrite Hmembers, foldl_insert_map_to_list.
Qed.

Lemma unmarshal_number_finite (n : number) (f : float) :
  unmarshal_number n = Some f -> is_finite f = true.
Proof.
  unfold unmarshal_number.
  destruct (is_finite (match n with NInt z => float_of_Z z | NFloat f => f end)) eqn:H;
    [|done].
  by intros [= <-].
Qed.

Lemma dec_any_map_object (members : list (string * json)) (old new : gmap string value)
    (P : gmap string value -> Prop) :
  (forall k j m v, (k, j) ∈ members -> P m -> unmarshal_any j = Some v ->
                   P (<[k := v]> m)) ->
  P old -> dec_any_map (JObject members) old = Some new -> P new.
Proof.
  cbn [dec_any_map]. revert old.
  induction members as [|[k j] members IH]; intros old Hstep Hold.
  - by intros [= <-].
  - cbn [foldl fst snd]. destruct (unmarshal_any j) as [v|] eqn:Hv.
    + apply IH.
      * intros k' j' m v' Hin. apply Hstep. by right.
      * apply (Hstep k j old v); [by left|done..].
    + intros H. exfalso. revert H. clear.
      induction members as [|kv members IH]; [done|]. exact IH.
Qed.

Lemma unmarshal_any_generic (j : json) (v : value) :
  scanned j -> unmarshal_any j = Some v -> generic v.
Proof.
  revert v. induction j as [|b|n|s|l IH|members IH] using json_ind'; intros v.
  - by intros _ [= <-].
  - by intros _ [= <-].
  - intros _. cbn [unmarshal_any].
    destruct (unmarshal_number n) as [f|] eqn:Hf; [|done].
    intros [= <-]. exact (unmarshal_number_finite n f Hf).
  - by intros Hs [= <-].
  - intros Hl%scanned_array (vs & -> & Hvs)%unmarshal_array.
    apply generic_slice. revert IH Hl.
    induction Hvs as [|x v l vs Hx _ IHvs]; [constructor|].
    intros [IHx IH]%Forall_cons [Hsx Hl]%Forall_cons.
    constructor; [by apply (IHx v)|by apply IHvs].
  - intros Hm%scanned_object. rewrite unmarshal_any_object.
    destruct (dec_any_map (JObject members) ∅) as [m|] eqn:Hdec; [|done].
    intros [= <-]. apply generic_VMap. revert Hdec.
    apply dec_any_map_object; [|apply map_Forall_empty].
    intros k x m' v Hin Hm' Hv. apply map_Forall_insert_2; [|done].
    rewrite Forall_forall in IH, Hm.
    destruct (Hm _ Hin) as [Hk Hx]. split; [done|].
    exact (IH _ Hin v Hx Hv).
Qed.

Lemma dec_any_map_generic (j : json) (old new : gmap string value) :
  scanned j -> generic_map old -> dec_any_map j old = Some new -> generic_map new.
Proof.
  destruct j as [| | | | |members]; try done.
  - intros _ _ [= <-]. apply map_Forall_empty.
  - intros Hm%scanned_object Hold. apply dec_any_map_object; [|done].
    intros k x m' v Hin Hm' Hv. apply map_Forall_insert_2; [|done].
    rewrite Forall_forall in Hm. destruct (Hm _ Hin) as [Hk Hx].
    split; [done|]. exact (unmarshal_any_generic x v Hx Hv).
Qed.

(** ** Content blocks *)

Lemma unmarshal_struct_nil {S : Type} (assign : string -> json -> S -> option S)
    (zero : S) :
  unmarshal_struct assign (JObject []) zero = Some zero.
Proof. reflexivity. Qed.

(** Decide the comparisons of literal keys and discriminants. *)
Ltac literals :=
  repeat match goal with
         | |- context [field_match ?a ?b] =>
             let r := eval vm_compute in (field_match a b) in
             match r with
             | true => change (field_match a b) with true
             | false => change (field_match a b) with false
             end
         | |- context [String.eqb ?a ?b] =>
             let r := eval vm_compute in (String.eqb a b) in
             match r with
             | true => change (String.eqb a b) with true
             | false => change (String.eqb a b) with false
             end
         end;
  cbv beta iota.

Ltac decoders :=
  unfold dec_any;
  cbn [dec_string dec_string_ptr dec_bool dec_bool_ptr dec_int dec_float64_ptr
       dec_any dec_raw_slice fmap option_fmap option_map orb
       TextBlock_Type TextBlock_Text ThinkingBlock_Type ThinkingBlock_Thinking
       ThinkingBlock_Signature ToolUseBlock_Type ToolUseBlock_ID ToolUseBlock_Name
       ToolUseBlock_Input ToolResultBlock_Type ToolResultBlock_ToolUseID
       ToolResultBlock_Content ToolResultBlock_IsError UserMessage_Type
       UserMessage_Content UserMessage_ParentToolUseID UserMessage_UUID
       AssistantMessage_Type AssistantMessage_Content AssistantMessage_Model
       AssistantMessage_ParentToolUseID AssistantMessage_Error SystemMessage_Type
       SystemMessage_Subtype SystemMessage_Data SystemMessage_Response
       SystemMessage_Request SystemMessage_RequestID ResultMessage_Type
       ResultMessage_Subtype ResultMessage_DurationMs ResultMessage_DurationAPIMs
       ResultMessage_IsError ResultMessage_NumTurns ResultMessage_SessionID
       ResultMessage_TotalCostUSD ResultMessage_Usage ResultMessage_Result
       ResultMessage_StructuredOutput StreamEvent_Type StreamEvent_UUID
       StreamEvent_SessionID StreamEvent_Event StreamEvent_ParentToolUseID
       UserAux_Content UserAux_Message UserAux_UUID UserAux_Type
       UserAux_ParentToolUseID AssistantAux_Content AssistantAux_Message
       AssistantAux_Type AssistantAux_Model AssistantAux_ParentToolUseID
       AssistantAux_Error].

(** Decode the first member of the object into the struct. *)
Ltac member assign :=
  rewrite (unmarshal_struct_cons assign); unfold assign at 1; literals; decoders.

Ltac members assign :=
  repeat member assign; rewrite (unmarshal_struct_nil assign).

Lemma member_any_omitempty_generic (k : string) (v : value) :
  generic v ->
  (v = VNil /\ member_any_omitempty k v = Some [])
  \/ exists j, member_any_omitempty k v = Some [(k, j)] /\ unmarshal_any j = Some v.
Proof.
  intros Hv. destruct (marshal_generic v Hv) as (j & Hj & Hjv).
  destruct v; try done; [by left|right; exists j; cbn [member_any_omitempty]..];
    by rewrite Hj.
Qed.

Lemma marshal_ContentBlock_round (b : ContentBlock) :
  wf_ContentBlock b ->
  exists j, marshal_ContentBlock b = Some j /\ UnmarshalContentBlock j = Ok b.
Proof.
  destruct b as [[typ text]|[typ thinking signature]|[typ id name input]
                |[typ id content isError]];
    cbn [wf_ContentBlock marshal_ContentBlock
         TextBlock_Type TextBlock_Text
         ThinkingBlock_Type ThinkingBlock_Thinking ThinkingBlock_Signature
         ToolUseBlock_Type ToolUseBlock_ID ToolUseBlock_Name ToolUseBlock_Input
         ToolResultBlock_Type ToolResultBlock_ToolUseID ToolResultBlock_Content
         ToolResultBlock_IsError].
  - intros [-> Htext]. eexists. split; [done|].
    rewrite !marshal_string_utf8 by done. unfold UnmarshalContentBlock.
    do 2 member typeCheck_assign. rewrite unmarshal_struct_nil. literals.
    do 2 member TextBlock_assign. by rewrite unmarshal_struct_nil.
  - intros (-> & Hthinking & Hsignature). eexists. split; [done|].
    rewrite !marshal_string_utf8 by done. unfold UnmarshalContentBlock.
    do 3 member typeCheck_assign. rewrite unmarshal_struct_nil. literals.
    do 3 member ThinkingBlock_assign. by rewrite unmarshal_struct_nil.
  - intros (-> & Hid & Hname & Hinput).
    destruct (marshal_map_generic input Hinput) as (j & Hj & Hdec).
    unfold member_map. rewrite Hj. cbn [fmap option_fmap option_map mbind option_bind app].
    eexists. split; [done|].
    rewrite !marshal_string_utf8 by done. unfold UnmarshalContentBlock.
    do 4 member typeCheck_assign. rewrite unmarshal_struct_nil. literals.
    do 4 member ToolUseBlock_assign. rewrite Hdec. decoders. by rewrite unmarshal_struct_nil.
  - intros (-> & Hid & Hcontent).
    destruct (member_any_omitempty_generic "content" content Hcontent)
      as [[-> ->]|(j & -> & Hdec)];
      destruct isError as [e|];
      cbn [mbind option_bind app member_bool_ptr_omitempty];
      (eexists; split; [done|]);
      rewrite !marshal_string_utf8 by done; unfold UnmarshalContentBlock.
    + do 3 member typeCheck_assign. rewrite unmarshal_struct_nil. literals.
      do 3 member ToolResultBlock_assign. by rewrite unmarshal_struct_nil.
    + do 2 member typeCheck_assign. rewrite unmarshal_struct_nil. literals.
      do 2 member ToolResultBlock_assign. by rewrite unmarshal_struct_nil.
    + do 4 member typeCheck_assign. rewrite unmarshal_struct_nil. literals.
      do 3 member ToolResultBlock_assign. rewrite Hdec. decoders.
      member ToolResultBlock_assign. by rewrite unmarshal_struct_nil.
    + do 3 member typeCheck_assign. rewrite unmarshal_struct_nil. literals.
      do 3 member ToolResultBlock_assign. rewrite Hdec. decoders.
      by rewrite unmarshal_struct_nil.
Qed.

Lemma marshal_blocks_round (blocks : list ContentBlock) :
  Forall wf_ContentBlock blocks ->
  exists js, marshal_blocks blocks = Some (JArray js) /\ unmarshal_blocks js = Ok blocks.
Proof.
  intros Hblocks.
  cut (exists js, Forall2 (fun b j => marshal_ContentBlock b = Some j) blocks js
                  /\ unmarshal_blocks js = Ok blocks).
  { intros (js & Hjs%mapM_Some_2 & Hdec). exists js. unfold marshal_blocks.
    by rewrite Hjs. }
  induction Hblocks as [|b blocks Hb _ (js & Hjs & Hdec)]; [by exists []|].
  destruct (marshal_ContentBlock_round b Hb) as (j & Hj & Hjb).
  exists (j :: js). split; [by constructor|].
  cbn [unmarshal_blocks]. by rewrite Hjb, Hdec.
Qed.

(** ** Messages *)

Lemma member_string_omitempty_cases (k s : string) :
  utf8 s ->
  (s = "" /\ member_string_omitempty k s = [])
  \/ member_string_omitempty k s = [(k, JString s)].
Proof.
  intros Hs. unfold member_string_omitempty.
  destruct (String.eqb_spec s ""); [by left|right].
  by rewrite marshal_string_utf8.
Qed.

Lemma member_string_ptr_omitempty_cases (k : string) (p : option string) :
  utf8_ptr p ->
  (p = None /\ member_string_ptr_omitempty k p = [])
  \/ exists s, p = Some s /\ member_string_ptr_omitempty k p = [(k, JString s)].
Proof.
  destruct p as [s|]; [right|by left]. exists s.
  cbn. by rewrite marshal_string_utf8.
Qed.

Lemma member_map_generic (k : string) (m : gmap string value) :
  generic_map m ->
  exists j, member_map k m = Some [(k, j)] /\ dec_any_map j ∅ = Some m.
Proof.
  intros (j & Hj & Hdec)%marshal_map_generic. exists j. unfold member_map.
  by rewrite Hj.
Qed.

Lemma member_map_omitempty_generic (k : string) (m : gmap string value) :
  generic_map m ->
  (m = ∅ /\ member_map_omitempty k m = Some [])
  \/ exists j, member_map_omitempty k m = Some [(k, j)] /\ dec_any_map j ∅ = Some m.
Proof.
  intros Hm. unfold member_map_omitempty.
  destruct (Nat.eqb_spec (size m) 0) as [->%map_size_empty_inv|_]; [by left|right].
  by apply member_map_generic.
Qed.

Lemma member_float_ptr_omitempty_cases (k : string) (p : option float) :
  finite_ptr p ->
  (p = None /\ member_float_ptr_omitempty k p = Some [])
  \/ exists f, p = Some f /\ is_finite f = true
               /\ member_float_ptr_omitempty k p = Some [(k, JNumber (NFloat f))].
Proof.
  destruct p as [f|]; [right|by left]. exists f.
  cbn [member_float_ptr_omitempty marshal_value]. by rewrite H.
Qed.

Ltac binds := cbn [mbind option_bind app].

Lemma marshal_UserMessage_round (m : UserMessage) :
  wf_Message (OfUserMessage m) ->
  exists l, marshal_UserMessage m = Some l /\ UnmarshalMessage l = Ok (OfUserMessage m).
Proof.
  destruct m as [typ content parent uuid]. cbn [wf_Message]. decoders.
  intros (-> & Hcontent & Hparent & Huuid). unfold marshal_UserMessage. decoders.
  destruct (member_string_ptr_omitempty_cases "parent_tool_use_id" parent Hparent)
    as [[-> ->]|(p & -> & ->)];
    destruct (member_string_ptr_omitempty_cases "uuid" uuid Huuid)
      as [[-> ->]|(u & -> & ->)];
    (destruct content as [|s|blocks]; [done| |
       destruct (marshal_blocks_round blocks Hcontent) as (js & -> & Hdec)]);
    binds; rewrite ?marshal_string_utf8 by done;
    (eexists; split; [done|]);
    unfold UnmarshalMessage; members typeCheck_assign; literals;
    unfold UserMessage_UnmarshalJSON, zero_UserAux; members UserAux_assign;
    unfold UserAux_contentRaw, UserAux_parentToolUseID, UserAux_uuid; decoders;
    rewrite ?lookup_empty; rewrite ?user_content_array, ?Hdec; reflexivity.
Qed.

Lemma AssistantMessage_MarshalJSON_round (m : AssistantMessage) :
  wf_Message (OfAssistantMessage m) ->
  exists l, AssistantMessage_MarshalJSON m = Some l
            /\ UnmarshalMessage l = Ok (OfAssistantMessage m).
Proof.
  destruct m as [typ content model parent error]. cbn [wf_Message]. decoders.
  intros (-> & Hcontent & Hmodel & Hparent & Herror).
  unfold AssistantMessage_MarshalJSON. decoders.
  destruct (marshal_blocks_round content Hcontent) as (js & -> & Hdec).
  destruct (member_string_ptr_omitempty_cases "parent_tool_use_id" parent Hparent)
    as [[-> ->]|(p & -> & ->)];
    destruct (member_string_ptr_omitempty_cases "error" error Herror)
      as [[-> ->]|(e & -> & ->)];
    binds; rewrite ?marshal_string_utf8 by done;
    (eexists; split; [done|]);
    unfold UnmarshalMessage; members typeCheck_assign; literals;
    unfold AssistantMessage_UnmarshalJSON, zero_AssistantAux;
    members AssistantAux_assign;
    unfold AssistantAux_contentBlocks, AssistantAux_model, AssistantAux_error;
    decoders; rewrite ?lookup_empty; cbn [default from_option id];
    rewrite Hdec; reflexivity.
Qed.

Lemma marshal_SystemMessage_round (m : SystemMessage) :
  wf_Message (OfSystemMessage m) ->
  exists l, marshal_SystemMessage m = Some l
            /\ UnmarshalMessage l = Ok (OfSystemMessage m).
Proof.
  destruct m as [typ subtype data response request requestID].
  cbn [wf_Message]. decoders.
  intros (Htyp & Hsubtype & Hdata & Hresponse & Hrequest & HrequestID).
  unfold marshal_SystemMessage. decoders.
  destruct (member_map_omitempty_generic "data" data Hdata)
    as [[-> ->]|(jd & -> & Hjd)];
    destruct (member_map_omitempty_generic "response" response Hresponse)
      as [[-> ->]|(jr & -> & Hjr)];
    destruct (member_map_omitempty_generic "request" request Hrequest)
      as [[-> ->]|(jq & -> & Hjq)];
    destruct (member_string_omitempty_cases "subtype" subtype Hsubtype)
      as [[-> ->]| ->];
    destruct (member_string_omitempty_cases "request_id" requestID HrequestID)
      as [[-> ->]| ->];
    binds; (eexists; split; [done|]);
    destruct Htyp as [->|[->| ->]]; rewrite marshal_string_utf8 by done;
    unfold UnmarshalMessage; members typeCheck_assign; literals;
    unfold zero_SystemMessage;
    repeat (member SystemMessage_assign; rewrite ?Hjd, ?Hjr, ?Hjq; decoders);
    reflexivity.
Qed.

Lemma marshal_StreamEvent_round (m : StreamEvent) :
  wf_Message (OfStreamEvent m) ->
  exists l, marshal_StreamEvent m = Some l
            /\ UnmarshalMessage l = Ok (OfStreamEvent m).
Proof.
  destruct m as [typ uuid sessionID event parent].
  cbn [wf_Message]. decoders.
  intros (-> & Huuid & HsessionID & Hevent & Hparent).
  unfold marshal_StreamEvent. decoders.
  destruct (member_map_generic "event" event Hevent) as (je & -> & Hje);
    destruct (member_string_ptr_omitempty_cases "parent_tool_use_id" parent Hparent)
      as [[-> ->]|(p & -> & ->)];
    binds; (eexists; split; [done|]);
    rewrite !marshal_string_utf8 by done;
    unfold UnmarshalMessage; members typeCheck_assign; literals;
    unfold zero_StreamEvent;
    repeat (member StreamEvent_assign; rewrite ?Hje; decoders);
    reflexivity.
Qed.

Lemma marshal_ResultMessage_round (m : ResultMessage) :
  wf_Message (OfResultMessage m) ->
  exists l, marshal_ResultMessage m = Some l
            /\ UnmarshalMessage l = Ok (OfResultMessage m).
Proof.
  destruct m as [typ subtype durationMs durationAPIMs isError numTurns sessionID
                   cost usage result output].
  cbn [wf_Message]. decoders. unfold int64.
  intros (-> & Hsubtype & HdurationMs & HdurationAPIMs & HnumTurns & HsessionID
          & Hcost & Husage & Hresult & Houtput).
  unfold marshal_ResultMessage. decoders.
  destruct (member_float_ptr_omitempty_cases "total_cost_usd" cost Hcost)
    as [[-> ->]|(f & -> & Hf & ->)];
    destruct (member_map_omitempty_generic "usage" usage Husage)
      as [[-> ->]|(ju & -> & Hju)];
    destruct (member_string_ptr_omitempty_cases "result" result Hresult)
      as [[-> ->]|(r & -> & ->)];
    destruct (member_any_omitempty_generic "structured_output" output Houtput)
      as [[-> ->]|(jo & -> & Hjo)];
    binds; (eexists; split; [done|]);
    rewrite !marshal_string_utf8 by done;
    unfold UnmarshalMessage; members typeCheck_assign; literals;
    unfold zero_ResultMessage;
    repeat (member ResultMessage_assign;
            rewrite ?HdurationMs, ?HdurationAPIMs, ?HnumTurns, ?Hju, ?Hjo;
            unfold unmarshal_number; rewrite ?Hf; decoders);
    reflexivity.
Qed.

Lemma marshal_Message_round (msg : Message) :
  wf_Message msg ->
  exists l, marshal_Message msg = Some l /\ UnmarshalMessage l = Ok msg.
Proof.
  destruct msg as [m|m|m|m|m]; cbn [marshal_Message].
  - apply marshal_UserMessage_round.
  - apply AssistantMessage_MarshalJSON_round.
  - apply marshal_SystemMessage_round.
  - apply marshal_ResultMessage_round.
  - apply marshal_StreamEvent_round.
Qed.

(** ** What the decoder builds is well-formed *)

Lemma field_match_trans (k a b : string) :
  field_match k a = true -> field_match k b = field_match a b.
Proof. unfold field_match. by intros ->%String.eqb_eq. Qed.

(** The struct decoded from a line carries the discriminant read from it. *)
Lemma unmarshal_struct_type {S : Type} (assign : string -> json -> S -> option S)
    (get : S -> string) (members : list (string * json)) (zero aux : S)
    (typ : string) :
  (forall k j s s', assign k j s = Some s' ->
                    typeCheck_assign k j (get s) = Some (get s')) ->
  unmarshal_struct assign (JObject members) zero = Some aux ->
  unmarshal_struct typeCheck_assign (JObject members) (get zero) = Some typ ->
  get aux = typ.
Proof.
  intros Hstep. revert zero. induction members as [|[k j] members IH]; intros zero.
  - by intros [= <-] [= <-].
  - rewrite !unmarshal_struct_cons.
    destruct (assign k j zero) as [s|] eqn:Hs; [|done].
    rewrite (Hstep k j zero s Hs). apply IH.
Qed.

Lemma dec_string_utf8 (j : json) (old v : string) :
  scanned j -> utf8 old -> dec_string j old = Some v -> utf8 v.
Proof. destruct j; try done; by intros ?? [= <-]. Qed.

Lemma dec_string_ptr_utf8 (j : json) (p : option string) :
  scanned j -> dec_string_ptr j = Some p -> utf8_ptr p.
Proof. destruct j; try done; by intros ? [= <-]. Qed.

Lemma dec_int_int64 (j : json) (old z : Z) :
  int64 old -> dec_int j old = Some z -> int64 z.
Proof.
  destruct j as [| |[z'|]| | |]; try done; cbn [dec_int]; [by intros ? [= <-]|].
  unfold int64. destruct ((int64_min <=? z')%Z && (z' <=? int64_max)%Z) eqn:H; [|done].
  by intros _ [= <-].
Qed.

Lemma dec_float64_ptr_finite (j : json) (p : option float) :
  dec_float64_ptr j = Some p -> finite_ptr p.
Proof.
  destruct j as [| |n| | |]; try done; cbn [dec_float64_ptr]; [by intros [= <-]|].
  intros (f & Hf & ->)%fmap_Some. exact (unmarshal_number_finite n f Hf).
Qed.

Lemma dec_any_generic (j : json) (v : value) :
  scanned j -> dec_any j = Some v -> generic v.
Proof. apply unmarshal_any_generic. Qed.

Lemma generic_map_empty : generic_map ∅.
Proof. apply map_Forall_empty. Qed.

Create HintDb decode.
#[local] Hint Resolve dec_string_utf8 dec_string_ptr_utf8 dec_int_int64
  dec_float64_ptr_finite dec_any_generic dec_any_map_generic utf8_empty
  generic_map_empty : decode.

(** Split an assignment by the field its key matches. *)
Ltac assigned :=
  repeat match goal with
         | |- (if field_match ?k ?n then _ else _) = Some _ -> _ =>
             let H := fresh "Hkey" in
             destruct (field_match k n) eqn:H;
             [first [intros (? & ? & ->)%fmap_Some | intros [= <-]]|]
         | |- Some _ = Some _ -> _ => intros [= <-]
         end.

Ltac typed :=
  unfold typeCheck_assign;
  repeat match goal with
         | H : field_match ?k ?a = true |- context [field_match ?k ?b] =>
             rewrite (field_match_trans k a b H)
         | H : field_match ?k ?a = false |- context [field_match ?k ?a] =>
             rewrite H
         end;
  literals; decoders; try done.

Lemma TextBlock_assign_type (k : string) (j : json) (s s' : TextBlock) :
  TextBlock_assign k j s = Some s' ->
  typeCheck_assign k j (TextBlock_Type s) = Some (TextBlock_Type s').
Proof. unfold TextBlock_assign. assigned; typed. Qed.

Lemma ThinkingBlock_assign_type (k : string) (j : json) (s s' : ThinkingBlock) :
  ThinkingBlock_assign k j s = Some s' ->
  typeCheck_assign k j (ThinkingBlock_Type s) = Some (ThinkingBlock_Type s').
Proof. unfold ThinkingBlock_assign. assigned; typed. Qed.

Lemma ToolUseBlock_assign_type (k : string) (j : json) (s s' : ToolUseBlock) :
  ToolUseBlock_assign k j s = Some s' ->
  typeCheck_assign k j (ToolUseBlock_Type s) = Some (ToolUseBlock_Type s').
Proof. unfold ToolUseBlock_assign. assigned; typed. Qed.

Lemma ToolResultBlock_assign_type (k : string) (j : json) (s s' : ToolResultBlock) :
  ToolResultBlock_assign k j s = Some s' ->
  typeCheck_assign k j (ToolResultBlock_Type s) = Some (ToolResultBlock_Type s').
Proof. unfold ToolResultBlock_assign. assigned; typed. Qed.

Lemma UserAux_assign_type (k : string) (j : json) (s s' : UserAux) :
  UserAux_assign k j s = Some s' ->
  typeCheck_assign k j (UserAux_Type s) = Some (UserAux_Type s').
Proof. unfold UserAux_assign. assigned; typed. Qed.

Lemma AssistantAux_assign_type (k : string) (j : json) (s s' : AssistantAux) :
  AssistantAux_assign k j s = Some s' ->
  typeCheck_assign k j (AssistantAux_Type s) = Some (AssistantAux_Type s').
Proof. unfold AssistantAux_assign. assigned; typed. Qed.

Lemma SystemMessage_assign_type (k : string) (j : json) (s s' : SystemMessage) :
  SystemMessage_assign k j s = Some s' ->
  typeCheck_assign k j (SystemMessage_Type s) = Some (SystemMessage_Type s').
Proof. unfold SystemMessage_assign. assigned; typed. Qed.

Lemma ResultMessage_assign_type (k : string) (j : json) (s s' : ResultMessage) :
  ResultMessage_assign k j s = Some s' ->
  typeCheck_assign k j (ResultMessage_Type s) = Some (ResultMessage_Type s').
Proof. destruct s. unfold ResultMessage_assign. assigned; typed. Qed.

Lemma StreamEvent_assign_type (k : string) (j : json) (s s' : StreamEvent) :
  StreamEvent_assign k j s = Some s' ->
  typeCheck_assign k j (StreamEvent_Type s) = Some (StreamEvent_Type s').
Proof. unfold StreamEvent_assign. assigned; typed. Qed.

Lemma scanned_members (members : list (string * json)) :
  scanned (JObject members) -> Forall (fun kv => scanned kv.2) members.
Proof. intros H%scanned_object. eapply Forall_impl; [exact H|]. by intros ? []. Qed.

Ltac fields :=
  cbn [TextBlock_Type TextBlock_Text ThinkingBlock_Type ThinkingBlock_Thinking
       ThinkingBlock_Signature ToolUseBlock_Type ToolUseBlock_ID ToolUseBlock_Name
       ToolUseBlock_Input ToolResultBlock_Type ToolResultBlock_ToolUseID
       ToolResultBlock_Content ToolResultBlock_IsError UserMessage_Type
       UserMessage_Content UserMessage_ParentToolUseID UserMessage_UUID
       AssistantMessage_Type AssistantMessage_Content AssistantMessage_Model
       AssistantMessage_ParentToolUseID AssistantMessage_Error SystemMessage_Type
       SystemMessage_Subtype SystemMessage_Data SystemMessage_Response
       SystemMessage_Request SystemMessage_RequestID ResultMessage_Type
       ResultMessage_Subtype ResultMessage_DurationMs ResultMessage_DurationAPIMs
       ResultMessage_IsError ResultMessage_NumTurns ResultMessage_SessionID
       ResultMessage_TotalCostUSD ResultMessage_Usage ResultMessage_Result
       ResultMessage_StructuredOutput StreamEvent_Type StreamEvent_UUID
       StreamEvent_SessionID StreamEvent_Event StreamEvent_ParentToolUseID
       UserAux_Content UserAux_Message UserAux_UUID UserAux_Type
       UserAux_ParentToolUseID AssistantAux_Content AssistantAux_Message
       AssistantAux_Type AssistantAux_Model AssistantAux_ParentToolUseID
       AssistantAux_Error] in *.

(** An invariant of well-formed fields is kept by every assignment of a
    scanned member. *)
Ltac conjuncts := repeat match goal with |- _ /\ _ => split end.

Ltac kept assign :=
  let s := fresh "s" in
  intros ? ? s ? ? ?; destruct s; fields; destruct_and?;
  unfold assign; assigned; fields; conjuncts; eauto with decode.

Lemma TextBlock_fields (members : list (string * json)) (b : TextBlock) :
  scanned (JObject members) ->
  unmarshal_struct TextBlock_assign (JObject members) (mkTextBlock "" "") = Some b ->
  utf8 (TextBlock_Text b).
Proof.
  intros Hm%scanned_members Hb.
  refine (unmarshal_struct_inv TextBlock_assign (fun s => utf8 (TextBlock_Text s))
            (fun _ j => scanned j) members _ b _ Hm _ Hb); [|done].
  kept TextBlock_assign.
Qed.

Lemma ThinkingBlock_fields (members : list (string * json)) (b : ThinkingBlock) :
  scanned (JObject members) ->
  unmarshal_struct ThinkingBlock_assign (JObject members) (mkThinkingBlock "" "" "")
  = Some b ->
  utf8 (ThinkingBlock_Thinking b) /\ utf8 (ThinkingBlock_Signature b).
Proof.
  intros Hm%scanned_members Hb.
  refine (unmarshal_struct_inv ThinkingBlock_assign
            (fun s => utf8 (ThinkingBlock_Thinking s)
                      /\ utf8 (ThinkingBlock_Signature s))
            (fun _ j => scanned j) members _ b _ Hm _ Hb); [|done].
  kept ThinkingBlock_assign.
Qed.

Lemma ToolUseBlock_fields (members : list (string * json)) (b : ToolUseBlock) :
  scanned (JObject members) ->
  unmarshal_struct ToolUseBlock_assign (JObject members) (mkToolUseBlock "" "" "" ∅)
  = Some b ->
  utf8 (ToolUseBlock_ID b) /\ utf8 (ToolUseBlock_Name b)
  /\ generic_map (ToolUseBlock_Input b).
Proof.
  intros Hm%scanned_members Hb.
  refine (unmarshal_struct_inv ToolUseBlock_assign
            (fun s => utf8 (ToolUseBlock_ID s) /\ utf8 (ToolUseBlock_Name s)
                      /\ generic_map (ToolUseBlock_Input s))
            (fun _ j => scanned j) members _ b _ Hm _ Hb);
    [|by conjuncts; auto with decode].
  kept ToolUseBlock_assign.
Qed.

Lemma ToolResultBlock_fields (members : list (string * json)) (b : ToolResultBlock) :
  scanned (JObject members) ->
  unmarshal_struct ToolResultBlock_assign (JObject members)
    (mkToolResultBlock "" "" VNil None) = Some b ->
  utf8 (ToolResultBlock_ToolUseID b) /\ generic (ToolResultBlock_Content b).
Proof.
  intros Hm%scanned_members Hb.
  refine (unmarshal_struct_inv ToolResultBlock_assign
            (fun s => utf8 (ToolResultBlock_ToolUseID s)
                      /\ generic (ToolResultBlock_Content s))
            (fun _ j => scanned j) members _ b _ Hm _ Hb); [|done].
  kept ToolResultBlock_assign.
Qed.

Lemma UnmarshalContentBlock_wf (j : json) (b : ContentBlock) :
  scanned j -> UnmarshalContentBlock j = Ok b -> wf_ContentBlock b.
Proof.
  intros Hj. unfold UnmarshalContentBlock.
  destruct (unmarshal_struct typeCheck_assign j "") as [typ|] eqn:Htyp; [|done].
  destruct (String.eqb_spec typ "text") as [->|_].
  { destruct (typeCheck_object j _ Htyp) as [members ->]; [done|].
    destruct (unmarshal_struct TextBlock_assign _ _) as [t|] eqn:Ht; [|done].
    intros [= <-]. split; [|by apply (TextBlock_fields members)].
    exact (unmarshal_struct_type TextBlock_assign TextBlock_Type members _ t _
             TextBlock_assign_type Ht Htyp). }
  destruct (String.eqb_spec typ "thinking") as [->|_].
  { destruct (typeCheck_object j _ Htyp) as [members ->]; [done|].
    destruct (unmarshal_struct ThinkingBlock_assign _ _) as [t|] eqn:Ht; [|done].
    intros [= <-]. split; [|by apply (ThinkingBlock_fields members)].
    exact (unmarshal_struct_type ThinkingBlock_assign ThinkingBlock_Type members _ t _
             ThinkingBlock_assign_type Ht Htyp). }
  destruct (String.eqb_spec typ "tool_use") as [->|_].
  { destruct (typeCheck_object j _ Htyp) as [members ->]; [done|].
    destruct (unmarshal_struct ToolUseBlock_assign _ _) as [t|] eqn:Ht; [|done].
    intros [= <-]. split; [|by apply (ToolUseBlock_fields members)].
    exact (unmarshal_struct_type ToolUseBlock_assign ToolUseBlock_Type members _ t _
             ToolUseBlock_assign_type Ht Htyp). }
  destruct (String.eqb_spec typ "tool_result") as [->|_]; [|done].
  destruct (typeCheck_object j _ Htyp) as [members ->]; [done|].
  destruct (unmarshal_struct ToolResultBlock_assign _ _) as [t|] eqn:Ht; [|done].
  intros [= <-]. split; [|by apply (ToolResultBlock_fields members)].
  exact (unmarshal_struct_type ToolResultBlock_assign ToolResultBlock_Type members _ t _
           ToolResultBlock_assign_type Ht Htyp).
Qed.

Lemma unmarshal_blocks_wf (raws : list json) (blocks : list ContentBlock) :
  Forall scanned raws -> unmarshal_blocks raws = Ok blocks ->
  Forall wf_ContentBlock blocks.
Proof.
  intros Hraws Hblocks%unmarshal_blocks_ok. revert Hraws.
  induction Hblocks as [|raw b raws blocks Hb _ IH]; [constructor|].
  intros [Hraw Hraws]%Forall_cons. constructor; [|by apply IH].
  exact (UnmarshalContentBlock_wf raw b Hraw Hb).
Qed.

Lemma dec_raw_map_scanned (j : json) (old new : gmap string json) :
  scanned j -> scanned_map old -> dec_raw_map j old = Some new -> scanned_map new.
Proof.
  destruct j as [| | | | |members]; try done.
  - intros _ _ [= <-]. apply map_Forall_empty.
  - intros Hm%scanned_members Hold [= <-]. revert old Hold.
    induction Hm as [|[k x] members Hx _ IH]; intros old Hold; [done|].
    cbn [foldl fst snd]. apply IH. by apply map_Forall_insert_2.
Qed.

Lemma dec_raw_slice_scanned (j : json) (p : option (list json)) :
  scanned j -> dec_raw_slice j = Some p -> scanned_slice p.
Proof.
  destruct j; try done; [by intros _ [= <-]|].
  intros Hl%scanned_array [= <-]. exact Hl.
Qed.

Lemma scanned_map_empty : scanned_map ∅.
Proof. apply map_Forall_empty. Qed.

Lemma scanned_ptr_Some (j : json) : scanned j -> scanned_ptr (Some j).
Proof. done. Qed.

#[local] Hint Resolve dec_raw_map_scanned dec_raw_slice_scanned scanned_map_empty
  scanned_ptr_Some : decode.

Lemma UserAux_fields (members : list (string * json)) (aux : UserAux) :
  scanned (JObject members) ->
  unmarshal_struct UserAux_assign (JObject members) zero_UserAux = Some aux ->
  scanned_ptr (UserAux_Content aux) /\ scanned_map (UserAux_Message aux)
  /\ utf8_ptr (UserAux_UUID aux) /\ utf8_ptr (UserAux_ParentToolUseID aux).
Proof.
  intros Hm%scanned_members Haux.
  refine (unmarshal_struct_inv UserAux_assign
            (fun s => scanned_ptr (UserAux_Content s)
                      /\ scanned_map (UserAux_Message s)
                      /\ utf8_ptr (UserAux_UUID s)
                      /\ utf8_ptr (UserAux_ParentToolUseID s))
            (fun _ j => scanned j) members _ aux _ Hm _ Haux);
    [|by conjuncts; auto with decode].
  kept UserAux_assign.
Qed.

Lemma AssistantAux_fields (members : list (string * json)) (aux : AssistantAux) :
  scanned (JObject members) ->
  unmarshal_struct AssistantAux_assign (JObject members) zero_AssistantAux = Some aux ->
  scanned_slice (AssistantAux_Content aux) /\ scanned_map (AssistantAux_Message aux)
  /\ utf8 (AssistantAux_Model aux)
  /\ utf8_ptr (AssistantAux_ParentToolUseID aux)
  /\ utf8_ptr (AssistantAux_Error aux).
Proof.
  intros Hm%scanned_members Haux.
  refine (unmarshal_struct_inv AssistantAux_assign
            (fun s => scanned_slice (AssistantAux_Content s)
                      /\ scanned_map (AssistantAux_Message s)
                      /\ utf8 (AssistantAux_Model s)
                      /\ utf8_ptr (AssistantAux_ParentToolUseID s)
                      /\ utf8_ptr (AssistantAux_Error s))
            (fun _ j => scanned j) members _ aux _ Hm _ Haux);
    [|by conjuncts; auto with decode].
  kept AssistantAux_assign.
Qed.

Lemma SystemMessage_fields (members : list (string * json)) (m : SystemMessage) :
  scanned (JObject members) ->
  unmarshal_struct SystemMessage_assign (JObject members) zero_SystemMessage = Some m ->
  utf8 (SystemMessage_Subtype m) /\ generic_map (SystemMessage_Data m)
  /\ generic_map (SystemMessage_Response m) /\ generic_map (SystemMessage_Request m)
  /\ utf8 (SystemMessage_RequestID m).
Proof.
  intros Hm%scanned_members Hdec.
  refine (unmarshal_struct_inv SystemMessage_assign
            (fun s => utf8 (SystemMessage_Subtype s)
                      /\ generic_map (SystemMessage_Data s)
                      /\ generic_map (SystemMessage_Response s)
                      /\ generic_map (SystemMessage_Request s)
                      /\ utf8 (SystemMessage_RequestID s))
            (fun _ j => scanned j) members _ m _ Hm _ Hdec);
    [|by conjuncts; auto with decode].
  kept SystemMessage_assign.
Qed.

Lemma ResultMessage_fields (members : list (string * json)) (m : ResultMessage) :
  scanned (JObject members) ->
  unmarshal_struct ResultMessage_assign (JObject members) zero_ResultMessage = Some m ->
  utf8 (ResultMessage_Subtype m)
  /\ int64 (ResultMessage_DurationMs m)
  /\ int64 (ResultMessage_DurationAPIMs m)
  /\ int64 (ResultMessage_NumTurns m)
  /\ utf8 (ResultMessage_SessionID m)
  /\ finite_ptr (ResultMessage_TotalCostUSD m)
  /\ generic_map (ResultMessage_Usage m)
  /\ utf8_ptr (ResultMessage_Result m)
  /\ generic (ResultMessage_StructuredOutput m).
Proof.
  intros Hm%scanned_members Hdec.
  refine (unmarshal_struct_inv ResultMessage_assign
            (fun s => utf8 (ResultMessage_Subtype s)
                      /\ int64 (ResultMessage_DurationMs s)
                      /\ int64 (ResultMessage_DurationAPIMs s)
                      /\ int64 (ResultMessage_NumTurns s)
                      /\ utf8 (ResultMessage_SessionID s)
                      /\ finite_ptr (ResultMessage_TotalCostUSD s)
                      /\ generic_map (ResultMessage_Usage s)
                      /\ utf8_ptr (ResultMessage_Result s)
                      /\ generic (ResultMessage_StructuredOutput s))
            (fun _ j => scanned j) members _ m _ Hm _ Hdec);
    [|by conjuncts; auto with decode].
  kept ResultMessage_assign.
Qed.

Lemma StreamEvent_fields (members : list (string * json)) (m : StreamEvent) :
  scanned (JObject members) ->
  unmarshal_struct StreamEvent_assign (JObject members) zero_StreamEvent = Some m ->
  utf8 (StreamEvent_UUID m) /\ utf8 (StreamEvent_SessionID m)
  /\ generic_map (StreamEvent_Event m)
  /\ utf8_ptr (StreamEvent_ParentToolUseID m).
Proof.
  intros Hm%scanned_members Hdec.
  refine (unmarshal_struct_inv StreamEvent_assign
            (fun s => utf8 (StreamEvent_UUID s) /\ utf8 (StreamEvent_SessionID s)
                      /\ generic_map (StreamEvent_Event s)
                      /\ utf8_ptr (StreamEvent_ParentToolUseID s))
            (fun _ j => scanned j) members _ m _ Hm _ Hdec);
    [|by conjuncts; auto with decode].
  kept StreamEvent_assign.
Qed.

Lemma nested_string_utf8 (raw : json) (s : string) :
  scanned raw -> nested_string raw = Some s -> utf8 s.
Proof. intros Hraw. apply dec_string_utf8; [done|apply utf8_empty]. Qed.

Lemma user_content_wf (raw : json) (content : UserContent) :
  scanned raw -> user_content raw = Ok content ->
  match content with
  | ContentNil => False
  | ContentString s => utf8 s
  | ContentBlocks blocks => Forall wf_ContentBlock blocks
  end.
Proof.
  intros Hraw. unfold user_content.
  destruct (dec_string raw "") as [s|] eqn:Hs.
  { intros [= <-]. exact (nested_string_utf8 raw s Hraw Hs). }
  destruct (dec_raw_slice raw) as [p|] eqn:Hp; [|done].
  destruct (unmarshal_blocks (default [] p)) as [blocks|] eqn:Hblocks; [|done].
  intros [= <-]. apply (unmarshal_blocks_wf (default [] p)); [|done].
  pose proof (dec_raw_slice_scanned raw p Hraw Hp) as Hscanned.
  destruct p; [done|constructor].
Qed.

(** What a message that [UnmarshalMessage] returns was decoded from. *)
Lemma UnmarshalMessage_Ok (data : json) (msg : Message) :
  UnmarshalMessage data = Ok msg ->
  exists members typ,
    data = JObject members
    /\ unmarshal_struct typeCheck_assign data "" = Some typ
    /\ match msg with
       | OfUserMessage m => typ = "user" /\ UserMessage_UnmarshalJSON data = Ok m
       | OfAssistantMessage m =>
           typ = "assistant" /\ AssistantMessage_UnmarshalJSON data = Ok m
       | OfSystemMessage m =>
           (typ = "system" \/ typ = "control_request" \/ typ = "control_response")
           /\ unmarshal_struct SystemMessage_assign data zero_SystemMessage = Some m
       | OfResultMessage m =>
           typ = "result"
           /\ unmarshal_struct ResultMessage_assign data zero_ResultMessage = Some m
       | OfStreamEvent m =>
           typ = "stream_event"
           /\ unmarshal_struct StreamEvent_assign data zero_StreamEvent = Some m
       end.
Proof.
  unfold UnmarshalMessage.
  destruct (unmarshal_struct typeCheck_assign data "") as [typ|] eqn:Htyp; [|done].
  intros Hmsg.
  assert (Hne : typ <> "").
  { intros ->. by cbn in Hmsg. }
  destruct (typeCheck_object data typ Htyp Hne) as [members ->].
  exists members, typ. split; [done|]. split; [done|]. revert Hmsg.
  destruct (String.eqb_spec typ "user") as [->|_].
  { destruct (UserMessage_UnmarshalJSON _) as [m|]; [|done]. by intros [= <-]. }
  destruct (String.eqb_spec typ "assistant") as [->|_].
  { destruct (AssistantMessage_UnmarshalJSON _) as [m|]; [|done]. by intros [= <-]. }
  destruct (String.eqb_spec typ "system") as [->|_].
  { cbn [orb]. destruct (unmarshal_struct SystemMessage_assign _ _) as [m|]; [|done].
    intros [= <-]. auto. }
  destruct (String.eqb_spec typ "control_request") as [->|_].
  { cbn [orb]. destruct (unmarshal_struct SystemMessage_assign _ _) as [m|]; [|done].
    intros [= <-]. auto. }
  destruct (String.eqb_spec typ "control_response") as [->|_].
  { cbn [orb]. destruct (unmarshal_struct SystemMessage_assign _ _) as [m|]; [|done].
    intros [= <-]. auto. }
  cbn [orb].
  destruct (String.eqb_spec typ "result") as [->|_].
  { destruct (unmarshal_struct ResultMessage_assign _ _) as [m|]; [|done].
    by intros [= <-]. }
  destruct (String.eqb_spec typ "stream_event") as [->|_]; [|done].
  destruct (unmarshal_struct StreamEvent_assign _ _) as [m|]; [|done].
  by intros [= <-].
Qed.

Lemma UnmarshalMessage_wf (data : json) (msg : Message) :
  scanned data -> UnmarshalMessage data = Ok msg -> wf_Message msg.
Proof.
  intros Hdata (members & typ & -> & Htyp & Hmsg)%UnmarshalMessage_Ok.
  destruct msg as [m|m|m|m|m]; cbn [wf_Message].
  - destruct Hmsg as [-> Hm]. revert Hm. unfold UserMessage_UnmarshalJSON.
    destruct (unmarshal_struct UserAux_assign _ _) as [aux|] eqn:Haux; [|done].
    destruct (UserAux_fields members aux Hdata Haux)
      as (Hcontent & Hmessage & Huuid & Hparent).
    destruct (UserAux_contentRaw aux) as [raw|] eqn:Hraw; [|done].
    destruct (user_content raw) as [content|] eqn:Hc; [|done].
    intros [= <-]. fields. conjuncts.
    + exact (unmarshal_struct_type UserAux_assign UserAux_Type members _ aux _
               UserAux_assign_type Haux Htyp).
    + apply (user_content_wf raw); [|done].
      revert Hraw. unfold UserAux_contentRaw.
      destruct (UserAux_Message aux !! "content") as [nested|] eqn:Hnested.
      * intros [= <-]. exact (Hmessage _ _ Hnested).
      * intros Hflat. by rewrite Hflat in Hcontent.
    + unfold UserAux_parentToolUseID.
      destruct (UserAux_Message aux !! "parent_tool_use_id") as [nested|] eqn:Hnested;
        [|done].
      destruct (nested_string nested) as [id|] eqn:Hid; [|done].
      exact (nested_string_utf8 nested id (Hmessage _ _ Hnested) Hid).
    + unfold UserAux_uuid.
      destruct (UserAux_Message aux !! "uuid") as [nested|] eqn:Hnested; [|done].
      destruct (nested_string nested) as [id|] eqn:Hid; [|done].
      exact (nested_string_utf8 nested id (Hmessage _ _ Hnested) Hid).
  - destruct Hmsg as [-> Hm]. revert Hm. unfold AssistantMessage_UnmarshalJSON.
    destruct (unmarshal_struct AssistantAux_assign _ _) as [aux|] eqn:Haux; [|done].
    destruct (AssistantAux_fields members aux Hdata Haux)
      as (Hcontent & Hmessage & Hmodel & Hparent & Herror).
    destruct (unmarshal_blocks _) as [blocks|] eqn:Hblocks; [|done].
    intros [= <-]. fields. conjuncts.
    + exact (unmarshal_struct_type AssistantAux_assign AssistantAux_Type members _ aux _
               AssistantAux_assign_type Haux Htyp).
    + apply (unmarshal_blocks_wf (default [] (AssistantAux_contentBlocks aux)));
        [|done].
      unfold AssistantAux_contentBlocks.
      assert (Hflat : Forall scanned (default [] (AssistantAux_Content aux))).
      { destruct (AssistantAux_Content aux); [done|constructor]. }
      destruct (AssistantAux_Message aux !! "content") as [nested|] eqn:Hnested;
        [|by destruct (AssistantAux_Content aux)].
      destruct (dec_raw_slice nested) as [[l|]|] eqn:Hl;
        [|by destruct (AssistantAux_Content aux)..].
      exact (dec_raw_slice_scanned nested (Some l) (Hmessage _ _ Hnested) Hl).
    + unfold AssistantAux_model.
      destruct (AssistantAux_Message aux !! "model") as [nested|] eqn:Hnested; [|done].
      destruct (nested_string nested) as [s|] eqn:Hs; [|done].
      exact (nested_string_utf8 nested s (Hmessage _ _ Hnested) Hs).
    + done.
    + unfold AssistantAux_error.
      destruct (AssistantAux_Message aux !! "error") as [nested|] eqn:Hnested; [|done].
      destruct (nested_string nested) as [s|] eqn:Hs; [|done].
      destruct (String.eqb s ""); [done|].
      exact (nested_string_utf8 nested s (Hmessage _ _ Hnested) Hs).
  - destruct Hmsg as [Hsys Hm]. split; [|by apply (SystemMessage_fields members)].
    by rewrite (unmarshal_struct_type SystemMessage_assign SystemMessage_Type members
                  _ m _ SystemMessage_assign_type Hm Htyp).
  - destruct Hmsg as [-> Hm]. split; [|by apply (ResultMessage_fields members)].
    exact (unmarshal_struct_type ResultMessage_assign ResultMessage_Type members
             _ m _ ResultMessage_assign_type Hm Htyp).
  - destruct Hmsg as [-> Hm]. split; [|by apply (StreamEvent_fields members)].
    exact (unmarshal_struct_type StreamEvent_assign StreamEvent_Type members
             _ m _ StreamEvent_assign_type Hm Htyp).
Qed.

(** ** The encoder writes the flat form *)

Lemma member_map_key (k : string) (m : gmap string value) (ms : list (string * json)) :
  member_map k m = Some ms -> Forall (fun kv => kv.1 = k) ms.
Proof.
  unfold member_map. intros (j & _ & ->)%fmap_Some. by repeat constructor.
Qed.

Lemma member_map_omitempty_key (k : string) (m : gmap string value)
    (ms : list (string * json)) :
  member_map_omitempty k m = Some ms -> Forall (fun kv => kv.1 = k) ms.
Proof.
  unfold member_map_omitempty. destruct (size m =? 0)%nat.
  - intros [= <-]. constructor.
  - apply member_map_key.
Qed.

Lemma member_any_omitempty_key (k : string) (v : value) (ms : list (string * json)) :
  member_any_omitempty k v = Some ms -> Forall (fun kv => kv.1 = k) ms.
Proof.
  unfold member_any_omitempty.
  destruct v; try (intros (j & _ & ->)%fmap_Some; by repeat constructor).
  intros [= <-]. constructor.
Qed.

Lemma member_float_ptr_omitempty_key (k : string) (p : option float)
    (ms : list (string * json)) :
  member_float_ptr_omitempty k p = Some ms -> Forall (fun kv => kv.1 = k) ms.
Proof.
  unfold member_float_ptr_omitempty. destruct p.
  - intros (j & _ & ->)%fmap_Some. by repeat constructor.
  - intros [= <-]. constructor.
Qed.

Lemma member_string_omitempty_key (k s : string) :
  Forall (fun kv => kv.1 = k) (member_string_omitempty k s).
Proof. unfold member_string_omitempty. destruct (s =? ""); by repeat constructor. Qed.

Lemma member_string_ptr_omitempty_key (k : string) (p : option string) :
  Forall (fun kv => kv.1 = k) (member_string_ptr_omitempty k p).
Proof. destruct p; by repeat constructor. Qed.

Lemma keyed_flat (k : string) (ms : list (string * json)) :
  k <> "message" -> Forall (fun kv => kv.1 = k) ms ->
  Forall (fun kv => kv.1 <> "message") ms.
Proof. intros Hk H. eapply Forall_impl; [exact H|]. by intros kv ->. Qed.

Ltac flat_members :=
  cbn [flat];
  repeat first
    [ apply Forall_nil_2
    | apply Forall_cons_2; [done|]
    | apply Forall_app_2
    | eapply keyed_flat;
      [|first [ apply member_string_omitempty_key
              | apply member_string_ptr_omitempty_key
              | eapply member_map_key; eassumption
              | eapply member_map_omitempty_key; eassumption
              | eapply member_any_omitempty_key; eassumption
              | eapply member_float_ptr_omitempty_key; eassumption ]]; done ].

Lemma marshal_Message_flat (msg : Message) (l : json) :
  marshal_Message msg = Some l -> flat l.
Proof.
  destruct msg as [m|m|m|m|m]; cbn [marshal_Message].
  - unfold marshal_UserMessage.
    destruct (match UserMessage_Content m with
              | ContentNil => _ | ContentString s => _ | ContentBlocks blocks => _
              end) as [content|]; [|done].
    intros [= <-]. flat_members.
  - unfold AssistantMessage_MarshalJSON.
    destruct (marshal_blocks _) as [content|]; [|done].
    intros [= <-]. flat_members.
  - unfold marshal_SystemMessage.
    destruct (member_map_omitempty "data" _) as [data|] eqn:Hdata; [|done].
    destruct (member_map_omitempty "response" _) as [response|] eqn:Hresponse; [|done].
    destruct (member_map_omitempty "request" _) as [request|] eqn:Hrequest; [|done].
    intros [= <-]. flat_members.
  - unfold marshal_ResultMessage.
    destruct (member_float_ptr_omitempty _ _) as [cost|] eqn:Hcost; [|done].
    destruct (member_map_omitempty _ _) as [usage|] eqn:Husage; [|done].
    destruct (member_any_omitempty _ _) as [output|] eqn:Houtput; [|done].
    intros [= <-]. flat_members.
  - unfold marshal_StreamEvent.
    destruct (member_map _ _) as [event|] eqn:Hevent; [|done].
    intros [= <-]. flat_members.
Qed.




(** * Tools: validation, the builders, the toolkit and the manager *)

(** ** What [validateInput] accepts *)

Lemma find_absent (input : gmap string value) (required : list string)
    (dec : forall field : string, Decision (input !! field = None)) :
  find (fun field => @bool_decide (input !! field = None) (dec field)) required = None
  <-> forall field, field ∈ required -> is_Some (input !! field).
Proof.
  split.
  - intros Hfind field Hin. apply list_elem_of_In in Hin.
    pose proof (find_none _ _ Hfind _ Hin) as Hf. cbn in Hf.
    apply bool_decide_eq_false in Hf. by destruct (input !! field).
  - intros Hall. destruct (find _ required) as [f|] eqn:Hfind; [|done].
    apply find_some in Hfind as [Hin Hf]. apply bool_decide_eq_true in Hf.
    apply list_elem_of_In in Hin. destruct (Hall f Hin) as [v Hv]. congruence.
Qed.

Lemma schema_type_object (schema : gmap string value) :
  negb (String.eqb (default "" (as_string (index schema "type"))) "object") = false
  <-> as_string (index schema "type") = Some "object".
Proof.
  destruct (as_string (index schema "type")) as [s|]; cbn [default from_option id].
  - destruct (String.eqb_spec s "object") as [->|Hne]; split; try done.
    intros [= Hs]. by destruct Hne.
  - split; done.
Qed.

Lemma validateInput_accepted (schema input : gmap string value) :
  validateInput schema input = Returned None <->
  as_string (index schema "type") = Some "object"
  /\ (forall required field,
         as_strings (index schema "required") = Some required ->
         field ∈ required -> is_Some (input !! field))
  /\ exists properties,
       as_map (index schema "properties") = Some properties
       /\ map_Forall (fun key val =>
                        validate_property validateValue properties key val
                        = Returned None) input.
Proof.
  rewrite validateInput_eq. cbv zeta.
  destruct (negb _) eqn:Htype.
  { split; [done|]. intros [Ht _]. apply schema_type_object in Ht. congruence. }
  apply schema_type_object in Htype.
  destruct (as_strings (index schema "required")) as [required|] eqn:Hreq.
  - destruct (find _ required) as [f|] eqn:Hfind.
    + split; [done|]. intros (_ & Hall & _).
      apply find_some in Hfind as [Hin Hf]. apply bool_decide_eq_true in Hf.
      apply list_elem_of_In in Hin. destruct (Hall required f eq_refl Hin). congruence.
    + pose proof (proj1 (find_absent input required _) Hfind) as Hpresent.
      destruct (as_map (index schema "properties")) as [properties|].
      * rewrite validate_entries_pass. split.
        -- intros Hall. split; [done|].
           split; [intros ? field [= <-]; apply Hpresent|].
           exists properties. split; [done|].
           intros key val Hkv. rewrite Forall_forall in Hall.
           apply (Hall (key, val)). by apply elem_of_map_to_list.
        -- intros (_ & _ & properties' & [= <-] & Hall).
           apply Forall_forall. intros [key val] Hin.
           apply elem_of_map_to_list in Hin. by apply Hall.
      * split; [done|]. by intros (_ & _ & ? & ? & _).
  - destruct (as_map (index schema "properties")) as [properties|].
    + rewrite validate_entries_pass. split.
      * intros Hall. split; [done|]. split; [done|].
        exists properties. split; [done|].
        intros key val Hkv. rewrite Forall_forall in Hall.
        apply (Hall (key, val)). by apply elem_of_map_to_list.
      * intros (_ & _ & properties' & [= <-] & Hall).
        apply Forall_forall. intros [key val] Hin.
        apply elem_of_map_to_list in Hin. by apply Hall.
    + split; [done|]. by intros (_ & _ & ? & ? & _).
Qed.

(** One entry that does not pass makes [validateInput] not accept. *)
Lemma validateInput_entry (schema input properties : gmap string value)
    (key : string) (val : value) :
  as_map (index schema "properties") = Some properties ->
  input !! key = Some val ->
  validate_property validateValue properties key val <> Returned None ->
  validateInput schema input <> Returned None.
Proof.
  intros Hp Hk Hbad (_ & _ & properties' & Hp' & Hall)%validateInput_accepted.
  rewrite Hp in Hp'. injection Hp' as <-. exact (Hbad (Hall key val Hk)).
Qed.

(** A property that declares a type only: the value passes when it has
    the type. *)
Lemma validate_property_plain validate (properties prop : gmap string value)
    (key propType : string) (val : value) :
  properties !! key = Some (VMap prop) ->
  as_string (index prop "type") = Some propType ->
  as_slice (index prop "enum") = None ->
  as_map (index prop "properties") = None ->
  validate_property validate properties key val
  = if has_type propType val then Returned None
    else Returned (Some (fieldTypeMismatch key propType val)).
Proof.
  intros H1 H2 H3 H4.
  destruct (has_type propType val) eqn:Htype;
    [|by apply (validate_property_wrong_type _ _ prop)].
  revert Htype. unfold validate_property, has_type. rewrite H1. cbn [as_map].
  rewrite H2, H3, H4.
  repeat (case_eqb; [destruct val; cbn; try done; by intros -> |]).
  done.
Qed.

(** An error of one entry is one of the violations. *)
Lemma validate_property_violation (schema input properties : gmap string value)
    (key : string) (val : value) (err : error) :
  as_map (index schema "properties") = Some properties ->
  input !! key = Some val ->
  validate_property validateValue properties key val = Returned (Some err) ->
  violation schema input.
Proof.
  intros Hp Hk. unfold validate_property.
  destruct (properties !! key) as [propSchema|] eqn:Hprop;
    [|intros _; by apply (undeclared_key _ _ properties key val)].
  destruct (as_map propSchema) as [prop|] eqn:Hmap; [|done].
  destruct propSchema; try done. injection Hmap as ->.
  destruct (as_string (index prop "type")) as [propType|] eqn:Ht; [|done].
  assert (Hwrong : has_type propType val = false -> violation schema input).
  { by apply (wrong_type _ _ properties prop key propType val). }
  assert (Henum : forall enum,
             as_slice (index prop "enum") = Some enum ->
             enum_contains val enum = Returned false -> violation schema input).
  { intros enum. by apply (not_in_enum _ _ properties prop key propType val enum). }
  assert (Htail :
            match as_slice (index prop "enum") with
            | Some enum =>
                match enum_contains val enum with
                | Returned true => Returned None
                | Returned false => Returned (Some (fieldNotInEnum key enum val))
                | Panicked => Panicked
                end
            | None => Returned None
            end = Returned (Some err) -> violation schema input).
  { destruct (as_slice (index prop "enum")) as [enum|] eqn:He; [|done].
    destruct (enum_contains val enum) as [[|]|] eqn:Hc;
      [done | intros _; by apply (Henum enum) | done]. }
  clear Henum.
  destruct (String.eqb_spec propType "string") as [->|N1].
  { literals. destruct val; cbn [as_string]; cbv beta iota;
      solve [exact Htail | intros _; by apply Hwrong]. }
  destruct (String.eqb_spec propType "number") as [->|N2].
  { literals. destruct val; cbn [as_float64]; cbv beta iota;
      solve [exact Htail | intros _; by apply Hwrong]. }
  destruct (String.eqb_spec propType "integer") as [->|N3].
  { literals. destruct val as [| |f| | | | | |]; cbn [as_float64]; cbv beta iota;
      try solve [intros _; by apply Hwrong].
    destruct (is_int64_float f) eqn:Hi; [exact Htail|].
    intros _. apply Hwrong. exact Hi. }
  destruct (String.eqb_spec propType "boolean") as [->|N4].
  { literals. destruct val; cbn [as_bool]; cbv beta iota;
      solve [exact Htail | intros _; by apply Hwrong]. }
  destruct (String.eqb_spec propType "array") as [->|N5].
  { literals. destruct val; cbn [as_slice]; cbv beta iota;
      solve [exact Htail | intros _; by apply Hwrong]. }
  destruct (String.eqb_spec propType "object") as [->|N6]; [|exact Htail].
  literals. destruct val as [| | | | | |obj| |]; cbv beta iota;
    try solve [intros _; by apply Hwrong].
  destruct (as_map (index prop "properties")) as [nestedProps|] eqn:Hn;
    [|exact Htail].
  cbv zeta.
  match goal with
  | |- context [validateValue ?s (VMap obj)] =>
      change (validateValue s (VMap obj))
        with (validateInput (nested_schema prop nestedProps) obj)
  end.
  destruct (validateInput (nested_schema prop nestedProps) obj)
    as [[err'|]|] eqn:Hnested; [|exact Htail|done].
  intros _.
  by apply (nested_violation _ _ properties prop nestedProps obj key err').
Qed.

(** X1. The errors of [validateInput] are complete for the violations: on a
    schema of type object whose properties are a map, and when no enum
    comparison panics, the arguments are accepted exactly when they break
    the schema in none of the five ways (a required name absent, an
    undeclared key, a value of the wrong type, a value outside the enum, a
    nested object breaking its own schema). *)
Theorem validateInput_accepts_iff (schema input properties : gmap string value) :
  as_string (index schema "type") = Some "object" ->
  as_map (index schema "properties") = Some properties ->
  validateInput schema input <> Panicked ->
  (validateInput schema input = Returned None <-> ~ violation schema input).
Proof.
  intros Htype Hprops Hpanic. split.
  - intros Hok Hv. by apply (validateInput_violation schema input Hv).
  - intros Hnot. destruct (validateInput schema input) as [[err|]|] eqn:Hres;
      [|done|done].
    exfalso. apply Hnot. revert Hres. rewrite validateInput_eq. cbv zeta.
    apply schema_type_object in Htype. rewrite Htype, Hprops.
    destruct (as_strings (index schema "required")) as [required|] eqn:Hreq.
    + destruct (find _ required) as [f|] eqn:Hfind.
      * intros _. apply find_some in Hfind as [Hin Hf].
        apply bool_decide_eq_true in Hf. apply list_elem_of_In in Hin.
        by apply (missing_required _ _ required f).
      * intros (key & val & Hin & Hkv)%validate_entries_error.
        apply elem_of_map_to_list in Hin.
        by apply (validate_property_violation schema input properties key val err).
    + intros (key & val & Hin & Hkv)%validate_entries_error.
      apply elem_of_map_to_list in Hin.
      by apply (validate_property_violation schema input properties key val err).
Qed.

Lemma validateInput_accepts_iff_witness :
  validateInput (InputSchema S3_add_tool) S3_arguments = Returned None
  <-> ~ violation (InputSchema S3_add_tool) S3_arguments.
Proof.
  apply (validateInput_accepts_iff (InputSchema S3_add_tool) S3_arguments
           (builder_properties (ToolBuilder_params S3_add_builder)));
    [reflexivity | reflexivity | discriminate].
Defined.

(** ** Tools made by [ToolBuilder] *)

Lemma Execute_rejected (t : tool) (input : gmap string value) :
  validateInput (InputSchema t) input <> Returned None -> rejected t input.
Proof.
  unfold rejected, Execute, InputSchema.
  destruct (validateInput _ input) as [[err|]|]; [right; by exists err|done|by left].
Qed.

Lemma Build_Ok (b : ToolBuilder) (t : tool) :
  Build b = Ok t ->
  Name t = ToolBuilder_name b /\ Description t = ToolBuilder_description b
  /\ InputSchema t = buildJSONSchema b
  /\ ToolBuilder_handler b = Some (tool_handler t)
  /\ tool_validator t = ToolBuilder_validator b.
Proof.
  unfold Build. destruct (String.eqb _ ""); [done|].
  destruct (String.eqb _ ""); [done|].
  destruct (ToolBuilder_handler b); [|done]. by intros [= <-].
Qed.

Lemma schema_type (b : ToolBuilder) :
  as_string (index (buildJSONSchema b) "type") = Some "object".
Proof.
  unfold buildJSONSchema, index.
  by rewrite !lookup_insert_ne, lookup_insert_eq by done.
Qed.

Lemma schema_required (b : ToolBuilder) :
  as_strings (index (buildJSONSchema b) "required") = Some (ToolBuilder_required b).
Proof. unfold buildJSONSchema, index. by rewrite lookup_insert_eq. Qed.

Lemma schema_properties (b : ToolBuilder) :
  as_map (index (buildJSONSchema b) "properties")
  = Some (builder_properties (ToolBuilder_params b)).
Proof.
  unfold buildJSONSchema, index.
  by rewrite lookup_insert_ne, lookup_insert_eq by done.
Qed.

Lemma builder_properties_snoc (params : list ToolParam) (param : ToolParam) :
  builder_properties (params ++ [param])
  = <[ToolParam_Name param := VMap (param_schema param)]> (builder_properties params).
Proof. unfold builder_properties. by rewrite foldl_app. Qed.

Lemma builder_properties_absent (params : list ToolParam) (key : string) :
  Forall (fun param => ToolParam_Name param <> key) params ->
  builder_properties params !! key = None.
Proof.
  induction params as [|param params IH] using rev_ind; [done|].
  intros [Hparams Hparam%Forall_inv]%Forall_app.
  rewrite builder_properties_snoc, lookup_insert_ne by done. by apply IH.
Qed.

(** The last parameter of a name gives the property of that name. *)
Lemma builder_properties_last (before after : list ToolParam) (param : ToolParam) :
  Forall (fun p => ToolParam_Name p <> ToolParam_Name param) after ->
  builder_properties (before ++ param :: after) !! ToolParam_Name param
  = Some (VMap (param_schema param)).
Proof.
  induction after as [|p after IH] using rev_ind.
  - intros _. by rewrite builder_properties_snoc, lookup_insert_eq.
  - intros [Hafter Hp%Forall_inv]%Forall_app.
    rewrite app_comm_cons, app_assoc, builder_properties_snoc.
    rewrite lookup_insert_ne by done. by apply IH.
Qed.

Lemma required_call (b : ToolBuilder) (c : builder_call) (name : string) :
  name ∈ ToolBuilder_required b -> name ∈ ToolBuilder_required (call_builder b c).
Proof.
  intros Hin.
  destruct c as [| ? ? [|] | ? ? [|] | ? ? [|] | ? ? [|] | ? ? [|] ?
                 | ? ? [|] ? | ? ? [|] ? | | |];
    cbn; try done; apply elem_of_app; by left.
Qed.

Lemma required_chain (b : ToolBuilder) (calls : list builder_call) (name : string) :
  name ∈ ToolBuilder_required b -> name ∈ ToolBuilder_required (chain b calls).
Proof.
  revert b. induction calls as [|c calls IH]; intros b Hin; [done|].
  apply IH. by apply required_call.
Qed.

(** X2. A parameter that a builder call declared required stays required
    whatever calls follow in the chain (declaring the name again as
    optional included): the built tool answers arguments without it with
    the error "input validation failed: missing required field: ..." for
    the first required name that is absent, and calls neither the custom
    validator nor the handler. *)
Theorem required_stays_required (b : ToolBuilder) (calls : list builder_call)
    (t : tool) (name : string) (input : gmap string value) :
  name ∈ ToolBuilder_required b ->
  Build (chain b calls) = Ok t ->
  input !! name = None ->
  exists field : string,
    input !! field = None
    /\ Execute t input
       = ([], Returned (None, Some (inputValidationFailed (missingRequiredField field)))).
Proof.
  intros Hin (_ & _ & Hschema & _)%Build_Ok Hnone.
  pose proof (required_chain b calls name Hin) as Hreq.
  destruct (find_missing input _ name Hreq Hnone) as [field Hfind].
  exists field. split.
  - apply find_some in Hfind as [_ Hf]. by apply bool_decide_eq_true in Hf.
  - apply Execute_invalid. rewrite Hschema, validateInput_eq. cbv zeta.
    rewrite (proj2 (schema_type_object _) (schema_type _)), schema_required.
    by rewrite Hfind.
Qed.

Lemma required_stays_required_witness :
  exists field : string,
    (∅ : gmap string value) !! field = None
    /\ Execute S3_add_tool ∅
       = ([], Returned (None, Some (inputValidationFailed (missingRequiredField field)))).
Proof.
  apply (required_stays_required
           (NumberParam "a" "First number" true
              (WithDescription "Add two numbers" (NewTool "add")))
           [CallNumberParam "b" "Second number" true;
            CallHandler S3_add_handler]
           _ "a" ∅).
  - apply list_elem_of_here.
  - reflexivity.
  - reflexivity.
Defined.

(** ** Validation that cannot panic *)

Lemma validate_entries_returns (properties : gmap string value)
    (entries : list (string * value)) :
  (forall key val, validate_property validateValue properties key val <> Panicked) ->
  validate_entries properties entries <> Panicked.
Proof.
  intros Hreturns. induction entries as [|[key val] entries IH]; [done|].
  rewrite validate_entries_cons.
  destruct (validate_entries properties entries) as [[err|]|]; [done| |done].
  apply Hreturns.
Qed.

Lemma validateInput_returns (schema input : gmap string value) :
  (forall properties key val,
      as_map (index schema "properties") = Some properties ->
      validate_property validateValue properties key val <> Panicked) ->
  validateInput schema input <> Panicked.
Proof.
  intros Hreturns. rewrite validateInput_eq. cbv zeta.
  destruct (negb _); [done|].
  destruct (match as_strings (index schema "required") with
            | Some required => find _ required | None => None end); [done|].
  destruct (as_map (index schema "properties")) as [properties|]; [|done].
  apply validate_entries_returns. intros key val. by apply Hreturns.
Qed.

Lemma nested_schema_properties (prop nestedProps : gmap string value) :
  as_map (index (nested_schema prop nestedProps) "properties") = Some nestedProps.
Proof.
  unfold nested_schema, index.
  destruct (as_strings _); by rewrite ?lookup_insert_ne, lookup_insert_eq by done.
Qed.

(** The body of the loop returns when the enum, if there is one, is on a
    string, and the nested object, if there is one, is validated without
    a panic. *)
Lemma validate_property_returns (properties : gmap string value) (key : string)
    (val : value) :
  (forall prop : gmap string value,
      properties !! key = Some (VMap prop) ->
      (as_slice (index prop "enum") = None
       \/ as_string (index prop "type") = Some "string")
      /\ forall nestedProps obj,
          as_map (index prop "properties") = Some nestedProps ->
          validateInput (nested_schema prop nestedProps) obj <> Panicked) ->
  validate_property validateValue properties key val <> Panicked.
Proof.
  intros Hprop. unfold validate_property.
  destruct (properties !! key) as [propSchema|]; [|done].
  destruct propSchema as [| | | | |?|prop| |]; try done. cbn [as_map].
  destruct (Hprop prop eq_refl) as [Henum Hnested].
  destruct (as_string (index prop "type")) as [propType|] eqn:Htype; [|done].
  destruct Henum as [Henum|[= ->]].
  - rewrite Henum.
    repeat (case_eqb; [destruct val; try done; cbn [as_float64];
                       try (destruct (is_int64_float _)); try done|]);
      [|done].
    destruct (as_map (index prop "properties")) as [nestedProps|] eqn:Hprops;
      [|done].
    pose proof (Hnested nestedProps m eq_refl) as Hobj.
    unfold validateInput, nested_schema in Hobj.
    by destruct (validateValue _ (VMap m)) as [[err|]|].
  - rewrite (eq_refl : ("string" =? "string") = true).
    destruct val; try done. cbn [as_string].
    destruct (as_slice (index prop "enum")) as [enum|]; [|done].
    pose proof (enum_contains_scalar (VString s) enum eq_refl).
    by destruct (enum_contains (VString s) enum) as [[|]|].
Qed.

(** ** The schemas of the builder *)

Lemma param_schema_type (p : ToolParam) :
  as_string (index (param_schema p) "type") = Some (ToolParam_Type p).
Proof.
  unfold param_schema, index.
  repeat match goal with
         | |- context [match ?x with _ => _ end] => destruct x
         end;
    by rewrite ?lookup_insert_ne, lookup_insert_eq by done.
Qed.

Lemma param_schema_enum (p : ToolParam) :
  as_slice (index (param_schema p) "enum")
  = match ToolParam_Enum p with [] => None | enum => Some enum end.
Proof.
  unfold param_schema, index.
  destruct (ToolParam_Enum p) as [|e enum];
    repeat match goal with
           | |- context [match ?x with _ => _ end] => destruct x
           end;
    by rewrite ?lookup_insert_ne, ?lookup_insert_eq, ?lookup_empty by done.
Qed.

(** The properties of a parameter's schema declare a type and a description
    and nothing else. *)
Lemma param_schema_properties (p : ToolParam) (nestedProps : gmap string value) :
  as_map (index (param_schema p) "properties") = Some nestedProps ->
  exists properties : gmap string ToolParam,
    nestedProps
    = (fun v => VMap (<["description" := VString (ToolParam_Description v)]>
                        (<["type" := VString (ToolParam_Type v)]> empty)))
        <$> properties.
Proof.
  unfold param_schema, index.
  repeat match goal with
         | |- context [match ?x with _ => _ end] => destruct x
         end;
    rewrite ?lookup_insert_ne, ?lookup_insert_eq, ?lookup_empty by done;
    try done; intros [= <-]; by eexists.
Qed.

Lemma builder_properties_elem (params : list ToolParam) (key : string) (v : value) :
  builder_properties params !! key = Some v ->
  exists p, p ∈ params /\ v = VMap (param_schema p).
Proof.
  induction params as [|p params IH] using rev_ind; [done|].
  rewrite builder_properties_snoc.
  intros [[_ <-]|[_ Hv]]%lookup_insert_Some.
  - exists p. split; [|done]. apply elem_of_app. right. apply list_elem_of_here.
  - destruct (IH Hv) as (q & Hq & ->). exists q. split; [|done].
    apply elem_of_app. by left.
Qed.

(** A schema of the builder whose enums are on strings is validated
    without a panic. *)
Lemma builder_validation_returns (b : ToolBuilder) (input : gmap string value) :
  enums_on_strings b -> validateInput (buildJSONSchema b) input <> Panicked.
Proof.
  intros Henums. apply validateInput_returns. intros properties key val.
  rewrite schema_properties. intros [= <-].
  apply validate_property_returns. intros prop Hprop.
  apply builder_properties_elem in Hprop as (p & Hp & [= ->]).
  unfold enums_on_strings in Henums. rewrite Forall_forall in Henums. split.
  - rewrite param_schema_enum, param_schema_type.
    destruct (Henums p Hp) as [->| ->]; [by left | by right].
  - intros nestedProps obj (nested & ->)%param_schema_properties.
    apply validateInput_returns. intros properties key' val'.
    rewrite nested_schema_properties. intros [= <-].
    apply validate_property_returns. intros prop'.
    rewrite lookup_fmap.
    destruct (nested !! key') as [q|]; [|done]. intros [= <-].
    unfold index. split.
    + left. by rewrite !lookup_insert_ne, lookup_empty by done.
    + intros nestedProps' obj'. by rewrite !lookup_insert_ne, lookup_empty by done.
Qed.

(** The calls of the builder put enums on string parameters only. *)
Lemma set_default_enums (name : string) (defaultValue : value)
    (params : list ToolParam) :
  Forall (fun p => ToolParam_Enum p = [] \/ ToolParam_Type p = "string") params ->
  Forall (fun p => ToolParam_Enum p = [] \/ ToolParam_Type p = "string")
    (set_default name defaultValue params).
Proof.
  induction 1 as [|p params Hp Hparams IH]; [constructor|].
  cbn [set_default]. destruct (String.eqb _ name); constructor; try done.
Qed.

Lemma chain_enums_on_strings (b : ToolBuilder) (calls : list builder_call) :
  enums_on_strings b -> enums_on_strings (chain b calls).
Proof.
  unfold chain. revert b. induction calls as [|c calls IH]; intros b Hb; [done|].
  cbn [foldl]. apply IH. unfold enums_on_strings in *.
  destruct c; cbn [call_builder]; try done;
    try (apply Forall_app; split; [done|]; constructor; [|constructor];
         cbn [ToolParam_Enum ToolParam_Type]; by auto).
  by apply set_default_enums.
Qed.

Lemma Execute_error (t : tool) (input : gmap string value) :
  validateInput (InputSchema t) input <> Returned None ->
  validateInput (InputSchema t) input <> Panicked ->
  exists err : error,
    Execute t input = ([], Returned (None, Some (inputValidationFailed err))).
Proof.
  unfold Execute, InputSchema.
  destruct (validateInput _ input) as [[err|]|]; [by exists err|done..].
Qed.

(** A builder made from [NewTool] by the calls of the builder. *)
Lemma built_by_calls (name : string) (calls : list builder_call) :
  enums_on_strings (chain (NewTool name) calls).
Proof. apply chain_enums_on_strings. constructor. Qed.

(** X3. A tool made by the builder takes no argument that the builder did
    not declare: when the arguments have a key that is the name of no
    parameter, [Execute] does not accept them and calls neither the custom
    validator nor the handler: it returns a validation error, or panics if
    an enum comparison does first. When every enum of the builder is on a
    string parameter, as in every builder made from [NewTool] by the calls
    of the builder, it returns the validation error. *)
Theorem undeclared_argument_rejected (b : ToolBuilder) (t : tool) (key : string)
    (val : value) (input : gmap string value) :
  Build b = Ok t ->
  Forall (fun param => ToolParam_Name param <> key) (ToolBuilder_params b) ->
  input !! key = Some val ->
  rejected t input
  /\ (enums_on_strings b ->
      exists err : error,
        Execute t input = ([], Returned (None, Some (inputValidationFailed err))))
  /\ (forall (name : string) (calls : list builder_call),
        b = chain (NewTool name) calls ->
        exists err : error,
          Execute t input = ([], Returned (None, Some (inputValidationFailed err)))).
Proof.
  intros (_ & _ & Hschema & _)%Build_Ok Hparams Hkey.
  assert (Hbad : validateInput (InputSchema t) input <> Returned None).
  { rewrite Hschema. apply validateInput_violation.
    apply (undeclared_key _ _ (builder_properties (ToolBuilder_params b)) key val);
      [apply schema_properties | done | by apply builder_properties_absent]. }
  assert (Herror : enums_on_strings b ->
                   exists err : error,
                     Execute t input
                     = ([], Returned (None, Some (inputValidationFailed err)))).
  { intros Henums. apply Execute_error; [done|].
    rewrite Hschema. by apply builder_validation_returns. }
  split; [by apply Execute_rejected|]. split; [done|].
  intros name calls ->. apply Herror, built_by_calls.
Qed.

Lemma undeclared_argument_rejected_witness :
  rejected S3_add_tool (<["c" := VFloat 1]> S3_arguments)
  /\ exists err : error,
       Execute S3_add_tool (<["c" := VFloat 1]> S3_arguments)
       = ([], Returned (None, Some (inputValidationFailed err))).
Proof.
  destruct (undeclared_argument_rejected S3_add_builder S3_add_tool "c" (VFloat 1)
              (<["c" := VFloat 1]> S3_arguments))
    as (Hrejected & Herror & _).
  - reflexivity.
  - repeat constructor; discriminate.
  - reflexivity.
  - split; [exact Hrejected|]. apply Herror. repeat constructor.
Defined.

Lemma set_default_last (params : list ToolParam) (param : ToolParam)
    (defaultValue : value) :
  Forall (fun p => ToolParam_Name p <> ToolParam_Name param) params ->
  set_default (ToolParam_Name param) defaultValue (params ++ [param])
  = params ++ [mkToolParam (ToolParam_Name param) (ToolParam_Type param)
                 (ToolParam_Description param) (ToolParam_Required param)
                 (ToolParam_Enum param) defaultValue (ToolParam_Properties param)].
Proof.
  induction params as [|p params IH]; intros Hparams; cbn [set_default app].
  - by rewrite String.eqb_refl.
  - apply Forall_cons in Hparams as [Hp Hparams].
    apply String.eqb_neq in Hp. rewrite Hp. f_equal. by apply IH.
Qed.

Lemma builder_property_last (b : ToolBuilder) (params : list ToolParam)
    (param : ToolParam) :
  ToolBuilder_params b = params ++ [param] ->
  builder_property b (ToolParam_Name param) = Some (param_schema param).
Proof.
  intros Hparams. unfold builder_property. rewrite schema_properties, Hparams.
  cbn [mbind option_bind]. by rewrite builder_properties_snoc, lookup_insert_eq.
Qed.

(** X4. [DefaultParam] on an array parameter replaces what [ArrayParam]
    keeps in the default, the type of the items: the schema of the
    parameter had [items: {type: itemType}] and has it no more once a
    default is set (a default that is no [map[string]string]); the schema
    then has the new default, or none when the default is nil. *)
Theorem DefaultParam_drops_items (b : ToolBuilder) (name desc itemType : string)
    (required : bool) (defaultValue : value) :
  Forall (fun p => ToolParam_Name p <> name) (ToolBuilder_params b) ->
  as_string_map defaultValue = None ->
  let declared : gmap string value :=
    <["description" := VString desc]> (<["type" := VString "array"]> empty) in
  builder_property (ArrayParam name desc required itemType b) name
  = Some (<["items" := VStringMap {[ "type" := itemType ]}]>
            (<["default" := VStringMap {[ "itemsType" := itemType ]}]> declared))
  /\ builder_property
       (DefaultParam name defaultValue (ArrayParam name desc required itemType b)) name
     = Some (match defaultValue with
             | VNil => declared
             | _ => <["default" := defaultValue]> declared
             end).
Proof.
  intros Hparams Hdefault declared. split.
  - by rewrite (builder_property_last _ (ToolBuilder_params b)
                  (mkToolParam name "array" desc required []
                     (VStringMap {[ "itemsType" := itemType ]}) None)).
  - rewrite (builder_property_last _ (ToolBuilder_params b)
               (mkToolParam name "array" desc required [] defaultValue None)).
    + by destruct defaultValue.
    + cbn [DefaultParam ArrayParam addParam ToolBuilder_params].
      by rewrite (set_default_last _
                    (mkToolParam name "array" desc required []
                       (VStringMap {[ "itemsType" := itemType ]}) None)).
Qed.

Lemma DefaultParam_drops_items_witness :
  builder_property (ArrayParam "tags" "Tags" false "string" (NewTool "tag")) "tags"
  = Some (<["items" := VStringMap {[ "type" := "string" ]}]>
            (<["default" := VStringMap {[ "itemsType" := "string" ]}]>
               (<["description" := VString "Tags"]>
                  (<["type" := VString "array"]> empty))))
  /\ builder_property
       (DefaultParam "tags" (VSlice [])
          (ArrayParam "tags" "Tags" false "string" (NewTool "tag"))) "tags"
     = Some (<["default" := VSlice []]>
               (<["description" := VString "Tags"]>
                  (<["type" := VString "array"]> empty))).
Proof.
  apply (DefaultParam_drops_items (NewTool "tag") "tags" "Tags" "string" false
           (VSlice [])); [constructor | reflexivity].
Defined.

(** The names [buildJSONSchema] lists as required in a nested object: the
    [Name] fields of the properties that are required. *)
Lemma nested_required_elem (properties : gmap string ToolParam) (k : string)
    (p : ToolParam) :
  properties !! k = Some p -> ToolParam_Required p = true ->
  ToolParam_Name p
  ∈ map_fold (fun _ p acc =>
                if ToolParam_Required p then acc ++ [ToolParam_Name p] else acc)
      [] properties.
Proof.
  revert k p.
  apply (map_fold_weak_ind
           (fun (r : list string) (m : gmap string ToolParam) =>
              forall k p, m !! k = Some p -> ToolParam_Required p = true ->
                          ToolParam_Name p ∈ r)).
  - intros k p Hk. by rewrite lookup_empty in Hk.
  - intros i x m r Hi IH k p [[<- <-]|[Hne Hk]]%lookup_insert_Some Hreq.
    + rewrite Hreq. apply elem_of_app. right. apply list_elem_of_here.
    + destruct (ToolParam_Required x);
        [apply elem_of_app; left|]; by apply (IH k p).
Qed.

Lemma validate_property_nested_rejects (properties prop nestedProps obj : gmap string value)
    (key : string) :
  properties !! key = Some (VMap prop) ->
  as_string (index prop "type") = Some "object" ->
  as_map (index prop "properties") = Some nestedProps ->
  validateInput (nested_schema prop nestedProps) obj <> Returned None ->
  validate_property validateValue properties key (VMap obj) <> Returned None.
Proof.
  unfold validate_property, validateInput, nested_schema.
  intros H1 H2 H3 H4. rewrite H1. cbn [as_map]. rewrite H2.
  cbn [String.eqb Ascii.eqb Bool.eqb]. rewrite H3.
  destruct (as_strings (index prop "required")) as [required|];
    by destruct (validateValue _ (VMap obj)) as [[err|]|].
Qed.

(** X5. The required names of a nested object are taken from the [Name]
    field of its properties, not from their keys. When an object parameter
    has a required property whose [Name] is no key of the properties (it
    was left empty, say), no object is accepted for that parameter:
    [Execute] does not accept an input that has one and calls neither the
    validator nor the handler; it returns a validation error, or panics if
    an enum comparison does first. When every enum of the builder is on a
    string parameter, as in every builder made from [NewTool] by the calls
    of the builder, it returns the validation error. *)
Theorem nested_required_by_name (b : ToolBuilder) (t : tool)
    (before after : list ToolParam) (name desc k : string) (required : bool)
    (properties : gmap string ToolParam) (p : ToolParam)
    (obj input : gmap string value) :
  Build b = Ok t ->
  ToolBuilder_params b
  = before ++ mkToolParam name "object" desc required [] VNil (Some properties) :: after ->
  Forall (fun q => ToolParam_Name q <> name) after ->
  properties !! k = Some p ->
  ToolParam_Required p = true ->
  properties !! ToolParam_Name p = None ->
  input !! name = Some (VMap obj) ->
  rejected t input
  /\ (enums_on_strings b ->
      exists err : error,
        Execute t input = ([], Returned (None, Some (inputValidationFailed err))))
  /\ (forall (name0 : string) (calls : list builder_call),
        b = chain (NewTool name0) calls ->
        exists err : error,
          Execute t input = ([], Returned (None, Some (inputValidationFailed err)))).
Proof.
  intros (_ & _ & Hschema & _)%Build_Ok Hparams Hafter Hk Hreq Hname Hinput.
  cut (validateInput (InputSchema t) input <> Returned None).
  { intros Hbad.
    assert (Herror : enums_on_strings b ->
                     exists err : error,
                       Execute t input
                       = ([], Returned (None, Some (inputValidationFailed err)))).
    { intros Henums. apply Execute_error; [done|].
      rewrite Hschema. by apply builder_validation_returns. }
    split; [by apply Execute_rejected|]. split; [done|].
    intros name0 calls ->. apply Herror, built_by_calls. }
  rewrite Hschema.
  set (param := mkToolParam name "object" desc required [] VNil (Some properties)) in *.
  set (objProps := (fun v : ToolParam =>
                      VMap (<["description" := VString (ToolParam_Description v)]>
                              (<["type" := VString (ToolParam_Type v)]> empty)))
                   <$> properties).
  set (nestedRequired :=
         map_fold (fun _ p acc =>
                     if ToolParam_Required p then acc ++ [ToolParam_Name p] else acc)
           [] properties).
  assert (Hin : ToolParam_Name p ∈ nestedRequired) by by apply (nested_required_elem _ k).
  assert (Hprop : param_schema param
                  = <["required" := VStrings nestedRequired]>
                      (<["properties" := VMap objProps]>
                         (<["description" := VString desc]>
                            (<["type" := VString "object"]> empty)))).
  { unfold param_schema, param.
    cbn [ToolParam_Type ToolParam_Enum ToolParam_Default ToolParam_Properties
         ToolParam_Description as_string_map].
    literals. fold objProps. fold nestedRequired.
    destruct nestedRequired; [by apply elem_of_nil in Hin | done]. }
  apply (validateInput_entry _ input (builder_properties (ToolBuilder_params b))
           name (VMap obj)); [apply schema_properties | done |].
  apply (validate_property_nested_rejects _ (param_schema param) objProps).
  - rewrite Hparams. by apply (builder_properties_last before after param).
  - rewrite Hprop. unfold index.
    by rewrite !lookup_insert_ne, lookup_insert_eq by done.
  - rewrite Hprop. unfold index.
    by rewrite lookup_insert_ne, lookup_insert_eq by done.
  - apply validateInput_violation.
    assert (Hnested : nested_schema (param_schema param) objProps
                      = <["required" := VStrings nestedRequired]>
                          (<["properties" := VMap objProps]>
                             (<["type" := VString "object"]> empty))).
    { unfold nested_schema. rewrite Hprop. unfold index at 1.
      by rewrite lookup_insert_eq. }
    rewrite Hnested.
    destruct (obj !! ToolParam_Name p) as [v|] eqn:Hobj.
    + apply (undeclared_key _ _ objProps (ToolParam_Name p) v); [|done|].
      * unfold index. by rewrite lookup_insert_ne, lookup_insert_eq by done.
      * unfold objProps. by rewrite lookup_fmap, Hname.
    + apply (missing_required _ _ nestedRequired (ToolParam_Name p)); [|done..].
      unfold index. by rewrite lookup_insert_eq.
Qed.

Lemma nested_required_by_name_witness :
  Build (Handler S3_add_handler
           (ObjectParam "point" "A point" false
              (Some {[ "x" := mkToolParam "" "number" "Abscissa" true [] VNil None ]})
              (WithDescription "Add two numbers" (NewTool "add"))))
  = Ok (mkTool "add" "Add two numbers"
          (buildJSONSchema
             (ObjectParam "point" "A point" false
                (Some {[ "x" := mkToolParam "" "number" "Abscissa" true [] VNil None ]})
                (NewTool "add")))
          S3_add_handler None)
  /\ exists err : error,
       Execute
         (mkTool "add" "Add two numbers"
            (buildJSONSchema
               (ObjectParam "point" "A point" false
                  (Some {[ "x" := mkToolParam "" "number" "Abscissa" true [] VNil None ]})
                  (NewTool "add")))
            S3_add_handler None)
         {[ "point" := VMap {[ "x" := VFloat 1 ]} ]}
       = ([], Returned (None, Some (inputValidationFailed err))).
Proof.
  split; [reflexivity|].
  refine (proj1 (proj2
            (nested_required_by_name
               (Handler S3_add_handler
                  (ObjectParam "point" "A point" false
                     (Some {[ "x" := mkToolParam "" "number" "Abscissa" true [] VNil None ]})
                     (WithDescription "Add two numbers" (NewTool "add"))))
               _ [] [] "point" "A point" "x" false
               {[ "x" := mkToolParam "" "number" "Abscissa" true [] VNil None ]}
               (mkToolParam "" "number" "Abscissa" true [] VNil None)
               {[ "x" := VFloat 1 ]} _ _ _ _ _ _ _ _)) _);
    first [reflexivity | constructor | idtac].
  all: repeat constructor.
Defined.

(** ** Tools made by [SimpleTool] and [QuickTool] *)

Lemma map_fold_insert_lookup {A B : Type} (f : string -> A -> B)
    (m : gmap string A) (i : string) :
  map_fold (fun k x (acc : gmap string B) => <[k := f k x]> acc) empty m !! i
  = f i <$> m !! i.
Proof.
  revert i.
  apply (map_fold_weak_ind
           (fun (r : gmap string B) (m : gmap string A) =>
              forall i, r !! i = f i <$> m !! i)).
  - intros i. by rewrite !lookup_empty.
  - intros k x m' r Hk IH i. destruct (decide (k = i)) as [->|Hne].
    + by rewrite !lookup_insert_eq.
    + by rewrite !lookup_insert_ne.
Qed.

Lemma required_names_elem (params : gmap string SimpleParam) (field : string) :
  field ∈ required_names params
  <-> exists p, params !! field = Some p /\ SimpleParam_Required p = true.
Proof.
  unfold required_names. revert field.
  apply (map_fold_weak_ind
           (fun (r : list string) (m : gmap string SimpleParam) =>
              forall field,
                field ∈ r <-> exists p, m !! field = Some p
                                        /\ SimpleParam_Required p = true)).
  - intros field. split; [by intros ?%elem_of_nil|].
    intros (p & Hp & _). by rewrite lookup_empty in Hp.
  - intros k x m r Hk IH field. split.
    + intros Hin.
      assert (Hcases : field ∈ r \/ (SimpleParam_Required x = true /\ field = k)).
      { destruct (SimpleParam_Required x); [|by left].
        apply elem_of_app in Hin as [Hin|Hin%list_elem_of_singleton];
          [by left | by right]. }
      destruct Hcases as [(p & Hp & Hreq)%IH|[Hreq ->]].
      * exists p. split; [|done]. rewrite lookup_insert_ne; [done|].
        intros ->. congruence.
      * exists x. by rewrite lookup_insert_eq.
    + intros (p & [[<- <-]|[Hne Hp]]%lookup_insert_Some & Hreq).
      * rewrite Hreq. apply elem_of_app. right. apply list_elem_of_here.
      * assert (field ∈ r) by (apply IH; by exists p).
        destruct (SimpleParam_Required x); [apply elem_of_app; by left | done].
Qed.

Lemma buildParamSchema_plain (type description : string) (required : bool) :
  buildParamSchema (mkSimpleParam type description required [] VNil None empty)
  = <["description" := VString description]> (<["type" := VString type]> empty).
Proof.
  cbn [buildParamSchema]. rewrite map_size_empty. cbn [Nat.eqb negb].
  rewrite andb_false_r. by destruct (String.eqb type "array").
Qed.

(** The schema of a tool of [SimpleTool.Build]. *)
Lemma SimpleTool_Build_Ok (s : SimpleTool) (t : tool) :
  SimpleTool_Build s = Ok t ->
  Name t = SimpleTool_Name s
  /\ SimpleTool_Handler s = Some (tool_handler t)
  /\ tool_validator t = None
  /\ as_string (index (InputSchema t) "type") = Some "object"
  /\ as_map (index (InputSchema t) "properties")
     = Some (map_fold (fun name param (properties : gmap string value) =>
                         <[name := VMap (buildParamSchema param)]> properties)
               empty (SimpleTool_Parameters s))
  /\ as_strings (index (InputSchema t) "required")
     = match required_names (SimpleTool_Parameters s) with
       | [] => None
       | required => Some required
       end.
Proof.
  unfold SimpleTool_Build. destruct (String.eqb _ ""); [done|].
  destruct (String.eqb _ ""); [done|].
  destruct (SimpleTool_Handler s); [|done]. cbv zeta. intros [= <-].
  unfold InputSchema, Name, index. cbn [tool_name tool_handler tool_validator tool_inputSchema].
  destruct (required_names (SimpleTool_Parameters s)) as [|field required].
  - by rewrite !lookup_insert_ne, !lookup_insert_eq by done.
  - by rewrite !lookup_insert_eq, !lookup_insert_ne, !lookup_insert_eq by done.
Qed.

(** X6. A tool of [QuickTool] takes exactly the arguments whose keys are
    the names of [params], each with a value of the type declared for it
    (string, number, integer, boolean, array or object; another type name
    admits any value): on such arguments [Execute] calls the handler, once,
    and returns what it returns; on any other it returns a validation
    error and calls nothing. Validation never panics. *)
Theorem QuickTool_accepts (name description : string) (params : gmap string string)
    (handler : ToolFunc) :
  name <> "" -> description <> "" ->
  exists t : tool,
    QuickTool name description params (Some handler) = Ok t
    /\ Name t = name
    /\ forall input : gmap string value,
         (quick_input params input
          /\ Execute t input = ([HandlerCall input], handler input))
         \/ (~ quick_input params input
             /\ exists err : error,
                  Execute t input
                  = ([], Returned (None, Some (inputValidationFailed err)))).
Proof.
  intros Hname Hdesc. unfold QuickTool.
  set (simpleParams :=
         map_fold (fun paramName paramType (simpleParams : gmap string SimpleParam) =>
                     <[paramName := mkSimpleParam paramType (paramName +:+ " parameter")
                                      true [] VNil None empty]> simpleParams)
           empty params).
  assert (Hsimple : forall k,
             simpleParams !! k
             = (fun paramType => mkSimpleParam paramType (k +:+ " parameter")
                                   true [] VNil None empty) <$> params !! k).
  { intros k. unfold simpleParams.
    apply (map_fold_insert_lookup
             (fun k paramType => mkSimpleParam paramType (k +:+ " parameter")
                                   true [] VNil None empty)). }
  destruct (SimpleTool_Build (mkSimpleTool name description simpleParams (Some handler)))
    as [t|err] eqn:Hbuild.
  2:{ exfalso. revert Hbuild. unfold SimpleTool_Build.
      cbn [SimpleTool_Name SimpleTool_Description SimpleTool_Handler].
      apply String.eqb_neq in Hname, Hdesc. by rewrite Hname, Hdesc. }
  exists t. split; [done|].
  destruct (SimpleTool_Build_Ok _ t Hbuild)
    as (Hn & Hh & Hv & Htype & Hprops & Hreq).
  cbn [SimpleTool_Name SimpleTool_Handler SimpleTool_Parameters] in *.
  split; [done|]. injection Hh as Hh.
  set (properties :=
         map_fold (fun name param (properties : gmap string value) =>
                     <[name := VMap (buildParamSchema param)]> properties)
           empty simpleParams) in *.
  assert (Hproperty : forall k,
             properties !! k
             = (fun paramType =>
                  VMap (<["description" := VString (k +:+ " parameter")]>
                          (<["type" := VString paramType]> empty))) <$> params !! k).
  { intros k. unfold properties.
    rewrite (map_fold_insert_lookup (fun _ param => VMap (buildParamSchema param))).
    rewrite Hsimple. destruct (params !! k) as [paramType|]; [|done].
    cbn [fmap option_fmap option_map]. by rewrite buildParamSchema_plain. }
  assert (Hentry : forall key val,
             validate_property validateValue properties key val
             = match params !! key with
               | Some paramType =>
                   if has_type paramType val then Returned None
                   else Returned (Some (fieldTypeMismatch key paramType val))
               | None => Returned (Some (unknownField key))
               end).
  { intros key val. specialize (Hproperty key).
    destruct (params !! key) as [paramType|].
    - by apply (validate_property_plain _ _
                  (<["description" := VString (key +:+ " parameter")]>
                     (<["type" := VString paramType]> empty))).
    - by apply validate_property_undeclared. }
  assert (Hrequired : forall field,
             field ∈ required_names simpleParams <-> is_Some (params !! field)).
  { intros field. rewrite required_names_elem. split.
    - intros (p & Hp & _). rewrite Hsimple in Hp.
      destruct (params !! field); [by eexists | done].
    - intros [paramType Hp]. eexists. rewrite Hsimple, Hp. done. }
  intros input.
  assert (Haccepted : validateInput (InputSchema t) input = Returned None
                      <-> quick_input params input).
  { rewrite validateInput_accepted. split.
    - intros (_ & Hpresent & properties' & Hp' & Hall) k.
      rewrite Hprops in Hp'. injection Hp' as <-.
      destruct (input !! k) as [val|] eqn:Hk.
      + specialize (Hall k val Hk). cbn beta in Hall. rewrite Hentry in Hall.
        destruct (params !! k) as [paramType|]; [|done].
        by destruct (has_type paramType val).
      + destruct (params !! k) as [paramType|] eqn:Hparam; [|done].
        assert (Hin : k ∈ required_names simpleParams) by (apply Hrequired; by eexists).
        destruct (required_names simpleParams) as [|f required] eqn:Hnames;
          [by apply elem_of_nil in Hin|].
        destruct (Hpresent (f :: required) k Hreq Hin) as [v Hpresent']. congruence.
    - intros Hquick. split; [done|]. split.
      + intros required field Hrequired' Hin. rewrite Hreq in Hrequired'.
        assert (Hin' : field ∈ required_names simpleParams).
        { destruct (required_names simpleParams); [done|]. by injection Hrequired' as <-. }
        apply Hrequired in Hin' as [paramType Hp]. specialize (Hquick field).
        rewrite Hp in Hquick. destruct (input !! field); [by eexists | done].
      + exists properties. split; [done|]. intros key val Hk. cbn beta.
        rewrite Hentry. specialize (Hquick key). rewrite Hk in Hquick.
        destruct (params !! key) as [paramType|]; [by rewrite Hquick | done]. }
  assert (Hreturns : validateInput (InputSchema t) input <> Panicked).
  { rewrite validateInput_eq. cbv zeta.
    destruct (negb _); [done|].
    destruct (match as_strings (index (InputSchema t) "required") with
              | Some required => find _ required | None => None end); [done|].
    rewrite Hprops. apply validate_entries_returns. intros key val.
    rewrite Hentry. destruct (params !! key) as [paramType|]; [|done].
    by destruct (has_type paramType val). }
  unfold Execute. unfold InputSchema in *. rewrite Hv, Hh.
  destruct (validateInput (tool_inputSchema t) input) as [[err|]|] eqn:Hres.
  - right. split; [|by exists err]. intros Hquick%Haccepted. done.
  - left. split; [by apply Haccepted | done].
  - done.
Qed.

Lemma QuickTool_accepts_witness :
  exists t : tool,
    QuickTool "greet" "Greet a user" {[ "name" := "string" ]}
      (Some (fun _ => Returned (Some (NewMcpToolResult []), None))) = Ok t
    /\ Name t = "greet"
    /\ forall input : gmap string value,
         (quick_input {[ "name" := "string" ]} input
          /\ Execute t input
             = ([HandlerCall input], Returned (Some (NewMcpToolResult []), None)))
         \/ (~ quick_input {[ "name" := "string" ]} input
             /\ exists err : error,
                  Execute t input
                  = ([], Returned (None, Some (inputValidationFailed err)))).
Proof.
  apply (QuickTool_accepts "greet" "Greet a user" {[ "name" := "string" ]}
           (fun _ => Returned (Some (NewMcpToolResult []), None)));
    discriminate.
Defined.

(** ** The calculator toolkit *)

Section Toolkit.

Variable Sprintf_2f : float -> string.
Variable int_of_float64 : float -> Z.

Lemma number_schema (x xdesc : string) :
  param_schema (mkToolParam x "number" xdesc true [] VNil None)
  = <["description" := VString xdesc]> (<["type" := VString "number"]> empty).
Proof. reflexivity. Qed.

(** A calculator tool calls its handler on validated arguments only, where
    both type assertions of the handler hold. *)
Lemma calculator_tool_Execute (name description x xdesc y ydesc : string)
    (handler : ToolFunc)
    (body : float -> float -> option ToolResult * option error) (t : tool)
    (input : gmap string value) :
  calculator_tool name description x xdesc y ydesc handler = Ok t ->
  handler = binary_handler x y body ->
  (exists a b : float,
      input !! x = Some (VFloat a) /\ input !! y = Some (VFloat b)
      /\ Execute t input = ([HandlerCall input], Returned (body a b)))
  \/ exists err : error,
       Execute t input = ([], Returned (None, Some (inputValidationFailed err))).
Proof.
  unfold calculator_tool.
  intros (_ & _ & Hschema & Hhandler & Hvalidator)%Build_Ok ->.
  cbn [Handler NumberParam addParam WithDescription NewTool ToolBuilder_handler
       ToolBuilder_validator] in Hhandler, Hvalidator.
  injection Hhandler as Hhandler.
  set (b := Handler _ _) in Hschema.
  assert (Hrequired : ToolBuilder_required b = [x; y]) by reflexivity.
  assert (Hparams : ToolBuilder_params b
                    = [mkToolParam x "number" xdesc true [] VNil None;
                       mkToolParam y "number" ydesc true [] VNil None])
    by reflexivity.
  assert (Hproperty : forall key,
             builder_properties (ToolBuilder_params b) !! key = None
             \/ exists d, builder_properties (ToolBuilder_params b) !! key
                          = Some (VMap (<["description" := VString d]>
                                          (<["type" := VString "number"]> empty)))).
  { intros key. rewrite Hparams. unfold builder_properties. cbn [foldl ToolParam_Name].
    rewrite !number_schema.
    destruct (decide (y = key)) as [->|Hy];
      [right; exists ydesc; by rewrite lookup_insert_eq|].
    rewrite lookup_insert_ne by done.
    destruct (decide (x = key)) as [->|Hx];
      [right; exists xdesc; by rewrite lookup_insert_eq|].
    left. by rewrite lookup_insert_ne, lookup_empty. }
  assert (Hentry : forall key val,
             validate_property validateValue
               (builder_properties (ToolBuilder_params b)) key val
             = Returned None
             \/ exists err, validate_property validateValue
                              (builder_properties (ToolBuilder_params b)) key val
                            = Returned (Some err)).
  { intros key val. destruct (Hproperty key) as [Hnone|[d Hsome]].
    - right. eexists. by apply validate_property_undeclared.
    - rewrite (validate_property_plain _ _ _ key "number" val Hsome);
        [|done..].
      destruct (has_type "number" val); [by left | right; by eexists]. }
  unfold Execute. unfold InputSchema in Hschema. rewrite Hschema, Hvalidator, <- Hhandler.
  destruct (validateInput (buildJSONSchema b) input) as [[err|]|] eqn:Hres.
  - right. by exists err.
  - left. apply validateInput_accepted in Hres
      as (_ & Hpresent & properties & Hprops & Hall).
    rewrite schema_properties in Hprops. injection Hprops as <-.
    assert (Hnumber : forall key, key ∈ [x; y] ->
               exists f, input !! key = Some (VFloat f)).
    { intros key Hin.
      destruct (Hpresent [x; y] key) as [val Hval];
        [by rewrite schema_required, Hrequired | done |].
      specialize (Hall key val Hval). cbn beta in Hall.
      destruct (Hproperty key) as [Hnone|[d Hsome]].
      - by rewrite (validate_property_undeclared _ _ _ _ Hnone) in Hall.
      - rewrite (validate_property_plain _ _ _ key "number" val Hsome) in Hall;
          [|done..].
        destruct val; try done. by eexists. }
    destruct (Hnumber x) as [a Ha]; [apply list_elem_of_here|].
    destruct (Hnumber y) as [b' Hb]; [apply list_elem_of_further, list_elem_of_here|].
    exists a, b'. split; [done|]. split; [done|].
    unfold binary_handler, index. by rewrite Ha, Hb.
  - exfalso. revert Hres. rewrite validateInput_eq. cbv zeta.
    rewrite (proj2 (schema_type_object _) (schema_type _)), schema_required,
      schema_properties.
    destruct (find _ _); [done|]. apply validate_entries_returns.
    intros key val. by destruct (Hentry key val) as [->|[err ->]].
Qed.

(** X7. The calculator toolkit builds its five tools (add, subtract,
    multiply, divide, power, in this order), and none of them panics or
    returns a Go error of its own: on any arguments [Execute] either
    returns a validation error without calling the handler, or calls the
    handler once and returns its result with a nil error. The unchecked
    type assertions of the handlers never fail, because validation has
    checked both numbers before. *)
Theorem calculator_never_panics :
  exists tools : list tool,
    NewCalculatorToolkit Sprintf_2f int_of_float64 = Ok tools
    /\ Name <$> tools = ["add"; "subtract"; "multiply"; "divide"; "power"]
    /\ forall (t : tool) (input : gmap string value),
         t ∈ tools ->
         (exists result : ToolResult,
             Execute t input = ([HandlerCall input], Returned (Some result, None)))
         \/ exists err : error,
              Execute t input = ([], Returned (None, Some (inputValidationFailed err))).
Proof.
  eexists. split; [reflexivity|]. split; [reflexivity|].
  intros t input Hin.
  repeat (apply elem_of_cons in Hin as [->|Hin]);
    [..|by apply elem_of_nil in Hin].
  - destruct (calculator_tool_Execute "add" "Add two numbers" "a" "First number"
                "b" "Second number" (add_handler Sprintf_2f) _ _ input
                eq_refl eq_refl)
      as [(a & b & _ & _ & ->)|Herr]; [left; by eexists | by right].
  - destruct (calculator_tool_Execute "subtract" "Subtract second number from first"
                "a" "First number" "b" "Second number" (subtract_handler Sprintf_2f)
                _ _ input eq_refl eq_refl)
      as [(a & b & _ & _ & ->)|Herr]; [left; by eexists | by right].
  - destruct (calculator_tool_Execute "multiply" "Multiply two numbers"
                "a" "First number" "b" "Second number" (multiply_handler Sprintf_2f)
                _ _ input eq_refl eq_refl)
      as [(a & b & _ & _ & ->)|Herr]; [left; by eexists | by right].
  - destruct (calculator_tool_Execute "divide" "Divide first number by second"
                "a" "Dividend" "b" "Divisor" (divide_handler Sprintf_2f) _ _ input
                eq_refl eq_refl)
      as [(a & b & _ & _ & ->)|Herr]; [left | by right].
    destruct (PrimFloat.eqb b 0); by eexists.
  - destruct (calculator_tool_Execute "power" "Raise a number to a power"
                "base" "Base number" "exponent" "Exponent"
                (power_handler Sprintf_2f int_of_float64) _ _ input eq_refl eq_refl)
      as [(a & b & _ & _ & ->)|Herr]; [left; by eexists | by right].
Qed.

Variable Sprint : value -> string.
Variable MarshalText : value -> string.

(** X8. Division by zero is an error result of the tool, not an error of
    the protocol: for a divisor equal to zero (0 or -0) the divide tool of
    the toolkit, called through a server that holds the toolkit, is
    answered with a JSON-RPC success whose result has [isError: true] and
    the text "Division by zero is not allowed"; the handler was called
    once. *)
Theorem divide_by_zero (tools : list tool) (name version : string) (id : value)
    (a b : float) :
  NewCalculatorToolkit Sprintf_2f int_of_float64 = Ok tools ->
  PrimFloat.eqb b 0 = true ->
  HandleMessage Sprint MarshalText (NewSdkMCPServer name version tools)
    (tools_call_message id "divide" (two_numbers "a" "b" a b))
  = ([HandlerCall (two_numbers "a" "b" a b)],
     Returned (Some (result_body id
                       (RValue (VMap (error_result "Division by zero is not allowed")))),
               None)).
Proof.
  intros [= <-] Hzero.
  set (s := NewSdkMCPServer _ _ _).
  destruct (calculator_tool_Execute "divide" "Divide first number by second"
              "a" "Dividend" "b" "Divisor" (divide_handler Sprintf_2f) _ _
              (two_numbers "a" "b" a b) eq_refl eq_refl)
    as [(a' & b' & Ha & Hb & Hexec)|[err Herr]]; [|done].
  change (Some (VFloat a) = Some (VFloat a')) in Ha. injection Ha as <-.
  change (Some (VFloat b) = Some (VFloat b')) in Hb. injection Hb as <-.
  cbv beta in Hexec. rewrite Hzero in Hexec.
  match type of Hexec with
  | Execute ?t _ = _ =>
      rewrite (HandleMessage_tools_call Sprint MarshalText s _ t
                 (VMap (two_numbers "a" "b" a b)))
  end.
  - cbn [as_map]. rewrite Hexec. by rewrite responseToMap_tool_result.
  - split; [reflexivity|]. eexists _, "divide". repeat split; reflexivity.
Qed.

End Toolkit.

Lemma divide_by_zero_witness :
  HandleMessage type_name type_name
    (NewSdkMCPServer "calculator" "1.0.0"
       (match NewCalculatorToolkit decimal_text (fun _ => 0%Z) with
        | Ok tools => tools
        | Err _ => []
        end))
    (tools_call_message (VFloat 1) "divide" (two_numbers "a" "b" 1 (-0)))
  = ([HandlerCall (two_numbers "a" "b" 1 (-0))],
     Returned (Some (result_body (VFloat 1)
                       (RValue (VMap (error_result "Division by zero is not allowed")))),
               None)).
Proof.
  apply (divide_by_zero decimal_text (fun _ => 0%Z) type_name type_name _
           "calculator" "1.0.0" (VFloat 1) 1 (-0));
    reflexivity.
Defined.

(** ** The tool manager *)

(** Every tool is stored under its own name. *)
Lemma call_manager_names (m : ToolManager) (c : manager_call) :
  map_Forall (fun name t => Name t = name) (ToolManager_tools m) ->
  map_Forall (fun name t => Name t = name) (ToolManager_tools (call_manager m c)).
Proof.
  intros Hm. destruct c as [t|name|]; cbn [call_manager].
  - unfold ToolManager_Register.
    destruct (ToolManager_tools m !! Name t); [done|].
    by apply map_Forall_insert_2.
  - unfold ToolManager_Unregister.
    destruct (ToolManager_tools m !! name); [|done].
    by apply map_Forall_delete.
  - apply map_Forall_empty.
Qed.

Lemma manager_names (calls : list manager_call) :
  map_Forall (fun name t => Name t = name)
    (ToolManager_tools (foldl call_manager NewToolManager calls)).
Proof.
  induction calls as [|c calls IH] using rev_ind; [apply map_Forall_empty|].
  rewrite foldl_app. by apply call_manager_names.
Qed.

Lemma named_entries (tools : gmap string tool) :
  map_Forall (fun name t => Name t = name) tools ->
  Name <$> (map_to_list tools).*2 = (map_to_list tools).*1.
Proof.
  intros Hnames.
  assert (Hall : Forall (fun kv : string * tool => Name kv.2 = kv.1) (map_to_list tools)).
  { apply Forall_forall. intros [name t] Hin%elem_of_map_to_list. by apply Hnames. }
  induction Hall as [|[name t] l Hkv _ IH]; [done|].
  cbn [fmap list_fmap fst snd] in *. by rewrite Hkv, IH.
Qed.

(** X9. In a manager reached from [NewToolManager] by calls of [Register],
    [Unregister] and [Clear], every tool is held under its own name: [Get]
    by a name returns a tool of that name, [List] holds no two tools of one
    name, as many tools as [Count] says, and their names are those of
    [Names]. (The order of [List] and of [Names] is open.) *)
Theorem manager_holds_tools_by_name (calls : list manager_call) :
  let m := foldl call_manager NewToolManager calls in
  (forall (name : string) (t : tool),
      ToolManager_Get m name = (Some t, true) -> Name t = name)
  /\ NoDup (Name <$> ToolManager_List m)
  /\ length (ToolManager_List m) = ToolManager_Count m
  /\ forall name : string,
       name ∈ ToolManager_Names m <-> name ∈ Name <$> ToolManager_List m.
Proof.
  intros m. pose proof (manager_names calls) as Hnames. fold m in Hnames.
  unfold ToolManager_Get, ToolManager_List, ToolManager_Names, ToolManager_Count.
  rewrite (named_entries _ Hnames). split; [|split; [|split]].
  - intros name t. destruct (ToolManager_tools m !! name) as [t'|] eqn:Ht; [|done].
    intros [= <-]. by apply Hnames.
  - apply NoDup_fst_map_to_list.
  - by rewrite length_fmap, length_map_to_list.
  - done.
Qed.

(** X10. [Register] succeeds exactly when no tool of that name is held, and
    then [Get] by the name returns the tool, the other names are as they
    were and [Count] is one more; when a tool of that name is held it
    returns the error "tool already registered: name". *)
Theorem Register_then_Get (t : tool) (m : ToolManager) :
  match ToolManager_Register t m with
  | Ok m' =>
      ToolManager_Get m (Name t) = (None, false)
      /\ ToolManager_Get m' (Name t) = (Some t, true)
      /\ (forall name : string,
             name <> Name t -> ToolManager_Get m' name = ToolManager_Get m name)
      /\ ToolManager_Count m' = S (ToolManager_Count m)
  | Err err =>
      (exists held : tool, ToolManager_Get m (Name t) = (Some held, true))
      /\ err = errorString ("tool already registered: " +:+ Name t)
  end.
Proof.
  unfold ToolManager_Register, ToolManager_Get, ToolManager_Count.
  destruct (ToolManager_tools m !! Name t) as [held|] eqn:Ht.
  - split; [by exists held | done].
  - cbn [ToolManager_tools]. rewrite lookup_insert_eq.
    split; [done|]. split; [done|]. split.
    + intros name Hne. by rewrite lookup_insert_ne.
    + by apply map_size_insert_None.
Qed.

(** X11. [Unregister] undoes [Register]: after a tool was registered,
    unregistering its name succeeds and gives the manager as it was. *)
Theorem Register_then_Unregister (t : tool) (m m' : ToolManager) :
  ToolManager_Register t m = Ok m' ->
  ToolManager_Unregister (Name t) m' = Ok m.
Proof.
  unfold ToolManager_Register, ToolManager_Unregister.
  destruct (ToolManager_tools m !! Name t) eqn:Ht; [done|]. intros [= <-].
  cbn [ToolManager_tools]. rewrite lookup_insert_eq, delete_insert_id by done.
  by destruct m.
Qed.

Lemma Register_then_Unregister_witness :
  ToolManager_Unregister (Name S3_add_tool)
    (mkToolManager {[ Name S3_add_tool := S3_add_tool ]})
  = Ok NewToolManager.
Proof.
  apply (Register_then_Unregister S3_add_tool NewToolManager). reflexivity.
Defined.

Lemma foldl_insert_named (tools : list tool) (acc : gmap string tool) :
  foldl (fun m t => <[Name t := t]> m) acc tools
  = foldl (fun m kv => <[kv.1 := kv.2]> m) acc ((fun t => (Name t, t)) <$> tools).
Proof.
  revert acc. induction tools as [|t tools IH]; intros acc; [done|].
  cbn [fmap list_fmap foldl fst snd]. by rewrite IH.
Qed.

Lemma named_entries_pairs (tools : gmap string tool) :
  map_Forall (fun name t => Name t = name) tools ->
  (fun t => (Name t, t)) <$> (map_to_list tools).*2 = map_to_list tools.
Proof.
  intros Hnames.
  assert (Hall : Forall (fun kv : string * tool => Name kv.2 = kv.1) (map_to_list tools)).
  { apply Forall_forall. intros [name t] Hin%elem_of_map_to_list. by apply Hnames. }
  induction Hall as [|[name t] l Hkv _ IH]; [done|].
  cbn [fmap list_fmap fst snd] in *. by rewrite Hkv, IH.
Qed.

(** X12. A server made of the tools of a manager ([NewSdkMCPServer] on
    what [List] returns, in whatever order [List] returns it) finds by
    name exactly the tools the manager holds: its index is the manager's
    map. *)
Theorem server_of_manager (calls : list manager_call) (name version : string)
    (tools : list tool) :
  let m := foldl call_manager NewToolManager calls in
  tools ≡ₚ ToolManager_List m ->
  SdkMCPServer_toolsMap (NewSdkMCPServer name version tools) = ToolManager_tools m.
Proof.
  intros m Htools. pose proof (manager_names calls) as Hnames. fold m in Hnames.
  unfold NewSdkMCPServer. cbn [SdkMCPServer_toolsMap].
  assert (Hpairs : (fun t => (Name t, t)) <$> tools ≡ₚ map_to_list (ToolManager_tools m)).
  { rewrite Htools. unfold ToolManager_List. by rewrite named_entries_pairs. }
  assert (Hnodup : NoDup ((fun t => (Name t, t)) <$> tools).*1).
  { rewrite Hpairs. apply NoDup_fst_map_to_list. }
  rewrite foldl_insert_named, (foldl_insert_union _ _ Hnodup).
  rewrite (right_id_L ∅ (∪)), (list_to_map_proper _ _ Hnodup Hpairs).
  apply list_to_map_to_list.
Qed.

Lemma server_of_manager_witness :
  SdkMCPServer_toolsMap (NewSdkMCPServer "calc" "1.0.0" [S3_add_tool])
  = ToolManager_tools (foldl call_manager NewToolManager [CallRegister S3_add_tool]).
Proof.
  apply (server_of_manager [CallRegister S3_add_tool] "calc" "1.0.0" [S3_add_tool]).
  reflexivity.
Defined.

(** * The in-process server: its list of tools and its index *)

Lemma agree_nil : agree [] ∅.
Proof.
  split; [constructor|]. intros name t. rewrite lookup_empty. split; [done|].
  by intros [?%elem_of_nil _].
Qed.

Lemma agree_absent (tools : list tool) (toolsMap : gmap string tool) (name : string) :
  agree tools toolsMap ->
  toolsMap !! name = None <-> name ∉ Name <$> tools.
Proof.
  intros [_ Hagree]. split.
  - intros Hnone (t & -> & Hin)%list_elem_of_fmap.
    assert (toolsMap !! Name t = Some t) by by apply Hagree. congruence.
  - intros Hnot. destruct (toolsMap !! name) as [t|] eqn:Ht; [|done].
    apply Hagree in Ht as [Hin <-]. destruct Hnot.
    apply list_elem_of_fmap. by exists t.
Qed.

Lemma agree_snoc (tools : list tool) (toolsMap : gmap string tool) (t : tool) :
  agree tools toolsMap -> toolsMap !! Name t = None ->
  agree (tools ++ [t]) (<[Name t := t]> toolsMap).
Proof.
  intros Hagree Hnone. pose proof (proj1 (agree_absent _ _ _ Hagree) Hnone) as Hnot.
  destruct Hagree as [Hnodup Hagree]. split.
  - rewrite fmap_app. apply NoDup_app. split; [done|]. split.
    + intros name Hin ->%list_elem_of_singleton. done.
    + apply NoDup_singleton.
  - intros name t'. rewrite lookup_insert_Some, elem_of_app, list_elem_of_singleton.
    rewrite Hagree. split.
    + intros [[<- <-]|[Hne [Hin <-]]]; [by split; [right|] | by split; [left|]].
    + intros [[Hin| ->] <-]; [right | by left].
      split; [|done]. intros Heq. apply Hnot. rewrite Heq.
      apply list_elem_of_fmap. by exists t'.
Qed.

Lemma remove_first_elem (tools : list tool) (name : string) (t : tool) :
  NoDup (Name <$> tools) ->
  t ∈ remove_first name tools <-> t ∈ tools /\ Name t <> name.
Proof.
  induction tools as [|t0 tools IH]; cbn [remove_first fmap list_fmap].
  - intros _. split; [by intros ?%elem_of_nil | by intros [?%elem_of_nil _]].
  - intros [Hnot Hnodup]%NoDup_cons.
    destruct (String.eqb_spec (Name t0) name) as [<-|Hne].
    + rewrite elem_of_cons. split.
      * intros Hin. split; [by right|]. intros Heq. apply Hnot. rewrite <- Heq.
        apply list_elem_of_fmap. by exists t.
      * intros [[->|Hin] Hne]; done.
    + rewrite !elem_of_cons, (IH Hnodup). split.
      * intros [->|[Hin Hne']]; [by split; [left|] | by split; [right|]].
      * intros [[->|Hin] Hne']; [by left | by right].
Qed.

Lemma remove_first_NoDup (tools : list tool) (name : string) :
  NoDup (Name <$> tools) -> NoDup (Name <$> remove_first name tools).
Proof.
  induction tools as [|t0 tools IH]; cbn [remove_first fmap list_fmap]; [done|].
  intros [Hnot Hnodup]%NoDup_cons.
  destruct (String.eqb_spec (Name t0) name) as [<-|Hne]; [done|].
  cbn [fmap list_fmap]. apply NoDup_cons. split; [|by apply IH].
  intros (t & Heq & [Hin _]%remove_first_elem)%list_elem_of_fmap; [|done].
  apply Hnot. rewrite Heq. apply list_elem_of_fmap. by exists t.
Qed.

Lemma agree_remove (tools : list tool) (toolsMap : gmap string tool) (name : string) :
  agree tools toolsMap ->
  agree (remove_first name tools) (delete name toolsMap).
Proof.
  intros [Hnodup Hagree]. split; [by apply remove_first_NoDup|].
  intros name' t. rewrite lookup_delete_Some, remove_first_elem, Hagree by done.
  split.
  - intros [Hne [Hin <-]]. done.
  - intros [[Hin Hne] <-]. done.
Qed.

Lemma agree_new (tools : list tool) :
  NoDup (Name <$> tools) ->
  agree tools (foldl (fun m t => <[Name t := t]> m) ∅ tools).
Proof.
  induction tools as [|t tools IH] using rev_ind; [intros _; apply agree_nil|].
  rewrite fmap_app. intros (Hnodup & Hnot & _)%NoDup_app.
  rewrite foldl_app. cbn [foldl]. apply agree_snoc; [by apply IH|].
  apply (agree_absent tools); [by apply IH|].
  intros Hin. apply (Hnot _ Hin), list_elem_of_here.
Qed.

Lemma call_server_consistent (s : SdkMCPServer) (c : server_call) :
  consistent s -> consistent (call_server s c).
Proof.
  intros Hs. destruct c as [t|name]; cbn [call_server].
  - unfold AddTool. destruct (SdkMCPServer_toolsMap s !! Name t) eqn:Ht; [done|].
    by apply agree_snoc.
  - unfold RemoveTool. destruct (SdkMCPServer_toolsMap s !! name); [|done].
    by apply agree_remove.
Qed.



Lemma remove_first_snoc (tools : list tool) (t : tool) :
  Name t ∉ Name <$> tools -> remove_first (Name t) (tools ++ [t]) = tools.
Proof.
  induction tools as [|t0 tools IH]; cbn [remove_first app fmap list_fmap].
  - intros _. by rewrite String.eqb_refl.
  - intros [Hne Hnot]%not_elem_of_cons.
    destruct (String.eqb_spec (Name t0) (Name t)) as [Heq|_]; [by destruct Hne|].
    by rewrite IH.
Qed.

(** X14. [RemoveTool] undoes [AddTool]: in a server whose list and index
    agree, after a tool was added, removing its name succeeds and gives
    the server as it was, list and index. *)
Theorem AddTool_then_RemoveTool (s s' : SdkMCPServer) (t : tool) :
  consistent s ->
  AddTool t s = Ok s' ->
  RemoveTool (Name t) s' = Ok s.
Proof.
  intros Hs. unfold AddTool, RemoveTool.
  destruct (SdkMCPServer_toolsMap s !! Name t) eqn:Ht; [done|]. intros [= <-].
  cbn [SdkMCPServer_toolsMap SdkMCPServer_tools SdkMCPServer_name SdkMCPServer_version].
  rewrite lookup_insert_eq, delete_insert_id by done.
  rewrite remove_first_snoc; [by destruct s|].
  by apply (agree_absent _ (SdkMCPServer_toolsMap s)).
Qed.

Lemma AddTool_then_RemoveTool_witness :
  RemoveTool (Name S3_add_tool) S3_server = Ok (NewSdkMCPServer "calc" "1.0.0" []).
Proof.
  apply (AddTool_then_RemoveTool (NewSdkMCPServer "calc" "1.0.0" []) S3_server
           S3_add_tool); [apply agree_nil | reflexivity].
Defined.

Lemma NewSdkMCPServer_snoc (tools : list tool) (t : tool) (name : string) :
  foldl (fun m t => <[Name t := t]> m) (∅ : gmap string tool) (tools ++ [t]) !! name
  = if String.eqb (Name t) name then Some t
    else foldl (fun m t => <[Name t := t]> m) (∅ : gmap string tool) tools !! name.
Proof.
  rewrite foldl_app. cbn [foldl].
  destruct (String.eqb_spec (Name t) name) as [<-|Hne].
  - by rewrite lookup_insert_eq.
  - by rewrite lookup_insert_ne.
Qed.

(** X15. When the tools given to [NewSdkMCPServer] share a name, the
    server lists them all but calls only the last: the list is the one
    given, and the index holds under a name the last tool of that name in
    the list (none when there is none). *)
Theorem last_tool_of_a_name_wins (name version toolName : string) (tools : list tool) :
  let s := NewSdkMCPServer name version tools in
  Tools s = tools
  /\ SdkMCPServer_toolsMap s !! toolName
     = last (filter (fun t => Name t = toolName) tools).
Proof.
  cbv zeta. split; [done|]. unfold NewSdkMCPServer. cbn [SdkMCPServer_toolsMap].
  induction tools as [|t tools IH] using rev_ind; [done|].
  rewrite NewSdkMCPServer_snoc, filter_app, IH.
  destruct (String.eqb_spec (Name t) toolName) as [Heq|Hne].
  - rewrite filter_cons_True by done. rewrite filter_nil. by rewrite last_snoc.
  - rewrite filter_cons_False by done. rewrite filter_nil. by rewrite app_nil_r.
Qed.

(** * The responses of the server *)

Lemma responseToMap_success (id : value) (result : rvalue) :
  is_nil result = false ->
  exists carried : rvalue,
    responseToMap (NewSuccessResponse id result) = result_body id carried.
Proof.
  intros Hnil. unfold responseToMap, NewSuccessResponse.
  cbn [Response_Error Response_Result Response_ID Response_JsonRpc]. rewrite Hnil.
  destruct (marshal_rvalue result) as [data|]; [|by eexists].
  destruct (unmarshal_any data); by eexists.
Qed.

Lemma response_inj (c c' : list call) (r r' : gmap string rvalue) (e e' : option error) :
  (c, Returned (Some r, e)) = (c', Returned (Some r', e')) ->
  c = c' /\ r = r' /\ e = e'.
Proof. intros H. by injection H. Qed.

Section Responses.

Variable Sprint : value -> string.
Variable MarshalText : value -> string.

(** X16. Every response of the server is a JSON-RPC 2.0 response to the
    request: it carries [jsonrpc: "2.0"], the id of the request (nil when
    the request has none) and either a result or an error, never both and
    never neither; the code of an error is -32601, -32602 or -32603. *)
Theorem HandleMessage_response (s : SdkMCPServer) (msg : gmap string value)
    (calls : list call) (resp : gmap string rvalue) (err : option error) :
  HandleMessage Sprint MarshalText s msg = (calls, Returned (Some resp, err)) ->
  err = None
  /\ ((exists result : rvalue, resp = result_body (index msg "id") result)
      \/ exists (code : Z) (message : string),
           resp = error_body (index msg "id") code message
           /\ code ∈ [ErrorCodeMethodNotFound; ErrorCodeInvalidParams;
                      ErrorCodeInternalError]).
Proof.
  unfold HandleMessage.
  destruct (as_string (index msg "method")) as [method|]; [|done].
  destruct (String.eqb method "initialize").
  { intros (<- & <- & <-)%response_inj. split; [reflexivity|]. left.
    apply responseToMap_success. reflexivity. }
  destruct (String.eqb method "tools/list").
  { intros (<- & <- & <-)%response_inj. split; [reflexivity|]. left.
    apply responseToMap_success. reflexivity. }
  destruct (String.eqb method "tools/call").
  2:{ intros (<- & <- & <-)%response_inj. split; [reflexivity|]. right. eexists _, _.
      split; [apply responseToMap_error|]. apply list_elem_of_here. }
  unfold handleToolsCall.
  destruct (as_map (index msg "params")) as [params|].
  2:{ intros (<- & <- & <-)%response_inj. split; [reflexivity|]. right. eexists _, _.
      split; [apply responseToMap_error|].
      apply list_elem_of_further, list_elem_of_here. }
  destruct (as_string (index params "name")) as [toolName|].
  2:{ intros (<- & <- & <-)%response_inj. split; [reflexivity|]. right. eexists _, _.
      split; [apply responseToMap_error|].
      apply list_elem_of_further, list_elem_of_here. }
  destruct (SdkMCPServer_toolsMap s !! toolName) as [t|].
  2:{ intros (<- & <- & <-)%response_inj. split; [reflexivity|]. right. eexists _, _.
      split; [apply responseToMap_error|]. apply list_elem_of_here. }
  destruct (as_map (index params "arguments")) as [input|].
  2:{ intros (<- & <- & <-)%response_inj. split; [reflexivity|]. right. eexists _, _.
      split; [apply responseToMap_error|].
      apply list_elem_of_further, list_elem_of_here. }
  destruct (Execute t input) as [calls' [[result [err'|]]|]]; [| |done].
  - intros (<- & <- & <-)%response_inj. split; [reflexivity|]. right. eexists _, _.
    split; [apply responseToMap_error|].
    apply list_elem_of_further, list_elem_of_further, list_elem_of_here.
  - intros (<- & <- & <-)%response_inj. split; [reflexivity|]. left.
    apply responseToMap_success. reflexivity.
Qed.

(** X17. A tool that was removed is no longer called: after [RemoveTool]
    of a name, a tools/call request for that name is answered with the
    error -32601 "tool not found: ..." and calls no handler, whatever its
    arguments. *)
Theorem removed_tool_is_not_found (s s' : SdkMCPServer) (name : string) (id : value)
    (arguments : gmap string value) :
  RemoveTool name s = Ok s' ->
  HandleMessage Sprint MarshalText s' (tools_call_message id name arguments)
  = ([], Returned (Some (error_body id ErrorCodeMethodNotFound
                           ("tool not found: " +:+ name)), None)).
Proof.
  unfold RemoveTool. destruct (SdkMCPServer_toolsMap s !! name); [|done].
  intros [= <-]. unfold HandleMessage.
  change (as_string (index (tools_call_message id name arguments) "method"))
    with (Some "tools/call").
  change ("tools/call" =? "initialize") with false.
  change ("tools/call" =? "tools/list") with false.
  change ("tools/call" =? "tools/call") with true. cbv iota.
  unfold handleToolsCall.
  change (as_map (index (tools_call_message id name arguments) "params"))
    with (Some (<["arguments" := VMap arguments]>
                  (<["name" := VString name]> (∅ : gmap string value)))).
  cbv iota beta.
  change (as_string (index (<["arguments" := VMap arguments]>
                              (<["name" := VString name]> (∅ : gmap string value)))
                       "name"))
    with (Some name).
  cbv iota beta. cbn [SdkMCPServer_toolsMap]. rewrite lookup_delete_eq.
  change (index (tools_call_message id name arguments) "id") with id.
  by rewrite responseToMap_error.
Qed.

End Responses.

Lemma HandleMessage_response_witness :
  @None error = None
  /\ ((exists result : rvalue,
          result_body (VFloat 7) (RValue (VMap S3_result))
          = result_body (index (S3_call S3_arguments) "id") result)
      \/ exists (code : Z) (message : string),
           result_body (VFloat 7) (RValue (VMap S3_result))
           = error_body (index (S3_call S3_arguments) "id") code message
           /\ code ∈ [ErrorCodeMethodNotFound; ErrorCodeInvalidParams;
                      ErrorCodeInternalError]).
Proof.
  apply (HandleMessage_response type_name type_name S3_server (S3_call S3_arguments)
           [HandlerCall S3_arguments]).
  reflexivity.
Defined.

Lemma removed_tool_is_not_found_witness :
  HandleMessage type_name type_name (NewSdkMCPServer "calc" "1.0.0" [])
    (tools_call_message (VFloat 7) "add" S3_arguments)
  = ([], Returned (Some (error_body (VFloat 7) ErrorCodeMethodNotFound
                           ("tool not found: " +:+ "add")), None)).
Proof.
  apply (removed_tool_is_not_found type_name type_name S3_server
           (NewSdkMCPServer "calc" "1.0.0" []) "add" (VFloat 7) S3_arguments).
  reflexivity.
Defined.

(** * JSON-RPC messages: the codec *)

Ltac rpc_fields :=
  cbn [Request_JsonRpc Request_ID Request_Method Request_Params
       Response_JsonRpc Response_ID Response_Result Response_Error
       Error_Code Error_Message Error_Data
       fmap option_fmap option_map default from_option id].

Ltac rpc_member assign := member assign; rpc_fields.

Lemma marshal_Error_round (e : Error) :
  wf_Error e ->
  exists members,
    marshal_Error e = Some (JObject members)
    /\ unmarshal_struct Error_assign (JObject members) zero_Error = Some e.
Proof.
  destruct e as [code message data]. unfold wf_Error, marshal_Error. rpc_fields.
  intros (Hcode & Hmessage & Hdata).
  destruct (member_any_omitempty_generic "data" data Hdata)
    as [[-> ->]|(j & -> & Hj)];
    binds; (eexists; split; [done|]); rewrite marshal_string_utf8 by done;
    unfold zero_Error, int64 in *.
  - rpc_member Error_assign. rewrite Hcode. rpc_fields.
    rpc_member Error_assign. by rewrite unmarshal_struct_nil.
  - rpc_member Error_assign. rewrite Hcode. rpc_fields.
    rpc_member Error_assign. rpc_member Error_assign. rewrite Hj. rpc_fields.
    by rewrite unmarshal_struct_nil.
Qed.





(** * The id generator *)

Lemma wrap_int64_small (z : Z) :
  (int64_min <= z <= int64_max)%Z -> wrap_int64 z = z.
Proof.
  unfold wrap_int64, int64_min, int64_max.
  change (2 ^ 63)%Z with 9223372036854775808%Z.
  change (2 ^ 64)%Z with 18446744073709551616%Z.
  intros Hz. rewrite Z.mod_small by lia. lia.
Qed.

Lemma generate_from (n : nat) (k : Z) :
  (0 <= k)%Z -> (k + Z.of_nat n <= int64_max)%Z ->
  generate n (mkIncrementingIDGenerator k)
  = (fun i : nat => (k + Z.of_nat i)%Z) <$> seq 1 n.
Proof.
  revert k. induction n as [|n IH]; intros k Hk Hn; [done|].
  cbn [generate IncrementingIDGenerator_Generate IncrementingIDGenerator_id].
  rewrite wrap_int64_small by (unfold int64_min, int64_max in *; lia).
  rewrite IH by lia. cbn [seq fmap list_fmap]. f_equal; [try lia..|].
  rewrite <- !seq_shift, <- !list_fmap_compose.
  apply list_fmap_ext. intros _ i _. cbn. lia.
Qed.

(** X20. The ids of an [IncrementingIDGenerator] are 1, 2, 3, ... in the
    order of the calls, hence distinct, for as long as the counter fits an
    int64 (the first 2^63 - 1 calls); the call after that wraps around to
    the least int64. *)
Theorem generated_ids (n : nat) :
  (Z.of_nat n <= int64_max)%Z ->
  generate n NewIncrementingIDGenerator = Z.of_nat <$> seq 1 n
  /\ NoDup (generate n NewIncrementingIDGenerator)
  /\ fst (IncrementingIDGenerator_Generate (mkIncrementingIDGenerator int64_max))
     = int64_min.
Proof.
  intros Hn.
  assert (Hids : generate n NewIncrementingIDGenerator = Z.of_nat <$> seq 1 n).
  { unfold NewIncrementingIDGenerator. rewrite generate_from by lia.
    apply list_fmap_ext. intros _ i _. lia. }
  split; [done|]. split; [|reflexivity].
  rewrite Hids. apply NoDup_fmap; [apply Nat2Z.inj'|apply NoDup_seq].
Qed.

Lemma generated_ids_witness :
  generate 3 NewIncrementingIDGenerator = Z.of_nat <$> seq 1 3
  /\ NoDup (generate 3 NewIncrementingIDGenerator)
  /\ fst (IncrementingIDGenerator_Generate (mkIncrementingIDGenerator int64_max))
     = int64_min.
Proof. apply (generated_ids 3). unfold int64_max. lia. Defined.

Lemma marshal_items_length (l : list value) (items : list json) :
  foldr (fun x acc =>
           match marshal_value x, acc with
           | Some j, Some js => Some (j :: js)
           | _, _ => None
           end) (Some []) l = Some items ->
  length items = length l.
Proof.
  revert items. induction l as [|x l IH]; intros items; cbn [foldr].
  - by intros [= <-].
  - destruct (marshal_value x) as [j|]; [|done].
    destruct (foldr _ _ l) as [js|]; [|done].
    intros [= <-]. cbn [length]. by rewrite (IH js).
Qed.



(** * The parts of a tool name *)

Lemma string_of_byte_underscores (c : ascii) :
  plain_name (string_of_byte c) = true
  /\ string_of_byte c <> ""
  /\ starts_with_underscore (string_of_byte c) = is_underscore c
  /\ ends_in_underscore (string_of_byte c) = is_underscore c.
Proof. destruct c as [[] [] [] [] [] [] [] []]; by vm_compute. Qed.

Lemma plain_name_cons (c c' : ascii) (rest : string) :
  plain_name (String c (String c' rest))
  = negb (is_underscore c && is_underscore c') && plain_name (String c' rest).
Proof. reflexivity. Qed.

Lemma plain_name_app (s t : string) :
  plain_name s = true -> plain_name t = true ->
  ends_in_underscore s && starts_with_underscore t = false ->
  plain_name (s +:+ t) = true.
Proof.
  induction s as [|c s IH]; [done|]. destruct s as [|c' s'].
  - intros _ Ht Hends. cbn [ends_in_underscore] in Hends.
    rewrite append_cons, append_empty_l. cbn [plain_name]. rewrite Ht.
    destruct t as [|c' t']; [done|]. cbn [starts_with_underscore] in Hends.
    by rewrite Hends.
  - rewrite plain_name_cons. intros [Hc Hs]%andb_prop Ht Hends.
    rewrite !append_cons, plain_name_cons, Hc. cbn [andb].
    rewrite <- append_cons. apply IH; [done..|]. exact Hends.
Qed.

Lemma ends_in_underscore_app (s t : string) :
  t <> "" -> ends_in_underscore (s +:+ t) = ends_in_underscore t.
Proof.
  intros Ht. induction s as [|c s IH]; [done|].
  rewrite append_cons. cbn [ends_in_underscore].
  destruct (s +:+ t) as [|c' u] eqn:Hst; [|done].
  destruct s; [by rewrite append_empty_l in Hst | done].
Qed.

Lemma splitLoop_parts_plain (n : nat) (toolName current : string) (parts : list string) :
  String.length toolName <= n ->
  Forall (fun part => plain_name part = true) parts ->
  plain_name current = true ->
  ends_in_underscore current && starts_with_underscore toolName = false ->
  Forall (fun part => plain_name part = true) (splitLoop toolName current parts).1
  /\ plain_name (splitLoop toolName current parts).2 = true.
Proof.
  revert toolName current parts.
  induction n as [|n IH]; intros toolName current parts Hn Hparts Hcurrent Hends.
  { destruct toolName; [done|cbn in Hn; lia]. }
  destruct toolName as [|c rest]; [done|].
  destruct (string_of_byte_underscores c) as (Hplain & Hne & Hstarts & Hends').
  assert (Hnext : forall rest',
             String.length rest' <= n ->
             is_underscore c && starts_with_underscore rest' = false ->
             Forall (fun part => plain_name part = true)
               (splitLoop rest' (current +:+ string_of_byte c) parts).1
             /\ plain_name (splitLoop rest' (current +:+ string_of_byte c) parts).2
                = true).
  { intros rest' Hlen Hc. apply IH; [done..| |].
    - apply plain_name_app; [done..|]. rewrite Hstarts.
      exact Hends.
    - by rewrite ends_in_underscore_app, Hends'. }
  cbn [splitLoop]. destruct rest as [|c' rest'].
  - apply Hnext; [cbn; lia | by rewrite andb_false_r].
  - destruct (is_underscore c && is_underscore c') eqn:Hboth.
    + apply IH; [cbn in Hn; lia | | done..].
      apply Forall_app. split; [done|]. by constructor.
    + apply Hnext; [cbn in *; lia | done].
Qed.

(** X22. No part that [splitToolName] returns holds a double underscore:
    the separator is taken out wherever it occurs, so that the server and
    the tool name of a routed call never contain one. *)
Theorem splitToolName_parts_plain (toolName : string) :
  Forall (fun part => plain_name part = true) (splitToolName toolName).
Proof.
  unfold splitToolName.
  destruct (splitLoop_parts_plain (String.length toolName) toolName "" [])
    as [Hparts Hcurrent]; [done..|].
  destruct (splitLoop toolName "" []) as [parts current]. cbn [fst snd] in *.
  destruct (String.eqb current ""); [done|].
  apply Forall_app. split; [done|]. by constructor.
Qed.

(** The first part a name is split into ends at its first double
    underscore. *)
Lemma splitLoop_first (n : nat) (toolName current : string) (parts : list string) :
  String.length toolName <= n ->
  splitLoop toolName current parts = (parts, current +:+ appended toolName)
  \/ exists before rest : string,
       toolName = before +:+ String "_" (String "_" rest)
       /\ splitLoop toolName current parts
          = splitLoop rest "" (parts ++ [current +:+ appended before]).
Proof.
  revert toolName current.
  induction n as [|n IH]; intros toolName current Hn.
  { destruct toolName; [|cbn in Hn; lia]. left. by rewrite append_empty_r. }
  destruct toolName as [|c rest]; [left; by rewrite append_empty_r|].
  assert (Hnext : splitLoop rest (current +:+ string_of_byte c) parts
                  = (parts, current +:+ appended (String c rest))
                  \/ exists before rest' : string,
                       String c rest = before +:+ String "_" (String "_" rest')
                       /\ splitLoop rest (current +:+ string_of_byte c) parts
                          = splitLoop rest' ""
                              (parts ++ [current +:+ appended before])).
  { destruct (IH rest (current +:+ string_of_byte c)) as [->|(before & rest' & -> & ->)];
      [cbn in Hn; lia | left | right].
    - cbn [appended]. by rewrite append_assoc'.
    - exists (String c before), rest'. split; [done|].
      cbn [appended]. by rewrite !append_assoc'. }
  cbn [splitLoop]. destruct rest as [|c' rest']; [done|].
  destruct (is_underscore c && is_underscore c') eqn:Hboth; [|done].
  right. exists "", rest'. apply andb_prop in Hboth as [Hc Hc'].
  apply Ascii.eqb_eq in Hc, Hc'. subst c c'. split; [done|].
  cbn [appended]. by rewrite append_empty_r.
Qed.

Lemma splitLoop_extends (n : nat) (toolName current : string) (parts : list string) :
  String.length toolName <= n ->
  exists more : list string, (splitLoop toolName current parts).1 = parts ++ more.
Proof.
  revert toolName current parts.
  induction n as [|n IH]; intros toolName current parts Hn.
  { destruct toolName; [|cbn in Hn; lia]. exists []. by rewrite app_nil_r. }
  destruct toolName as [|c rest]; [exists []; by rewrite app_nil_r|].
  cbn [splitLoop]. destruct rest as [|c' rest'].
  - exists []. by rewrite app_nil_r.
  - destruct (is_underscore c && is_underscore c').
    + destruct (IH rest' "" (parts ++ [current])) as [more ->]; [cbn in Hn; lia|].
      exists (current :: more). by rewrite <- app_assoc.
    + apply IH. cbn in *. lia.
Qed.

Lemma string_of_byte_cases (c : ascii) :
  string_of_byte c = String c ""
  \/ exists a b : ascii, string_of_byte c = String a (String b "") /\ is_ascii a = false.
Proof.
  destruct c as [[] [] [] [] [] [] [] []];
    first [left; reflexivity | right; eexists _, _; split; reflexivity].
Qed.

(** A name whose appended bytes are ASCII is made of these bytes. *)
Lemma appended_ascii (s t : string) :
  ascii_only t = true -> appended s = t -> s = t.
Proof.
  revert t. induction s as [|c s IH]; intros t Ht; cbn [appended]; [done|].
  destruct (string_of_byte_cases c) as [->|(a & b & -> & Ha)].
  - rewrite append_cons, append_empty_l. destruct t as [|c0 t]; [done|].
    intros [= -> Hs]. cbn [ascii_only] in Ht. apply andb_prop in Ht as [_ Ht].
    f_equal. by apply IH.
  - rewrite !append_cons. destruct t as [|c0 t]; [done|].
    intros [= -> _]. cbn [ascii_only] in Ht. rewrite Ha in Ht. done.
Qed.

(** X23. Only names that begin with "mcp__" are routed to an MCP server:
    when [RouteToolUse] answers that the tool is an MCP tool, the name
    begins with "mcp__", the server and the tool name it returns hold no
    double underscore, and it returns no error. *)
Theorem routed_names (t : MCPServerTransport) (toolName serverName routed : string)
    (err : option error) :
  RouteToolUse t toolName = (true, serverName, routed, err) ->
  (exists rest : string, toolName = "mcp__" +:+ rest)
  /\ plain_name serverName = true
  /\ plain_name routed = true
  /\ err = None.
Proof.
  unfold RouteToolUse. pose proof (splitToolName_parts_plain toolName) as Hplain.
  destruct (splitToolName toolName) as [|p0 [|p1 [|p2 [|p3 parts]]]] eqn:Hsplit;
    try done.
  destruct (String.eqb_spec p0 "mcp") as [->|_]; [|done].
  intros Hroute.
  assert (Hnames : serverName = p1 /\ routed = p2 /\ err = None).
  { by destruct (GetSDKMCPServer t p1).2; injection Hroute as <- <- <-. }
  destruct Hnames as (-> & -> & ->).
  apply Forall_cons in Hplain as [_ [Hp1 [Hp2 _]%Forall_cons]%Forall_cons].
  split; [|done]. revert Hsplit. unfold splitToolName.
  destruct (splitLoop_first (String.length toolName) toolName "" [])
    as [->|(before & rest & -> & ->)]; [done| |].
  - by destruct (String.eqb _ "").
  - destruct (splitLoop_extends (String.length rest) rest ""
                ([] ++ ["" +:+ appended before])) as [more Hmore]; [done|].
    destruct (splitLoop rest "" _) as [parts current]. cbn [fst] in Hmore.
    subst parts. rewrite append_empty_l. cbn [app].
    intros Hparts. exists rest.
    assert (Hbefore : appended before = "mcp").
    { by destruct (String.eqb current ""); injection Hparts as ->. }
    by rewrite (appended_ascii before "mcp" eq_refl Hbefore).
Qed.

Lemma routed_names_witness :
  (exists rest : string, "mcp__calc__add" = "mcp__" +:+ rest)
  /\ plain_name "calc" = true
  /\ plain_name "add" = true
  /\ (None : option error) = None.
Proof.
  apply (routed_names (mkMCPServerTransport ∅) "mcp__calc__add" "calc" "add" None).
  reflexivity.
Defined.

